(** * The tool-calling orchestration of [backend/ai_generator.py]

    A shallow embedding of [ToolRoundState] and [AIGenerator]: the
    single-call path ([generate_response], [_handle_tool_execution]) and
    the sequential path ([generate_response_with_sequential_tools],
    [_execute_tool_round], [_get_final_response]).

    The two collaborators (the model endpoint [client.messages.create] and
    the tool executor [tool_manager.execute_tool]) are arbitrary functions
    of the interaction log so far, so a statement that quantifies over them
    covers every scripted or stateful behaviour.  Python exceptions are
    values; [try ... except Exception] is a combinator that handles exactly
    the exceptions derived from [Exception]. *)

From Stdlib Require Import String List ZArith Bool Lia Arith.
From Equations Require Import Equations.
From Equations.Prop Require Import Logic.
Import ListNotations.

Open Scope string_scope.
Open Scope list_scope.

(* ===================================================================== *)
(** ** Python values *)
(* ===================================================================== *)

(** A raised exception: whether its class derives from [Exception] (what
    [except Exception] handles; [KeyboardInterrupt] and [SystemExit] do
    not), and [str(e)]. *)
Record PyExn : Type := mkExn {
  exn_is_Exception : bool;
  exn_str : string
}.

Inductive PyResult (A : Type) : Type :=
| Ok (a : A)
| Raise (e : PyExn).
Arguments Ok {A} a.
Arguments Raise {A} e.

(** [Dict[str, Any]] input of a tool call, as an association list. *)
Definition ToolInput : Type := list (string * string).

(** A tool descriptor: passed through to the endpoint, never inspected. *)
Definition ToolDescriptor : Type := string.

(** A content block of a model response.  [block_text] is [Some] exactly
    when [hasattr(block, 'text')] holds. *)
Record ContentBlock : Type := mkBlock {
  block_type : string;
  block_text : option string;
  block_name : string;
  block_id : string;
  block_input : ToolInput
}.

Record Response : Type := mkResponse {
  stop_reason : string;
  content : list ContentBlock
}.

(** The dict appended to [tool_results]. *)
Record ToolResult : Type := mkToolResult {
  tr_type : string;
  tr_tool_use_id : string;
  tr_content : string
}.

(** The ["content"] of a transcript entry: the query text, the raw content
    of a model response, or a batch of tool results. *)
Inductive MessageContent : Type :=
| TextContent (text : string)
| BlockContent (blocks : list ContentBlock)
| ToolResultContent (results : list ToolResult).

Record Message : Type := mkMessage {
  role : string;
  msg_content : MessageContent
}.

(** The keyword arguments of [client.messages.create]; an absent key is
    [None]. *)
Record ApiParams : Type := mkParams {
  p_model : string;
  p_temperature : Z;
  p_max_tokens : Z;
  p_messages : list Message;
  p_system : string;
  p_tools : option (list ToolDescriptor);
  p_tool_choice : option string
}.

(** One entry of [tool_execution_history]. *)
Record ToolExecution : Type := mkToolExecution {
  te_round : Z;
  te_tool_name : string;
  te_input : ToolInput;
  te_result : string
}.

(* ===================================================================== *)
(** ** [ToolRoundState] *)
(* ===================================================================== *)

Record ToolRoundState : Type := mkRoundState {
  current_round : Z;
  max_rounds : Z;
  tool_execution_history : list ToolExecution;
  messages : list Message;
  system_content : string;
  has_errors : bool
}.

Definition can_continue (self : ToolRoundState) : bool :=
  (current_round self <=? max_rounds self)%Z && negb (has_errors self).

Definition advance_round (self : ToolRoundState) : ToolRoundState :=
  mkRoundState (current_round self + 1)%Z (max_rounds self)
    (tool_execution_history self) (messages self) (system_content self)
    (has_errors self).

Definition add_tool_execution (tool_name : string) (tool_input : ToolInput)
    (tool_result : string) (self : ToolRoundState) : ToolRoundState :=
  mkRoundState (current_round self) (max_rounds self)
    (tool_execution_history self ++
       [mkToolExecution (current_round self) tool_name tool_input tool_result])
    (messages self) (system_content self) (has_errors self).

(** [round_state.messages.append(m)] *)
Definition messages_append (m : Message) (self : ToolRoundState) : ToolRoundState :=
  mkRoundState (current_round self) (max_rounds self)
    (tool_execution_history self) (messages self ++ [m])
    (system_content self) (has_errors self).

(** [round_state.has_errors = True] *)
Definition set_has_errors (self : ToolRoundState) : ToolRoundState :=
  mkRoundState (current_round self) (max_rounds self)
    (tool_execution_history self) (messages self) (system_content self) true.

(* ===================================================================== *)
(** ** The collaborators and the interaction log *)
(* ===================================================================== *)

(** Every call that leaves the component, with what came back. *)
Inductive Event : Type :=
| EvCreate (params : ApiParams) (outcome : PyResult Response)
| EvTool (name : string) (input : ToolInput) (outcome : PyResult string).

Definition Trace : Type := list Event.

(** [tool_manager.execute_tool(name, **input)], given the log so far. *)
Definition ToolManager : Type := Trace -> string -> ToolInput -> PyResult string.

(** [self]: the endpoint [client.messages.create] given the log so far,
    [self.model], and the class constant [SYSTEM_PROMPT], whose text takes
    no part in the control flow and is kept as a field. *)
Record AIGenerator : Type := mkAIGenerator {
  messages_create : Trace -> ApiParams -> PyResult Response;
  model : string;
  SYSTEM_PROMPT : string
}.

(** The state a sequential run threads: the local [round_state] object
    and the log. *)
Record SeqState : Type := mkSeq {
  round_state : ToolRoundState;
  trace : Trace
}.

(* ===================================================================== *)
(** ** A state-and-exception monad for Python code *)
(* ===================================================================== *)

Definition Py (S A : Type) : Type := S -> PyResult A * S.

Definition ret {S A : Type} (a : A) : Py S A := fun s => (Ok a, s).

Definition bind {S A B : Type} (m : Py S A) (k : A -> Py S B) : Py S B :=
  fun s =>
    match m s with
    | (Ok a, s') => k a s'
    | (Raise e, s') => (Raise e, s')
    end.

(** [try: body / except Exception as e: handler e].  What [body] did to
    the state before raising stays done. *)
Definition try_except {S A : Type} (body : Py S A) (handler : PyExn -> Py S A)
    : Py S A :=
  fun s =>
    match body s with
    | (Ok a, s') => (Ok a, s')
    | (Raise e, s') =>
        if exn_is_Exception e then handler e s' else (Raise e, s')
    end.

Declare Scope py_scope.
Delimit Scope py_scope with py.
Notation "x <- m ;; k" := (bind m (fun x => k))
  (at level 61, m at next level, right associativity) : py_scope.
Notation "m ;; k" := (bind m (fun _ => k))
  (at level 61, right associativity) : py_scope.

(** Mutation of the local [round_state]. *)
Definition get_round_state : Py SeqState ToolRoundState :=
  fun s => (Ok (round_state s), s).

Definition update_round_state (f : ToolRoundState -> ToolRoundState)
    : Py SeqState unit :=
  fun s => (Ok tt, mkSeq (f (round_state s)) (trace s)).

(** [self.client.messages.create] applied to the keyword arguments [params] *)
Definition create (self : AIGenerator) (params : ApiParams) : Py Trace Response :=
  fun tr =>
    let outcome := messages_create self tr params in
    (outcome, tr ++ [EvCreate params outcome]).

(** [tool_manager.execute_tool(name, **input)] *)
Definition execute_tool (tool_manager : ToolManager) (name : string)
    (input : ToolInput) : Py Trace string :=
  fun tr =>
    let outcome := tool_manager tr name input in
    (outcome, tr ++ [EvTool name input outcome]).

(** A call that only touches the log, run inside a sequential run. *)
Definition on_trace {A : Type} (m : Py Trace A) : Py SeqState A :=
  fun s =>
    let '(r, tr) := m (trace s) in
    (r, mkSeq (round_state s) tr).

(* ===================================================================== *)
(** ** Helpers of [AIGenerator] *)
(* ===================================================================== *)

Definition newline : string := String (Ascii.ascii_of_nat 10) EmptyString.

(** Truth value of an [Optional[List]]: a non-empty list. *)
Definition truthy_list {A : Type} (l : option (list A)) : bool :=
  match l with
  | Some (_ :: _) => true
  | _ => false
  end.

Definition is_tool_use (block : ContentBlock) : bool :=
  (block_type block =? "tool_use")%string.

(** The system content both paths build: the f-string when
    [conversation_history] is truthy (a non-empty string), the bare prompt
    otherwise. *)
Definition build_system_content (self : AIGenerator)
    (conversation_history : option string) : string :=
  match conversation_history with
  | Some (String _ _ as history) =>
      (SYSTEM_PROMPT self ++ newline ++ newline ++ "Previous conversation:"
         ++ newline ++ history)%string
  | _ => SYSTEM_PROMPT self
  end.

(** [{**self.base_params, "messages": ..., "system": ...}], with
    ["tools"] and ["tool_choice"] when [with_tools] is given. *)
Definition api_params (self : AIGenerator) (msgs : list Message) (system : string)
    (with_tools : option (list ToolDescriptor)) : ApiParams :=
  mkParams (model self) 0%Z 800%Z msgs system with_tools
    (match with_tools with Some _ => Some "auto" | None => None end).

Definition user_query (query : string) : Message :=
  mkMessage "user" (TextContent query).

Definition assistant_turn (response : Response) : Message :=
  mkMessage "assistant" (BlockContent (content response)).

Definition tool_result_turn (tool_results : list ToolResult) : Message :=
  mkMessage "user" (ToolResultContent tool_results).

Definition tool_result_entry (content_block : ContentBlock) (tool_result : string)
    : ToolResult :=
  mkToolResult "tool_result" (block_id content_block) tool_result.

Definition _has_tool_calls (response : option Response) : bool :=
  match response with
  | None => false
  | Some r =>
      match content r with
      | [] => false
      | _ => existsb is_tool_use (content r)
      end
  end.

Definition no_valid_content : string :=
  "Error: No valid response content received from AI.".

(** The [for block in response.content] of [_extract_text_response]. *)
Fixpoint first_text (blocks : list ContentBlock) : option string :=
  match blocks with
  | [] => None
  | block :: rest =>
      match block_text block with
      | Some t => Some t
      | None => first_text rest
      end
  end.

Definition _extract_text_response (response : option Response) : string :=
  match response with
  | Some r =>
      match first_text (content r) with
      | Some t => t
      | None => no_valid_content
      end
  | None => no_valid_content
  end.

(* ===================================================================== *)
(** ** The sequential path *)
(* ===================================================================== *)

Open Scope py_scope.

(** The [for content_block in response.content] loop of
    [_execute_tool_round], lines 222-245: [None] from the guarded body is
    the [break] of the handler. *)
Fixpoint execute_tool_calls (tool_manager : ToolManager)
    (blocks : list ContentBlock) (tool_results : list ToolResult)
    : Py SeqState (list ToolResult) :=
  match blocks with
  | [] => ret tool_results
  | content_block :: rest =>
      if is_tool_use content_block then
        step <- try_except
                  (tool_result <- on_trace
                     (execute_tool tool_manager (block_name content_block)
                        (block_input content_block)) ;;
                   update_round_state
                     (add_tool_execution (block_name content_block)
                        (block_input content_block) tool_result) ;;
                   ret (Some (tool_results ++
                                [tool_result_entry content_block tool_result])))
                  (fun _ => update_round_state set_has_errors ;; ret None) ;;
        match step with
        | Some tool_results' => execute_tool_calls tool_manager rest tool_results'
        | None => ret tool_results
        end
      else execute_tool_calls tool_manager rest tool_results
  end.

(** Lines 200-210: the parameters of a round's model call; the tools go
    along when some were given and the round is within the budget. *)
Definition round_params (self : AIGenerator)
    (tools : option (list ToolDescriptor)) (round_state : ToolRoundState)
    : ApiParams :=
  api_params self (messages round_state) (system_content round_state)
    (if truthy_list tools
        && (current_round round_state <=? max_rounds round_state)%Z
     then tools else None).

Definition _execute_tool_round (self : AIGenerator)
    (tools : option (list ToolDescriptor)) (tool_manager : option ToolManager)
    : Py SeqState (option Response) :=
  round_state <- get_round_state ;;
  response <- on_trace (create self (round_params self tools round_state)) ;;
  match tool_manager with
  | Some manager =>
      if (stop_reason response =? "tool_use")%string then
        update_round_state (messages_append (assistant_turn response)) ;;
        tool_results <- execute_tool_calls manager (content response) [] ;;
        match tool_results with
        | [] => ret (Some response)
        | _ :: _ =>
            update_round_state (messages_append (tool_result_turn tool_results)) ;;
            ret (Some response)
        end
      else ret (Some response)
  | None => ret (Some response)
  end.

(** Lines 271-275: the parameters of the final call, without tools. *)
Definition final_params (self : AIGenerator) (round_state : ToolRoundState)
    : ApiParams :=
  api_params self (messages round_state) (system_content round_state) None.

Definition _get_final_response (self : AIGenerator) : Py SeqState string :=
  round_state <- get_round_state ;;
  try_except
    (final_response <- on_trace (create self (final_params self round_state)) ;;
     ret (_extract_text_response (Some final_response)))
    (fun e => ret ("Error generating final response: " ++ exn_str e)%string).

(** How the [while] of [generate_response_with_sequential_tools] ends:
    by the [return] inside it, or by falling out of it ([can_continue]
    false, or the [break]) with [last_response]. *)
Inductive LoopExit : Type :=
| Returned (text : string)
| Fell (last_response : option Response).

(** Rounds still allowed: the measure under which the [while] ends. *)
Definition rounds_left (st : ToolRoundState) : nat :=
  Z.to_nat (max_rounds st + 1 - current_round st).

Definition advance (s : SeqState) : SeqState :=
  mkSeq (advance_round (round_state s)) (trace s).

Definition mark_errors (s : SeqState) : SeqState :=
  mkSeq (set_has_errors (round_state s)) (trace s).

(** A round leaves [current_round] and [max_rounds] alone: only
    [advance_round], in the loop itself, moves the counter. *)
Definition same_budget (a b : ToolRoundState) : Prop :=
  current_round b = current_round a /\ max_rounds b = max_rounds a.

Ltac py_unfold :=
  unfold bind, ret, try_except, on_trace, get_round_state, update_round_state,
    create, execute_tool in *; cbn [round_state trace fst snd] in *.

Lemma execute_tool_calls_budget (tm : ToolManager) (blocks : list ContentBlock) :
  forall results s r s',
    execute_tool_calls tm blocks results s = (r, s') ->
    same_budget (round_state s) (round_state s').
Proof.
  induction blocks as [| b rest IH]; intros results s r s' H; cbn in H.
  - py_unfold. inversion H; subst. split; reflexivity.
  - destruct (is_tool_use b); [| eapply IH; eassumption].
    py_unfold.
    destruct (tm (trace s) (block_name b) (block_input b)) as [out | e].
    + apply IH in H. destruct H as [H1 H2]. cbn in *. split; assumption.
    + destruct (exn_is_Exception e); inversion H; subst; split; reflexivity.
Qed.

Lemma _execute_tool_round_budget (self : AIGenerator) tools tool_manager :
  forall s r s',
    _execute_tool_round self tools tool_manager s = (r, s') ->
    same_budget (round_state s) (round_state s').
Proof.
  intros s r s' H. unfold _execute_tool_round in H. py_unfold.
  destruct (messages_create self (trace s) _) as [resp | e].
  2: { inversion H; subst. split; reflexivity. }
  destruct tool_manager as [tm |].
  2: { inversion H; subst. split; reflexivity. }
  destruct (stop_reason resp =? "tool_use")%string.
  2: { inversion H; subst. split; reflexivity. }
  destruct (execute_tool_calls tm (content resp) [] _) as [[res | e] s1] eqn:E.
  - apply execute_tool_calls_budget in E. cbn in E.
    destruct res; inversion H; subst; cbn; exact E.
  - apply execute_tool_calls_budget in E. cbn in E.
    inversion H; subst. exact E.
Qed.

(** The [while round_state.can_continue()] loop, lines 169-184. *)
Equations? rounds_loop (self : AIGenerator) (tools : option (list ToolDescriptor))
    (tool_manager : option ToolManager) (last_response : option Response)
    (s : SeqState) : PyResult LoopExit * SeqState
    by wf (rounds_left (round_state s)) lt :=
  rounds_loop self tools tool_manager last_response s
    with inspect (can_continue (round_state s)) := {
    | exist _ false _ => (Ok (Fell last_response), s)
    | exist _ true Hc
        with inspect (_execute_tool_round self tools tool_manager s) := {
        | exist _ (Raise e, s1) _ => (Raise e, s1)
        | exist _ (Ok None, s1) _ => (Ok (Fell None), mark_errors s1)
        | exist _ (Ok (Some response), s1) Hr
            with inspect (_has_tool_calls (Some response)) := {
            | exist _ true _ =>
                rounds_loop self tools tool_manager (Some response) (advance s1)
            | exist _ false _ =>
                (Ok (Returned (_extract_text_response (Some response))), s1) } } }.
Proof.
  apply _execute_tool_round_budget in Hr.
  destruct Hr as [H1 H2]. unfold can_continue in Hc.
  apply andb_prop in Hc. destruct Hc as [Hc _].
  apply Z.leb_le in Hc.
  unfold rounds_left. cbn. rewrite H1, H2. lia.
Qed.

Definition no_response_received : string := "Error: No response received".

(** Lines 186-192: what follows the loop. *)
Definition after_loop (self : AIGenerator) (exit : LoopExit) : Py SeqState string :=
  match exit with
  | Returned text => ret text
  | Fell last_response =>
      if _has_tool_calls last_response then _get_final_response self
      else
        match last_response with
        | Some _ => ret (_extract_text_response last_response)
        | None => ret no_response_received
        end
  end.

(** The [round_state] built by lines 153-163. *)
Definition initial_round_state (self : AIGenerator) (query : string)
    (conversation_history : option string) (max_rounds : Z) : ToolRoundState :=
  mkRoundState 1%Z max_rounds []
    [user_query query]
    (build_system_content self conversation_history)
    false.

(** The [try ... except Exception] of lines 165-195. *)
Definition sequential_rounds (self : AIGenerator)
    (tools : option (list ToolDescriptor)) (tool_manager : option ToolManager)
    : Py SeqState string :=
  try_except
    (exit <- rounds_loop self tools tool_manager None ;;
     after_loop self exit)
    (fun e => ret ("Error during sequential tool execution: " ++ exn_str e)%string).

(** The whole call with its final [round_state] still in view. *)
Definition sequential_run (self : AIGenerator) (query : string)
    (conversation_history : option string)
    (tools : option (list ToolDescriptor)) (tool_manager : option ToolManager)
    (max_rounds : Z) (tr : Trace) : PyResult string * SeqState :=
  sequential_rounds self tools tool_manager
    (mkSeq (initial_round_state self query conversation_history max_rounds) tr).

Definition generate_response_with_sequential_tools (self : AIGenerator)
    (query : string) (conversation_history : option string)
    (tools : option (list ToolDescriptor)) (tool_manager : option ToolManager)
    (max_rounds : Z) : Py Trace string :=
  fun tr =>
    let '(r, s) :=
      sequential_run self query conversation_history tools tool_manager
        max_rounds tr in
    (r, trace s).

(* ===================================================================== *)
(** ** The single-call path *)
(* ===================================================================== *)

(** The [for] loop of [_handle_tool_execution], lines 304-315: no handler
    around [execute_tool]. *)
Fixpoint handle_tool_calls (tool_manager : ToolManager)
    (blocks : list ContentBlock) (tool_results : list ToolResult)
    : Py Trace (list ToolResult) :=
  match blocks with
  | [] => ret tool_results
  | content_block :: rest =>
      if is_tool_use content_block then
        tool_result <- execute_tool tool_manager (block_name content_block)
                         (block_input content_block) ;;
        handle_tool_calls tool_manager rest
          (tool_results ++ [tool_result_entry content_block tool_result])
      else handle_tool_calls tool_manager rest tool_results
  end.

(** [response.content and hasattr(response.content[0], 'text')], then
    [response.content[0].text] or the fallback. *)
Definition first_block_text (response : Response) (fallback : string) : string :=
  match content response with
  | block :: _ =>
      match block_text block with
      | Some t => t
      | None => fallback
      end
  | [] => fallback
  end.

Definition no_valid_content_after_tools : string :=
  "Error: No valid response content received from AI after tool execution.".

Definition _handle_tool_execution (self : AIGenerator)
    (initial_response : Response) (base_params : ApiParams)
    (tool_manager : ToolManager) : Py Trace string :=
  let msgs := p_messages base_params ++ [assistant_turn initial_response] in
  tool_results <- handle_tool_calls tool_manager (content initial_response) [] ;;
  let msgs :=
    match tool_results with
    | [] => msgs
    | _ :: _ => msgs ++ [tool_result_turn tool_results]
    end in
  let final_params := api_params self msgs (p_system base_params) None in
  final_response <- create self final_params ;;
  ret (first_block_text final_response no_valid_content_after_tools).

Definition generate_response (self : AIGenerator) (query : string)
    (conversation_history : option string)
    (tools : option (list ToolDescriptor)) (tool_manager : option ToolManager)
    : Py Trace string :=
  let system_content := build_system_content self conversation_history in
  let params :=
    api_params self [user_query query] system_content
      (if truthy_list tools then tools else None) in
  response <- create self params ;;
  match tool_manager with
  | Some manager =>
      if (stop_reason response =? "tool_use")%string
      then _handle_tool_execution self response params manager
      else ret (first_block_text response no_valid_content)
  | None => ret (first_block_text response no_valid_content)
  end.

Close Scope py_scope.

(* ===================================================================== *)
(** ** Observations on the log and the transcript *)
(* ===================================================================== *)

Definition is_create (ev : Event) : bool :=
  match ev with EvCreate _ _ => true | EvTool _ _ _ => false end.

Definition is_tool_event (ev : Event) : bool :=
  match ev with EvTool _ _ _ => true | EvCreate _ _ => false end.

(** Number of calls to the model endpoint / the tool executor in a log. *)
Definition model_calls (tr : Trace) : nat := length (filter is_create tr).
Definition tool_calls (tr : Trace) : nat := length (filter is_tool_event tr).

(** The tool-use requests among the blocks of a response. *)
Definition tool_uses (blocks : list ContentBlock) : list ContentBlock :=
  filter is_tool_use blocks.

(** The log entries of the tool-use requests of [blocks] answered by
    [outs], in order, and the batch of results built from them. *)
Definition ok_events (blocks : list ContentBlock) (outs : list string) : Trace :=
  map (fun bo => EvTool (block_name (fst bo)) (block_input (fst bo)) (Ok (snd bo)))
    (combine (tool_uses blocks) outs).

Definition batch (blocks : list ContentBlock) (outs : list string)
    : list ToolResult :=
  map (fun bo => tool_result_entry (fst bo) (snd bo))
    (combine (tool_uses blocks) outs).

(** The fields of [round_state] a tool dispatch never writes. *)
Definition same_frame (a b : ToolRoundState) : Prop :=
  current_round b = current_round a /\ max_rounds b = max_rounds a /\
  messages b = messages a /\ system_content b = system_content a.

(** The turns a dispatching round appends to the transcript: the model's
    response, then the batch of results when it is not empty. *)
Definition round_turns (response : Response) (results : list ToolResult)
    : list Message :=
  assistant_turn response ::
  match results with
  | [] => []
  | _ :: _ => [tool_result_turn results]
  end.

(** The five ways one call of [_execute_tool_round] from [s] can go, each
    with what it returns and the state it leaves. *)
Inductive round_outcome (self : AIGenerator) (tools : option (list ToolDescriptor))
    (tool_manager : option ToolManager) (s : SeqState)
    : PyResult (option Response) -> SeqState -> Prop :=
| RoundCreateFailed (e : PyExn) :
    messages_create self (trace s) (round_params self tools (round_state s))
      = Raise e ->
    round_outcome self tools tool_manager s (Raise e)
      (mkSeq (round_state s)
         (trace s ++ [EvCreate (round_params self tools (round_state s)) (Raise e)]))
| RoundNoDispatch (response : Response) :
    messages_create self (trace s) (round_params self tools (round_state s))
      = Ok response ->
    tool_manager = None \/ stop_reason response <> "tool_use" ->
    round_outcome self tools tool_manager s (Ok (Some response))
      (mkSeq (round_state s)
         (trace s ++ [EvCreate (round_params self tools (round_state s)) (Ok response)]))
| RoundDispatched (response : Response) (outs : list string) (s' : SeqState) :
    stop_reason response = "tool_use" -> tool_manager <> None ->
    length outs = length (tool_uses (content response)) ->
    trace s' = trace s
      ++ EvCreate (round_params self tools (round_state s)) (Ok response)
         :: ok_events (content response) outs ->
    messages (round_state s') = messages (round_state s)
      ++ round_turns response (batch (content response) outs) ->
    has_errors (round_state s') = has_errors (round_state s) ->
    same_budget (round_state s) (round_state s') ->
    system_content (round_state s') = system_content (round_state s) ->
    round_outcome self tools tool_manager s (Ok (Some response)) s'
| RoundToolFailed (response : Response) (pre : list ContentBlock)
    (b : ContentBlock) (post : list ContentBlock) (outs : list string)
    (e : PyExn) (s' : SeqState) :
    stop_reason response = "tool_use" -> tool_manager <> None ->
    content response = pre ++ b :: post -> is_tool_use b = true ->
    exn_is_Exception e = true ->
    length outs = length (tool_uses pre) ->
    trace s' = trace s
      ++ EvCreate (round_params self tools (round_state s)) (Ok response)
         :: ok_events pre outs
      ++ [EvTool (block_name b) (block_input b) (Raise e)] ->
    messages (round_state s') = messages (round_state s)
      ++ round_turns response (batch pre outs) ->
    has_errors (round_state s') = true ->
    same_budget (round_state s) (round_state s') ->
    system_content (round_state s') = system_content (round_state s) ->
    round_outcome self tools tool_manager s (Ok (Some response)) s'
| RoundToolPropagated (response : Response) (pre : list ContentBlock)
    (b : ContentBlock) (post : list ContentBlock) (outs : list string)
    (e : PyExn) (s' : SeqState) :
    stop_reason response = "tool_use" -> tool_manager <> None ->
    content response = pre ++ b :: post -> is_tool_use b = true ->
    exn_is_Exception e = false ->
    length outs = length (tool_uses pre) ->
    trace s' = trace s
      ++ EvCreate (round_params self tools (round_state s)) (Ok response)
         :: ok_events pre outs
      ++ [EvTool (block_name b) (block_input b) (Raise e)] ->
    messages (round_state s') = messages (round_state s)
      ++ [assistant_turn response] ->
    has_errors (round_state s') = has_errors (round_state s) ->
    same_budget (round_state s) (round_state s') ->
    system_content (round_state s') = system_content (round_state s) ->
    round_outcome self tools tool_manager s (Raise e) s'.

(** What the final, tool-free call turns into (lines 277-282): the text
    extracted from its response, or the placeholder of the handler. *)
Definition final_call_result (outcome : PyResult Response) : PyResult string :=
  match outcome with
  | Ok final_response => Ok (_extract_text_response (Some final_response))
  | Raise e =>
      if exn_is_Exception e
      then Ok ("Error generating final response: " ++ exn_str e)%string
      else Raise e
  end.

(** A response is malformed or empty: no block carries a text and none
    asks for a tool (an empty content is the first case of both). *)
Definition malformed (response : Response) : bool :=
  match first_text (content response) with
  | None => negb (existsb is_tool_use (content response))
  | Some _ => false
  end.

(** The diagnostic placeholders of the sequential path: the literals of
    lines 192, 195, 265 and 282. *)
Inductive placeholder : string -> Prop :=
| placeholder_no_response : placeholder no_response_received
| placeholder_no_content : placeholder no_valid_content
| placeholder_sequential (msg : string) :
    placeholder ("Error during sequential tool execution: " ++ msg)%string
| placeholder_final (msg : string) :
    placeholder ("Error generating final response: " ++ msg)%string.

(* ===================================================================== *)
(** ** Scripted collaborators and scenarios *)
(* ===================================================================== *)

Definition StopIteration : PyExn := mkExn true "".

(** A mock with [side_effect = script]: the n-th call gets the n-th
    entry, and a call past the end raises [StopIteration]. *)
Definition scripted_client (script : list (PyResult Response))
    : Trace -> ApiParams -> PyResult Response :=
  fun tr _ => nth (model_calls tr) script (Raise StopIteration).

Definition scripted_tools (script : list (PyResult string)) : ToolManager :=
  fun tr _ _ => nth (tool_calls tr) script (Raise StopIteration).

Definition generator (script : list (PyResult Response)) : AIGenerator :=
  mkAIGenerator (scripted_client script) "test-model" "SYSTEM".

Definition text_block (t : string) : ContentBlock :=
  mkBlock "text" (Some t) "" "" [].

Definition tool_use_block (name id : string) (input : ToolInput) : ContentBlock :=
  mkBlock "tool_use" None name id input.

Definition tool_failed : PyExn := mkExn true "Tool failed".
Definition connection_error : PyExn := mkExn true "Connection error.".

Definition search_tools : option (list ToolDescriptor) :=
  Some ["search_course_content"].

Definition search_block : ContentBlock :=
  tool_use_block "search_course_content" "tool1" [("query", "test")].

(** A response that asks for one search. *)
Definition tool_response : Response := mkResponse "tool_use" [search_block].

(** A response that says something and asks for one search. *)
Definition talkative_tool_response : Response :=
  mkResponse "tool_use" [text_block "Let me search."; search_block].

Definition synthesized_response : Response :=
  mkResponse "end_turn" [text_block "Synthesized answer"].

(** One failing tool: the model asks for a search, the executor raises,
    and the endpoint has one more answer ready. *)
Definition failing_tool_run : PyResult string * Trace :=
  generate_response_with_sequential_tools
    (generator [Ok talkative_tool_response; Ok synthesized_response])
    "Query that causes tool failure" None search_tools
    (Some (scripted_tools [Raise tool_failed])) 2 [].

Definition outline_block : ContentBlock :=
  tool_use_block "get_course_outline" "tool0" [("course_name", "MCP")].

Definition late_block : ContentBlock :=
  tool_use_block "search_course_content" "tool2" [("query", "later")].

(** A round whose response asks for three tools; the executor answers
    the first and raises on the second. *)
Definition three_tool_response : Response :=
  mkResponse "tool_use" [outline_block; text_block "Checking."; search_block; late_block].

Definition partial_failure_generator : AIGenerator :=
  generator [Ok three_tool_response; Ok synthesized_response].

Definition partial_failure_tools : ToolManager :=
  scripted_tools [Ok "Course outline"; Raise tool_failed].

Definition partial_failure_start : SeqState :=
  mkSeq (initial_round_state partial_failure_generator "Compare lessons" None 2) [].

Definition partial_failure_round : PyResult (option Response) * SeqState :=
  _execute_tool_round partial_failure_generator search_tools
    (Some partial_failure_tools) partial_failure_start.

(** The single-call path on the same collaborators. *)
Definition single_call_failure_run : PyResult string * Trace :=
  generate_response partial_failure_generator "Compare lessons" None
    search_tools (Some partial_failure_tools) [].

(** The whole sequential call on the same collaborators. *)
Definition partial_failure_run : PyResult string * Trace :=
  generate_response_with_sequential_tools partial_failure_generator
    "Compare lessons" None search_tools (Some partial_failure_tools) 2 [].

(** The endpoint is unreachable from the first call on. *)
Definition unreachable_endpoint_run : PyResult string * Trace :=
  generate_response_with_sequential_tools
    (generator [Raise connection_error])
    "What is machine learning?" None search_tools
    (Some (scripted_tools [])) 2 [].

Definition unreachable_generator : AIGenerator := generator [Raise connection_error].

Definition unreachable_start : SeqState :=
  mkSeq (initial_round_state unreachable_generator "What is machine learning?" None 2)
    [].

(** The endpoint fails at the final, tool-free call. *)
Definition final_call_failure_run : PyResult string * Trace :=
  generate_response_with_sequential_tools
    (generator [Ok tool_response; Ok tool_response; Raise connection_error])
    "Search twice" None search_tools
    (Some (scripted_tools [Ok "first"; Ok "second"])) 2 [].

(** The model asks for a search in both allowed rounds. *)
Definition max_rounds_generator : AIGenerator :=
  generator [Ok tool_response; Ok tool_response; Ok synthesized_response].

Definition max_rounds_tools : ToolManager := scripted_tools [Ok "first"; Ok "second"].

Definition max_rounds_start : SeqState :=
  mkSeq (initial_round_state max_rounds_generator "Search twice" None 2) [].

Definition max_rounds_loop : PyResult LoopExit * SeqState :=
  rounds_loop max_rounds_generator search_tools (Some max_rounds_tools) None
    max_rounds_start.

Definition max_rounds_run : PyResult string * Trace :=
  generate_response_with_sequential_tools max_rounds_generator "Search twice" None
    search_tools (Some max_rounds_tools) 2 [].

Definition empty_response : Response := mkResponse "end_turn" [].

(** A block that is neither a text nor a tool-use request. *)
Definition image_block : ContentBlock := mkBlock "image" None "" "" [].

Definition image_only_run : PyResult string * Trace :=
  generate_response_with_sequential_tools
    (generator [Ok (mkResponse "end_turn" [image_block])])
    "What is machine learning?" None search_tools (Some (scripted_tools [])) 2 [].

Definition empty_text_response : Response := mkResponse "end_turn" [text_block ""].

Definition empty_content_run : PyResult string * Trace :=
  generate_response_with_sequential_tools (generator [Ok empty_response])
    "What is machine learning?" None search_tools (Some (scripted_tools [])) 2 [].

Definition empty_text_run : PyResult string * Trace :=
  generate_response_with_sequential_tools (generator [Ok empty_text_response])
    "What is machine learning?" None search_tools (Some (scripted_tools [])) 2 [].

(** A response that asks for one search behind an empty text; the model
    then answers. *)
Definition empty_aside_response : Response :=
  mkResponse "tool_use" [text_block ""; search_block].

Definition empty_aside_generator : AIGenerator :=
  generator [Ok empty_aside_response; Ok synthesized_response].

Definition empty_aside_run : PyResult string * Trace :=
  generate_response_with_sequential_tools empty_aside_generator
    "What is machine learning?" None search_tools
    (Some (scripted_tools [Ok "Lesson text"])) 2 [].


Definition max_rounds_state : PyResult string * SeqState :=
  sequential_run max_rounds_generator "Search twice" None search_tools
    (Some max_rounds_tools) 2 [].

(** The model answers at once, tools on offer. *)
Definition direct_answer_run : PyResult string * Trace :=
  generate_response_with_sequential_tools
    (generator [Ok (mkResponse "end_turn" [text_block "4"])])
    "What is 2+2?" None search_tools (Some (scripted_tools [])) 2 [].

(* ===================================================================== *)
(** ** Further observations and scenarios *)
(* ===================================================================== *)

(** A tool execution that raised an exception [except Exception] handles. *)
Definition tool_failure (ev : Event) : bool :=
  match ev with
  | EvTool _ _ (Raise e) => exn_is_Exception e
  | _ => false
  end.

(** The answered tool calls of a log: name, input and result. *)
Definition successes (tr : Trace) : list (string * ToolInput * string) :=
  flat_map (fun ev =>
              match ev with
              | EvTool name input (Ok result) => [(name, input, result)]
              | _ => []
              end) tr.

(** The log of one round: the parameters and the outcome of its model
    call, and the tool calls that followed it. *)
Record RoundLog : Type := mkRoundLog {
  rl_params : ApiParams;
  rl_outcome : PyResult Response;
  rl_tools : Trace
}.

Definition round_events (rl : RoundLog) : Trace :=
  EvCreate (rl_params rl) (rl_outcome rl) :: rl_tools rl.

(** The results of the answered tool calls of a log, in order. *)
Definition answers (tr : Trace) : list string := map snd (successes tr).

(** A tool call of the log raised what [except Exception] lets through. *)
Definition interrupted (tr : Trace) : bool :=
  existsb (fun ev =>
             match ev with
             | EvTool _ _ (Raise e) => negb (exn_is_Exception e)
             | _ => false
             end) tr.

(** The turns the round with log [rl] appends to the transcript, lines
    216-249.  Nothing unless a tool manager was given and the response has
    stop reason ["tool_use"]; then the response as an assistant turn,
    followed, unless a tool call interrupted the round, by the batch that
    pairs the tool-use requests of the response with the answers of the
    log, as one user turn when it is not empty. *)
Definition appended_turns (tool_manager : option ToolManager) (rl : RoundLog)
    : list Message :=
  match rl_outcome rl, tool_manager with
  | Ok response, Some _ =>
      if (stop_reason response =? "tool_use")%string then
        if interrupted (rl_tools rl) then [assistant_turn response]
        else round_turns response (batch (content response) (answers (rl_tools rl)))
      else []
  | _, _ => []
  end.

(** What an entry of [tool_execution_history] says was called. *)
Definition recorded (te : ToolExecution) : string * ToolInput * string :=
  (te_tool_name te, te_input te, te_result te).

(** The tools a call offers: the ones supplied, when the list is truthy. *)
Definition offered (tools : option (list ToolDescriptor))
    : option (list ToolDescriptor) :=
  if truthy_list tools then tools else None.

(** A signal that does not derive from [Exception]. *)
Definition keyboard_interrupt : PyExn := mkExn false "".

Definition interrupted_run : PyResult string * Trace :=
  generate_response_with_sequential_tools
    (generator [Raise keyboard_interrupt])
    "What is machine learning?" None search_tools
    (Some (scripted_tools [])) 2 [].

(** No round allowed at all. *)
Definition zero_rounds_run : PyResult string * Trace :=
  generate_response_with_sequential_tools max_rounds_generator "Search twice" None
    search_tools (Some max_rounds_tools) 0 [].

Definition failing_tool_state : PyResult string * SeqState :=
  sequential_run
    (generator [Ok talkative_tool_response; Ok synthesized_response])
    "Query that causes tool failure" None search_tools
    (Some (scripted_tools [Raise tool_failed])) 2 [].

(** A round whose response asks for two tools, both answered. *)
Definition two_tool_response : Response :=
  mkResponse "tool_use" [outline_block; text_block "Checking."; search_block].

Definition two_tool_generator : AIGenerator :=
  generator [Ok two_tool_response; Ok synthesized_response].

Definition two_tool_tools : ToolManager :=
  scripted_tools [Ok "Course outline"; Ok "Lesson text"].

Definition two_tool_start : SeqState :=
  mkSeq (initial_round_state two_tool_generator "Compare lessons" None 2) [].

Definition two_tool_round : PyResult (option Response) * SeqState :=
  _execute_tool_round two_tool_generator search_tools (Some two_tool_tools)
    two_tool_start.

(** The model asks for a search in both rounds and no tool manager is
    given. *)
Definition no_manager_state : PyResult string * SeqState :=
  sequential_run max_rounds_generator "Search twice" None search_tools None 2 [].

(** The single-call path on two answered tool calls. *)
Definition single_call_run : PyResult string * Trace :=
  generate_response two_tool_generator "Compare lessons" None search_tools
    (Some two_tool_tools) [].

(** The single-call path on an unreachable endpoint. *)
Definition single_call_unreachable_run : PyResult string * Trace :=
  generate_response (generator [Raise connection_error])
    "What is machine learning?" None search_tools (Some (scripted_tools [])) [].

(** A response whose text comes after a block without one. *)
Definition late_text_response : Response :=
  mkResponse "end_turn" [image_block; text_block "Late text"].

Definition late_text_generator : AIGenerator := generator [Ok late_text_response].

(** An event whose outcome is the exception [e]; for a tool call, one
    that [except Exception] does not handle. *)
Definition raised_by (e : PyExn) (ev : Event) : Prop :=
  (exists p, ev = EvCreate p (Raise e)) \/
  (exists name input, ev = EvTool name input (Raise e) /\ exn_is_Exception e = false).

(** The history entry of an answered call made in round [n]. *)
Definition history_entry (n : Z) (call : string * ToolInput * string)
    : ToolExecution :=
  mkToolExecution n (fst (fst call)) (snd (fst call)) (snd call).

(** The parameters of the first call of the single-call path. *)
Definition first_params (self : AIGenerator) (query : string)
    (history : option string) (tools : option (list ToolDescriptor)) : ApiParams :=
  api_params self [user_query query] (build_system_content self history)
    (offered tools).

(** The parameters of its follow-up call: the query, the assistant turn
    and the batch of results, the same system content, no tools. *)
Definition follow_up_params (self : AIGenerator) (query : string)
    (history : option string) (first : Response) (results : list ToolResult)
    : ApiParams :=
  api_params self (user_query query :: round_turns first results)
    (build_system_content self history) None.

(** The four ways a call of [generate_response] can go. *)
Inductive single_call_outcome (self : AIGenerator) (query : string)
    (history : option string) (tools : option (list ToolDescriptor))
    (tool_manager : option ToolManager)
    : PyResult string -> Trace -> Prop :=
| SingleCreateFailed (e : PyExn) :
    single_call_outcome self query history tools tool_manager (Raise e)
      [EvCreate (first_params self query history tools) (Raise e)]
| SingleDirect (first : Response) :
    tool_manager = None \/ stop_reason first <> "tool_use" ->
    single_call_outcome self query history tools tool_manager
      (Ok (first_block_text first no_valid_content))
      [EvCreate (first_params self query history tools) (Ok first)]
| SingleToolRaised (first : Response) (pre : list ContentBlock) (b : ContentBlock)
    (post : list ContentBlock) (outs : list string) (e : PyExn) :
    stop_reason first = "tool_use" -> tool_manager <> None ->
    content first = pre ++ b :: post -> is_tool_use b = true ->
    length outs = length (tool_uses pre) ->
    single_call_outcome self query history tools tool_manager (Raise e)
      (EvCreate (first_params self query history tools) (Ok first)
         :: ok_events pre outs
         ++ [EvTool (block_name b) (block_input b) (Raise e)])
| SingleFollowUp (first : Response) (outs : list string)
    (outcome : PyResult Response) :
    stop_reason first = "tool_use" -> tool_manager <> None ->
    length outs = length (tool_uses (content first)) ->
    single_call_outcome self query history tools tool_manager
      match outcome with
      | Ok final_response =>
          Ok (first_block_text final_response no_valid_content_after_tools)
      | Raise e => Raise e
      end
      (EvCreate (first_params self query history tools) (Ok first)
         :: ok_events (content first) outs
         ++ [EvCreate (follow_up_params self query history first
                         (batch (content first) outs)) outcome]).

(** The call [name], [input] is a tool-use request of a response with stop
    reason ["tool_use"] that the log [delta] holds. *)
Definition requested (delta : Trace) (name : string) (input : ToolInput) : Prop :=
  exists p response b,
    In (EvCreate p (Ok response)) delta /\
    stop_reason response = "tool_use" /\
    In b (content response) /\ is_tool_use b = true /\
    block_name b = name /\ block_input b = input.

(* ===================================================================== *)
(** ** What one round does *)
(* ===================================================================== *)
Lemma same_frame_refl (a : ToolRoundState) : same_frame a a.
Proof. repeat split. Qed.

Lemma ok_events_cons (b : ContentBlock) rest out outs :
  is_tool_use b = true ->
  ok_events (b :: rest) (out :: outs)
  = EvTool (block_name b) (block_input b) (Ok out) :: ok_events rest outs.
Proof. intros Hb. unfold ok_events, tool_uses. cbn. rewrite Hb. reflexivity. Qed.

Lemma batch_cons (b : ContentBlock) rest out outs :
  is_tool_use b = true ->
  batch (b :: rest) (out :: outs) = tool_result_entry b out :: batch rest outs.
Proof. intros Hb. unfold batch, tool_uses. cbn. rewrite Hb. reflexivity. Qed.

Lemma ok_events_skip (b : ContentBlock) rest outs :
  is_tool_use b = false -> ok_events (b :: rest) outs = ok_events rest outs.
Proof. intros Hb. unfold ok_events, tool_uses. cbn. rewrite Hb. reflexivity. Qed.

Lemma batch_skip (b : ContentBlock) rest outs :
  is_tool_use b = false -> batch (b :: rest) outs = batch rest outs.
Proof. intros Hb. unfold batch, tool_uses. cbn. rewrite Hb. reflexivity. Qed.

Lemma tool_uses_cons (b : ContentBlock) rest :
  tool_uses (b :: rest) = if is_tool_use b then b :: tool_uses rest else tool_uses rest.
Proof. reflexivity. Qed.

(** What [execute_tool_calls] does, read off its result: either every
    tool-use request of [blocks] was answered, or the requests before some
    block [b] were answered and the call for [b] raised [e]; then an
    [Exception] is caught, marks the state and ends the loop with the
    results so far, and anything else propagates. *)
Lemma execute_tool_calls_spec (tm : ToolManager) (blocks : list ContentBlock) :
  forall results s r s',
    execute_tool_calls tm blocks results s = (r, s') ->
    same_frame (round_state s) (round_state s') /\
    ((exists outs,
        length outs = length (tool_uses blocks) /\
        trace s' = trace s ++ ok_events blocks outs /\
        r = Ok (results ++ batch blocks outs) /\
        has_errors (round_state s') = has_errors (round_state s))
     \/
     (exists pre b post outs e,
        blocks = pre ++ b :: post /\ is_tool_use b = true /\
        length outs = length (tool_uses pre) /\
        trace s' = trace s ++ ok_events pre outs
                     ++ [EvTool (block_name b) (block_input b) (Raise e)] /\
        if exn_is_Exception e
        then r = Ok (results ++ batch pre outs) /\
             has_errors (round_state s') = true
        else r = Raise e /\
             has_errors (round_state s') = has_errors (round_state s))).
Proof.
  induction blocks as [| b rest IH]; intros results s r s' H; cbn in H.
  - py_unfold. inversion H; subst. split; [apply same_frame_refl |].
    left. exists []. cbn. rewrite !app_nil_r. auto.
  - destruct (is_tool_use b) eqn:Hb.
    2: { apply IH in H. destruct H as [Hf H]. split; [exact Hf |].
         destruct H as [(outs & Hl & Ht & Hr & He) | (pre & b' & post & outs & e & Hs & Hb' & Hl & Ht & Hc)].
         - left. exists outs. rewrite tool_uses_cons, Hb, ok_events_skip, batch_skip by exact Hb. auto.
         - right. exists (b :: pre), b', post, outs, e.
           rewrite tool_uses_cons, Hb, ok_events_skip, batch_skip by exact Hb.
           subst rest. auto. }
    py_unfold.
    destruct (tm (trace s) (block_name b) (block_input b)) as [out | e] eqn:Etm.
    + apply IH in H. cbn in H. destruct H as [Hf H].
      split; [exact Hf |].
      destruct H as [(outs & Hl & Ht & Hr & He) | (pre & b' & post & outs & e & Hs & Hb' & Hl & Ht & Hc)].
      * left. exists (out :: outs).
        rewrite tool_uses_cons, Hb, ok_events_cons, batch_cons by exact Hb.
        cbn [length]. rewrite Hl, Ht, Hr, He, <- !app_assoc. cbn. auto.
      * right. exists (b :: pre), b', post, (out :: outs), e.
        rewrite tool_uses_cons, Hb, ok_events_cons, batch_cons by exact Hb.
        cbn [length]. rewrite Hl, Ht, <- !app_assoc. subst rest. cbn.
        repeat split; auto.
        destruct (exn_is_Exception e); destruct Hc as [Hr He]; subst r;
          rewrite <- ?app_assoc; cbn; auto.
    + split.
      { destruct (exn_is_Exception e); inversion H; subst;
          unfold same_frame; cbn; auto. }
      right. exists [], b, rest, [], e. cbn.
      repeat split; auto.
      * destruct (exn_is_Exception e); inversion H; subst; reflexivity.
      * destruct (exn_is_Exception e); inversion H; subst; cbn;
          rewrite ?app_nil_r; auto.
Qed.

Lemma _execute_tool_round_spec (self : AIGenerator) tools tool_manager s r s' :
  _execute_tool_round self tools tool_manager s = (r, s') ->
  round_outcome self tools tool_manager s r s'.
Proof.
  intros H. unfold _execute_tool_round in H. py_unfold.
  destruct (messages_create self (trace s) _) as [resp | e] eqn:Ec.
  2: { inversion H; subst. apply RoundCreateFailed. exact Ec. }
  destruct tool_manager as [tm |].
  2: { inversion H; subst. apply RoundNoDispatch; auto. }
  destruct (stop_reason resp =? "tool_use")%string eqn:Es.
  2: { inversion H; subst. apply RoundNoDispatch; auto.
       right. apply String.eqb_neq. exact Es. }
  apply String.eqb_eq in Es.
  destruct (execute_tool_calls tm (content resp) [] _) as [r1 s1] eqn:E.
  apply execute_tool_calls_spec in E. cbn in E.
  destruct E as [(Hcr & Hmr & Hmsg & Hsys) E].
  assert (Hsome : Some tm <> None) by discriminate.
  destruct E as [(outs & Hl & Ht & Hr & He)
                | (pre & b & post & outs & e & Hc & Hb & Hl & Ht & Hcase)].
  - subst r1. cbn in H.
    assert (Hr : r = Ok (Some resp) /\ trace s' = trace s1 /\
                 messages (round_state s')
                 = messages (round_state s) ++ round_turns resp (batch (content resp) outs) /\
                 has_errors (round_state s') = has_errors (round_state s1) /\
                 same_budget (round_state s) (round_state s') /\
                 system_content (round_state s') = system_content (round_state s)).
    { unfold round_turns, same_budget.
      destruct (batch (content resp) outs); inversion H; subst; cbn;
        rewrite ?Hmsg, ?Hcr, ?Hmr, ?Hsys; cbn; repeat split;
          rewrite <- ?app_assoc; reflexivity. }
    destruct Hr as (-> & Ht' & Hm' & He' & Hb' & Hs').
    eapply RoundDispatched; eauto; try congruence.
    rewrite Ht', Ht, <- app_assoc. reflexivity.
  - destruct (exn_is_Exception e) eqn:Ee; destruct Hcase as [-> Herr]; cbn in H.
    + assert (Hr : r = Ok (Some resp) /\ trace s' = trace s1 /\
                   messages (round_state s')
                   = messages (round_state s) ++ round_turns resp (batch pre outs) /\
                   has_errors (round_state s') = has_errors (round_state s1) /\
                   same_budget (round_state s) (round_state s') /\
                   system_content (round_state s') = system_content (round_state s)).
      { unfold round_turns, same_budget.
        destruct (batch pre outs); inversion H; subst; cbn;
          rewrite ?Hmsg, ?Hcr, ?Hmr, ?Hsys; cbn; repeat split;
          rewrite <- ?app_assoc; reflexivity. }
      destruct Hr as (-> & Ht' & Hm' & He' & Hb' & Hs').
      eapply RoundToolFailed; eauto; try congruence.
      rewrite Ht', Ht, <- app_assoc. reflexivity.
    + inversion H; subst.
      eapply RoundToolPropagated; eauto; try (split; assumption).
      rewrite Ht, <- app_assoc. reflexivity.
Qed.

(* ===================================================================== *)
(** ** Reasoning about the loop *)
(* ===================================================================== *)

Lemma rounds_loop_step (self : AIGenerator) tools tool_manager last s :
  rounds_loop self tools tool_manager last s =
  if can_continue (round_state s) then
    match _execute_tool_round self tools tool_manager s with
    | (Raise e, s1) => (Raise e, s1)
    | (Ok None, s1) => (Ok (Fell None), mark_errors s1)
    | (Ok (Some response), s1) =>
        if _has_tool_calls (Some response)
        then rounds_loop self tools tool_manager (Some response) (advance s1)
        else (Ok (Returned (_extract_text_response (Some response))), s1)
    end
  else (Ok (Fell last), s).
Proof.
  funelim (rounds_loop self tools tool_manager last s);
    repeat match goal with
           | H : _ = rounds_loop _ _ _ _ _ |- _ => clear H
           | H : ?x = _ |- context [?x] => rewrite H
           end; reflexivity.
Qed.

Section LoopInduction.
Variable self : AIGenerator.
Variable tools : option (list ToolDescriptor).
Variable tool_manager : option ToolManager.
Variable P : option Response -> SeqState -> PyResult LoopExit * SeqState -> Prop.

Hypothesis P_exit : forall last s,
  can_continue (round_state s) = false -> P last s (Ok (Fell last), s).
Hypothesis P_raise : forall last s e s1,
  can_continue (round_state s) = true ->
  round_outcome self tools tool_manager s (Raise e) s1 ->
  P last s (Raise e, s1).
Hypothesis P_return : forall last s response s1,
  can_continue (round_state s) = true ->
  round_outcome self tools tool_manager s (Ok (Some response)) s1 ->
  _has_tool_calls (Some response) = false ->
  P last s (Ok (Returned (_extract_text_response (Some response))), s1).
Hypothesis P_next : forall last s response s1 out,
  can_continue (round_state s) = true ->
  round_outcome self tools tool_manager s (Ok (Some response)) s1 ->
  _has_tool_calls (Some response) = true ->
  rounds_loop self tools tool_manager (Some response) (advance s1) = out ->
  P (Some response) (advance s1) out ->
  P last s out.

(** Induction over the iterations of the [while]: it ends at once, a
    round raises, a round's response has no tool call and is returned,
    or the round is advanced and the loop goes on. *)
Lemma rounds_loop_induction : forall last s,
  P last s (rounds_loop self tools tool_manager last s).
Proof.
  intros last s.
  remember (rounds_left (round_state s)) as n eqn:Hn.
  revert last s Hn.
  induction n as [n IH] using lt_wf_ind. intros last s Hn.
  rewrite rounds_loop_step.
  destruct (can_continue (round_state s)) eqn:Hc; [| apply P_exit; exact Hc].
  destruct (_execute_tool_round self tools tool_manager s) as [r s1] eqn:Hr.
  pose proof (_execute_tool_round_budget _ _ _ _ _ _ Hr) as [Hb1 Hb2].
  apply _execute_tool_round_spec in Hr.
  destruct r as [[response |] | e].
  - destruct (_has_tool_calls (Some response)) eqn:Ht.
    + eapply P_next; eauto.
      eapply IH; [| reflexivity]. subst n.
      unfold can_continue in Hc. apply andb_prop in Hc. destruct Hc as [Hc _].
      apply Z.leb_le in Hc.
      unfold rounds_left. cbn. rewrite Hb1, Hb2. lia.
    + apply P_return; assumption.
  - inversion Hr.
  - apply P_raise; assumption.
Qed.
End LoopInduction.

(** The rest of [generate_response_with_sequential_tools] once the loop
    has ended, case by case. *)
Lemma sequential_rounds_spec (self : AIGenerator) tools tool_manager s :
  sequential_rounds self tools tool_manager s =
  match rounds_loop self tools tool_manager None s with
  | (Raise e, s1) =>
      (if exn_is_Exception e
       then Ok ("Error during sequential tool execution: " ++ exn_str e)%string
       else Raise e, s1)
  | (Ok (Returned text), s1) => (Ok text, s1)
  | (Ok (Fell last_response), s1) =>
      if _has_tool_calls last_response then
        let outcome :=
          messages_create self (trace s1) (final_params self (round_state s1)) in
        (final_call_result outcome,
         mkSeq (round_state s1)
           (trace s1 ++ [EvCreate (final_params self (round_state s1)) outcome]))
      else
        (Ok match last_response with
            | Some _ => _extract_text_response last_response
            | None => no_response_received
            end, s1)
  end.
Proof.
  unfold sequential_rounds, try_except, bind.
  destruct (rounds_loop self tools tool_manager None s) as [[[text | last] | e] s1].
  - reflexivity.
  - cbn [after_loop]. destruct (_has_tool_calls last).
    + unfold _get_final_response. py_unfold.
      destruct (messages_create self (trace s1) _) as [resp | e]; cbn.
      * reflexivity.
      * destruct (exn_is_Exception e) eqn:Ee; cbn; rewrite ?Ee; reflexivity.
    + destruct last; reflexivity.
  - destruct (exn_is_Exception e); reflexivity.
Qed.

Lemma In_ok_events (ev : Event) blocks outs :
  In ev (ok_events blocks outs) ->
  exists name input out, ev = EvTool name input (Ok out).
Proof.
  unfold ok_events. intros H. apply in_map_iff in H.
  destruct H as ([b out] & <- & _). cbn. eauto.
Qed.

Lemma model_calls_app (a b : Trace) :
  model_calls (a ++ b) = model_calls a + model_calls b.
Proof. unfold model_calls. rewrite filter_app, length_app. reflexivity. Qed.

Lemma model_calls_ok_events blocks outs : model_calls (ok_events blocks outs) = 0.
Proof.
  unfold model_calls, ok_events.
  induction (combine (tool_uses blocks) outs) as [| bo l IH]; cbn; auto.
Qed.

(** A round calls the model endpoint exactly once. *)
Lemma round_outcome_model_calls (self : AIGenerator) tools tool_manager s r s1 :
  round_outcome self tools tool_manager s r s1 ->
  exists delta, trace s1 = trace s ++ delta /\ model_calls delta = 1.
Proof.
  intros H; destruct H;
    match goal with
    | Ht : trace _ = trace _ ++ ?d |- _ => exists d; split; [exact Ht |]
    | |- exists d, trace (mkSeq _ (_ ++ ?d0)) = _ /\ _ => exists d0; split; [reflexivity |]
    end;
    change (model_calls (?x :: ?l)) with (model_calls ([x] ++ l));
    rewrite ?model_calls_app, ?model_calls_ok_events; reflexivity.
Qed.

Lemma can_continue_rounds_left (st : ToolRoundState) :
  can_continue st = true ->
  rounds_left st = S (rounds_left (advance_round st)).
Proof.
  unfold can_continue, rounds_left. intros H.
  apply andb_prop in H. destruct H as [H _]. apply Z.leb_le in H.
  cbn. lia.
Qed.

(** The loop calls the model endpoint at most once per round still
    allowed. *)
Lemma rounds_loop_model_calls (self : AIGenerator) tools tool_manager last s :
  exists delta,
    trace (snd (rounds_loop self tools tool_manager last s)) = trace s ++ delta /\
    model_calls delta <= rounds_left (round_state s).
Proof.
  apply rounds_loop_induction
    with (P := fun _ s out => exists delta,
                 trace (snd out) = trace s ++ delta /\
                 model_calls delta <= rounds_left (round_state s));
    clear last s.
  - intros last s Hc. exists []. cbn. rewrite app_nil_r. split; [reflexivity | lia].
  - intros last s e s1 Hc Hr.
    apply round_outcome_model_calls in Hr. destruct Hr as (d & Ht & Hm).
    exists d. cbn. rewrite (can_continue_rounds_left _ Hc). split; [exact Ht | lia].
  - intros last s response s1 Hc Hr _.
    apply round_outcome_model_calls in Hr. destruct Hr as (d & Ht & Hm).
    exists d. cbn. rewrite (can_continue_rounds_left _ Hc). split; [exact Ht | lia].
  - intros last s response s1 out Hc Hr _ _ (d2 & Ht2 & Hm2).
    pose proof Hr as Hr'. apply round_outcome_model_calls in Hr'.
    destruct Hr' as (d1 & Ht1 & Hm1).
    exists (d1 ++ d2). rewrite Ht2. cbn. rewrite Ht1, app_assoc.
    split; [reflexivity |].
    rewrite model_calls_app, (can_continue_rounds_left _ Hc).
    assert (Hb : rounds_left (round_state (advance s1))
                 = rounds_left (advance_round (round_state s))).
    { assert (Hsb : same_budget (round_state s) (round_state s1))
        by (inversion Hr; subst; cbn; solve [split; reflexivity | assumption]).
      destruct Hsb as [H1 H2]. unfold rounds_left. cbn. rewrite H1, H2. reflexivity. }
    rewrite Hb in Hm2. lia.
Qed.

(* ===================================================================== *)
(** ** [ToolRoundState.can_continue] *)
(* ===================================================================== *)

(** C4.  [can_continue] holds exactly when the current round does not
    exceed the maximum and no error was recorded; with no error recorded
    it still holds at [current_round = max_rounds], and it fails at
    [current_round = max_rounds + 1] whatever the error flag. *)
Theorem can_continue_iff :
  forall st : ToolRoundState,
    (can_continue st = true <->
       (current_round st <= max_rounds st)%Z /\ has_errors st = false)
    /\ can_continue
         (mkRoundState (max_rounds st) (max_rounds st)
            (tool_execution_history st) (messages st) (system_content st) false)
       = true
    /\ can_continue
         (mkRoundState (max_rounds st + 1) (max_rounds st)
            (tool_execution_history st) (messages st) (system_content st)
            (has_errors st))
       = false.
Proof.
  intros st. unfold can_continue. cbn. split; [| split].
  - rewrite andb_true_iff, negb_true_iff, Z.leb_le. reflexivity.
  - rewrite Z.leb_refl. reflexivity.
  - assert (H : (max_rounds st + 1 <=? max_rounds st)%Z = false)
      by (apply Z.leb_gt; lia).
    rewrite H. reflexivity.
Qed.

(* ===================================================================== *)
(** ** The number of model calls *)
(* ===================================================================== *)

Lemma sequential_run_trace (self : AIGenerator) query history tools tool_manager
    max_rounds tr :
  generate_response_with_sequential_tools self query history tools tool_manager
    max_rounds tr
  = (fst (sequential_run self query history tools tool_manager max_rounds tr),
     trace (snd (sequential_run self query history tools tool_manager max_rounds tr))).
Proof.
  unfold generate_response_with_sequential_tools.
  destruct (sequential_run _ _ _ _ _ _ _); reflexivity.
Qed.

(** Whatever [max_rounds] is, a call makes at most one model call per
    allowed round and one final call. *)
Lemma sequential_run_model_calls (self : AIGenerator) query history tools
    tool_manager max_rounds tr :
  exists delta,
    trace (snd (sequential_run self query history tools tool_manager max_rounds tr))
    = tr ++ delta /\
    model_calls delta <= Z.to_nat max_rounds + 1.
Proof.
  unfold sequential_run. rewrite sequential_rounds_spec.
  set (s0 := mkSeq (initial_round_state self query history max_rounds) tr).
  destruct (rounds_loop_model_calls self tools tool_manager None s0)
    as (d & Ht & Hm).
  assert (Hl : rounds_left (round_state s0) = Z.to_nat max_rounds).
  { unfold rounds_left. cbn. f_equal. lia. }
  rewrite Hl in Hm. cbn [trace s0] in Ht.
  destruct (rounds_loop self tools tool_manager None s0) as [[[text | last] | e] s1];
    cbn [snd] in *.
  - exists d. split; [exact Ht | lia].
  - destruct (_has_tool_calls last); cbn [snd trace].
    + exists (d ++ [EvCreate (final_params self (round_state s1))
                      (messages_create self (trace s1)
                         (final_params self (round_state s1)))]).
      rewrite Ht, app_assoc. split; [reflexivity |].
      rewrite model_calls_app. cbn. lia.
    + exists d. split; [exact Ht | lia].
  - exists d. split; [exact Ht | lia].
Qed.

(** C3.  With [max_rounds >= 1], one call of
    [generate_response_with_sequential_tools] extends the log by at most
    [max_rounds + 1] calls to the model endpoint, whatever the endpoint
    and the tool executor answer. *)
Theorem model_calls_at_most_max_rounds_plus_one :
  forall (self : AIGenerator) (query : string) (history : option string)
         (tools : option (list ToolDescriptor)) (tool_manager : option ToolManager)
         (max_rounds : Z) (tr : Trace) (r : PyResult string) (tr' : Trace),
    (1 <= max_rounds)%Z ->
    generate_response_with_sequential_tools self query history tools tool_manager
      max_rounds tr = (r, tr') ->
    exists delta,
      tr' = tr ++ delta /\
      (Z.of_nat (model_calls delta) <= max_rounds + 1)%Z.
Proof.
  intros self query history tools tool_manager max_rounds tr r tr' Hmax Hrun.
  rewrite sequential_run_trace in Hrun. inversion Hrun; subst.
  destruct (sequential_run_model_calls self query history tools tool_manager
              max_rounds tr) as (d & Ht & Hm).
  exists d. split; [exact Ht | lia].
Qed.

(** C3 where the model asks for a search in both of two rounds: the bound
    is reached. *)
Lemma model_calls_at_most_max_rounds_plus_one_witness :
  exists delta,
    snd max_rounds_run = [] ++ delta /\
    (Z.of_nat (model_calls delta) <= 2 + 1)%Z.
Proof.
  apply (model_calls_at_most_max_rounds_plus_one
           max_rounds_generator "Search twice" None search_tools
           (Some max_rounds_tools) 2 [] (fst max_rounds_run) (snd max_rounds_run)).
  - lia.
  - vm_compute. reflexivity.
Defined.

Example max_rounds_run_reaches_the_bound :
  model_calls (snd max_rounds_run) = 3 /\ tool_calls (snd max_rounds_run) = 2.
Proof. split; vm_compute; reflexivity. Qed.

Example direct_answer_is_one_call :
  fst direct_answer_run = Ok "4" /\
  model_calls (snd direct_answer_run) = 1 /\
  tool_calls (snd direct_answer_run) = 0.
Proof. repeat split; vm_compute; reflexivity. Qed.

(* ===================================================================== *)
(** ** A tool execution that fails inside a round *)
(* ===================================================================== *)

Lemma has_tool_calls_of_block (response : Response) pre b post :
  content response = pre ++ b :: post -> is_tool_use b = true ->
  _has_tool_calls (Some response) = true.
Proof.
  intros Hc Hb. unfold _has_tool_calls. rewrite Hc.
  destruct (pre ++ b :: post) eqn:E; [destruct pre; discriminate |].
  rewrite <- E. apply existsb_exists. exists b. split; [| exact Hb].
  apply in_or_app. right. left. reflexivity.
Qed.

(** In the log of a round, a raised tool call can only be the last entry. *)
Lemma In_round_events (ev : Event) p (outcome : PyResult Response) blocks outs
    (tail : Trace) :
  In ev (EvCreate p outcome :: ok_events blocks outs ++ tail) ->
  ev = EvCreate p outcome \/
  (exists name input out, ev = EvTool name input (Ok out)) \/
  In ev tail.
Proof.
  intros [H | H]; [left; symmetry; exact H |].
  apply in_app_or in H. destruct H as [H | H]; [| right; right; exact H].
  right; left. eapply In_ok_events; eassumption.
Qed.

(** C6.  When a tool execution raises an [Exception] inside a round, the
    round still returns the model's response, [has_errors] is set, the
    executor was called for the tool-use requests before the failing block
    and for that block and for none after it, and the transcript gains the
    assistant turn followed, when the batch collected so far is not empty,
    by that batch as one user turn. *)
Theorem tool_failure_marks_round_and_stops_dispatch :
  forall (self : AIGenerator) (tools : option (list ToolDescriptor))
         (tool_manager : option ToolManager) (s s' : SeqState)
         (r : PyResult (option Response)) (delta : Trace)
         (name : string) (input : ToolInput) (e : PyExn),
    _execute_tool_round self tools tool_manager s = (r, s') ->
    trace s' = trace s ++ delta ->
    In (EvTool name input (Raise e)) delta ->
    exn_is_Exception e = true ->
    exists response pre b post outs,
      r = Ok (Some response) /\
      content response = pre ++ b :: post /\
      is_tool_use b = true /\ block_name b = name /\ block_input b = input /\
      length outs = length (tool_uses pre) /\
      has_errors (round_state s') = true /\
      delta = EvCreate (round_params self tools (round_state s)) (Ok response)
                :: ok_events pre outs ++ [EvTool name input (Raise e)] /\
      messages (round_state s')
      = messages (round_state s) ++ assistant_turn response ::
          match batch pre outs with
          | [] => []
          | _ :: _ => [tool_result_turn (batch pre outs)]
          end.
Proof.
  intros self tools tool_manager s s' r delta name input e Hrun Ht Hin He.
  apply _execute_tool_round_spec in Hrun.
  destruct Hrun;
    match goal with
    | H : trace _ = trace s ++ _ |- _ =>
        rewrite H in Ht; apply app_inv_head in Ht; subst delta
    | _ => cbn [trace] in Ht; apply app_inv_head in Ht; subst delta
    end.
  - destruct Hin as [Hin | []]; discriminate.
  - destruct Hin as [Hin | []]; discriminate.
  - rewrite <- (app_nil_r (ok_events _ _)) in Hin.
    apply In_round_events in Hin.
    destruct Hin as [Hin | [(n & i & o & Hin) | []]]; discriminate.
  - apply In_round_events in Hin.
    destruct Hin as [Hin | [(n & i & o & Hin) | [Hin | []]]]; try discriminate.
    inversion Hin; subst.
    exists response, pre, b, post, outs. repeat split; auto.
  - apply In_round_events in Hin.
    destruct Hin as [Hin | [(n & i & o & Hin) | [Hin | []]]]; try discriminate.
    inversion Hin; subst. congruence.
Qed.

(** The loop after a tool failure: from a state without errors, an
    [Exception] raised by the executor is the last entry of the loop's log,
    and the loop falls out with the response of that round, which still
    holds tool-use requests. *)
Lemma rounds_loop_tool_failure (self : AIGenerator) tools tool_manager last s :
  has_errors (round_state s) = false ->
  exists delta,
    trace (snd (rounds_loop self tools tool_manager last s)) = trace s ++ delta /\
    forall name input e,
      In (EvTool name input (Raise e)) delta -> exn_is_Exception e = true ->
      (exists before, delta = before ++ [EvTool name input (Raise e)]) /\
      exists response,
        fst (rounds_loop self tools tool_manager last s) = Ok (Fell (Some response)) /\
        _has_tool_calls (Some response) = true.
Proof.
  apply rounds_loop_induction
    with (P := fun _ s out =>
                 has_errors (round_state s) = false ->
                 exists delta,
                   trace (snd out) = trace s ++ delta /\
                   forall name input e,
                     In (EvTool name input (Raise e)) delta ->
                     exn_is_Exception e = true ->
                     (exists before, delta = before ++ [EvTool name input (Raise e)]) /\
                     exists response,
                       fst out = Ok (Fell (Some response)) /\
                       _has_tool_calls (Some response) = true);
    clear last s.
  - intros last s _ _. exists []. cbn. rewrite app_nil_r.
    split; [reflexivity | intros ? ? ? []].
  - intros last s e s1 _ Hr _. inversion Hr; subst; cbn [snd fst trace].
    + eexists. split; [reflexivity |].
      intros n i e' [Hin | []]; discriminate.
    + eexists. split; [eassumption |].
      intros n i e' Hin He'. apply In_round_events in Hin.
      destruct Hin as [Hin | [(? & ? & ? & Hin) | [Hin | []]]]; try discriminate.
      inversion Hin; subst. congruence.
  - intros last s response s1 _ Hr Hno _. inversion Hr; subst; cbn [snd fst trace].
    + eexists. split; [reflexivity |].
      intros n i e' [Hin | []]; discriminate.
    + eexists. split; [eassumption |].
      intros n i e' Hin He'.
      rewrite <- (app_nil_r (ok_events _ _)) in Hin. apply In_round_events in Hin.
      destruct Hin as [Hin | [(? & ? & ? & Hin) | []]]; discriminate.
    + erewrite has_tool_calls_of_block in Hno by eassumption. discriminate.
  - intros last s response s1 out _ Hr Hyes Hout IH Hs.
    inversion Hr; subst response0.
    + (* no dispatch: the state is untouched *)
      subst s1. destruct IH as (d2 & Ht2 & IH); [exact Hs |].
      eexists. split.
      { rewrite Ht2. cbn [advance trace]. rewrite <- app_assoc. reflexivity. }
      intros n i e' Hin He'. cbn in Hin.
      destruct Hin as [Hin | Hin]; [discriminate |].
      destruct (IH n i e' Hin He') as ((before & ->) & Hres).
      split; [| exact Hres]. eexists (_ :: before). reflexivity.
    + (* every tool call answered *)
      destruct IH as (d2 & Ht2 & IH); [cbn; congruence |].
      eexists. split.
      { rewrite Ht2. cbn [advance trace].
        match goal with H : trace s1 = _ |- _ => rewrite H end.
        rewrite <- app_assoc. reflexivity. }
      intros n i e' Hin He'.
      apply in_app_or in Hin. destruct Hin as [Hin | Hin].
      { rewrite <- (app_nil_r (ok_events _ _)) in Hin. apply In_round_events in Hin.
        destruct Hin as [Hin | [(? & ? & ? & Hin) | []]]; discriminate. }
      destruct (IH n i e' Hin He') as ((before & ->) & Hres).
      split; [| exact Hres]. eexists (_ ++ before). rewrite <- app_assoc. reflexivity.
    + (* a tool call raised: the loop stops at the next test *)
      assert (Hstop : can_continue (round_state (advance s1)) = false).
      { unfold can_continue. cbn.
        match goal with H : has_errors (round_state s1) = true |- _ => rewrite H end.
        apply andb_false_r. }
      rewrite rounds_loop_step, Hstop in Hout. subst out. cbn [snd fst advance trace].
      eexists. split; [eassumption |].
      intros n i e' Hin He'. apply In_round_events in Hin.
      destruct Hin as [Hin | [(? & ? & ? & Hin) | [Hin | []]]]; try discriminate.
      inversion Hin; subst. split.
      * eexists (_ :: _). reflexivity.
      * exists response. split; [reflexivity | exact Hyes].
Qed.

(** The whole sequential call after a tool failure: the failing call is
    followed by exactly one more entry, the final model call, whose outcome
    decides the result. *)
Lemma sequential_run_tool_failure (self : AIGenerator) query history tools
    tool_manager max_rounds tr delta name input e :
  let out := sequential_run self query history tools tool_manager max_rounds tr in
  trace (snd out) = tr ++ delta ->
  In (EvTool name input (Raise e)) delta ->
  exn_is_Exception e = true ->
  exists before outcome,
    delta = before ++ [EvTool name input (Raise e);
                       EvCreate (final_params self (round_state (snd out))) outcome] /\
    fst out = final_call_result outcome.
Proof.
  unfold sequential_run. rewrite sequential_rounds_spec.
  set (s0 := mkSeq (initial_round_state self query history max_rounds) tr).
  destruct (rounds_loop_tool_failure self tools tool_manager None s0 eq_refl)
    as (d & Ht & Hf).
  cbn [s0 trace] in Ht.
  destruct (rounds_loop self tools tool_manager None s0) as [[[text | last] | e0] s1];
    cbn [fst snd] in *.
  - intros Htr Hin He. rewrite Ht in Htr. apply app_inv_head in Htr. subst d.
    destruct (Hf _ _ _ Hin He) as (_ & resp & Hres & _). discriminate.
  - destruct (_has_tool_calls last) eqn:Hlast; cbn [fst snd trace round_state].
    + intros Htr Hin He.
      set (outcome := messages_create self (trace s1)
                        (final_params self (round_state s1))) in *.
      assert (Hd : delta = d ++ [EvCreate (final_params self (round_state s1)) outcome]).
      { apply (app_inv_head tr). rewrite <- Htr, Ht, app_assoc. reflexivity. }
      subst delta.
      apply in_app_or in Hin. destruct Hin as [Hin | [Hin | []]]; [| discriminate].
      destruct (Hf _ _ _ Hin He) as ((before & Hb) & _).
      exists before, outcome. rewrite Hb, <- app_assoc. split; reflexivity.
    + intros Htr Hin He. rewrite Ht in Htr. apply app_inv_head in Htr. subst d.
      destruct (Hf _ _ _ Hin He) as (_ & resp & Hres & Htc).
      inversion Hres; subst. congruence.
  - intros Htr Hin He. rewrite Ht in Htr. apply app_inv_head in Htr. subst d.
    destruct (Hf _ _ _ Hin He) as (_ & resp & Hres & _). discriminate.
Qed.

(** C2, as the code has it.  When a tool execution raises an [Exception]
    during a call of [generate_response_with_sequential_tools], the failing
    call is followed by exactly one more model call, made without tools,
    and the result is decided by that call: the text extracted from its
    response, or the final-response placeholder when it raises an
    [Exception] too. *)
Theorem tool_failure_then_final_call :
  forall (self : AIGenerator) (query : string) (history : option string)
         (tools : option (list ToolDescriptor)) (tool_manager : option ToolManager)
         (max_rounds : Z) (tr : Trace) (r : PyResult string) (tr' delta : Trace)
         (name : string) (input : ToolInput) (e : PyExn),
    generate_response_with_sequential_tools self query history tools tool_manager
      max_rounds tr = (r, tr') ->
    tr' = tr ++ delta ->
    In (EvTool name input (Raise e)) delta ->
    exn_is_Exception e = true ->
    exists before params outcome,
      delta = before ++ [EvTool name input (Raise e); EvCreate params outcome] /\
      p_tools params = None /\
      r = final_call_result outcome.
Proof.
  intros self query history tools tool_manager max_rounds tr r tr' delta
    name input e Hrun Htr Hin He.
  rewrite sequential_run_trace in Hrun. injection Hrun as Hr Ht.
  rewrite Htr in Ht.
  destruct (sequential_run_tool_failure self query history tools tool_manager
              max_rounds tr delta name input e Ht Hin He)
    as (before & outcome & Hd & Hres).
  rewrite Hr in Hres.
  exists before. eexists. exists outcome. split; [exact Hd |].
  split; [reflexivity | exact Hres].
Qed.

(** C2 as stated fails: the executor raises in round 1, after the model
    said ["Let me search."]; the call then asks the model once more and
    returns that answer, which is neither the text of the response obtained
    before the failure nor a placeholder. *)
Lemma failing_tool_returns_final_call_text :
  In (EvTool "search_course_content" [("query", "test")] (Raise tool_failed))
     (snd failing_tool_run) /\
  fst failing_tool_run = Ok "Synthesized answer" /\
  _extract_text_response (Some talkative_tool_response) = "Let me search." /\
  fst failing_tool_run <> Ok (_extract_text_response (Some talkative_tool_response)) /\
  String.prefix "Error" "Synthesized answer" = false /\
  model_calls (snd failing_tool_run) = 2.
Proof.
  repeat split; try (vm_compute; reflexivity).
  - vm_compute. right. left. reflexivity.
  - vm_compute. discriminate.
Qed.

(** The amended C2 at the failing-tool scenario. *)
Lemma tool_failure_then_final_call_witness :
  exists before params outcome,
    snd failing_tool_run
    = before ++ [EvTool "search_course_content" [("query", "test")] (Raise tool_failed);
                 EvCreate params outcome] /\
    p_tools params = None /\
    fst failing_tool_run = final_call_result outcome.
Proof.
  apply (tool_failure_then_final_call
           (generator [Ok talkative_tool_response; Ok synthesized_response])
           "Query that causes tool failure" None search_tools
           (Some (scripted_tools [Raise tool_failed])) 2 []
           (fst failing_tool_run) (snd failing_tool_run) (snd failing_tool_run)
           "search_course_content" [("query", "test")] tool_failed).
  - vm_compute. reflexivity.
  - reflexivity.
  - vm_compute. right. left. reflexivity.
  - reflexivity.
Defined.

(** C6 at a round whose second tool call of three fails. *)
Lemma tool_failure_marks_round_and_stops_dispatch_witness :
  exists response pre b post outs,
    fst partial_failure_round = Ok (Some response) /\
    content response = pre ++ b :: post /\
    is_tool_use b = true /\ block_name b = "search_course_content" /\
    block_input b = [("query", "test")] /\
    length outs = length (tool_uses pre) /\
    has_errors (round_state (snd partial_failure_round)) = true /\
    trace (snd partial_failure_round)
    = EvCreate (round_params partial_failure_generator search_tools
                  (round_state partial_failure_start)) (Ok response)
        :: ok_events pre outs
        ++ [EvTool "search_course_content" [("query", "test")] (Raise tool_failed)] /\
    messages (round_state (snd partial_failure_round))
    = messages (round_state partial_failure_start) ++ assistant_turn response ::
        match batch pre outs with
        | [] => []
        | _ :: _ => [tool_result_turn (batch pre outs)]
        end.
Proof.
  apply (tool_failure_marks_round_and_stops_dispatch
           partial_failure_generator search_tools (Some partial_failure_tools)
           partial_failure_start (snd partial_failure_round)
           (fst partial_failure_round) (trace (snd partial_failure_round))
           "search_course_content" [("query", "test")] tool_failed).
  - vm_compute. reflexivity.
  - reflexivity.
  - vm_compute. right. right. left. reflexivity.
  - reflexivity.
Defined.

(* ===================================================================== *)
(** ** A tool failure in the single-call path *)
(* ===================================================================== *)

(** [handle_tool_calls] has no handler: either every tool-use request was
    answered, or the call for some block raised and so does the loop. *)
Lemma handle_tool_calls_spec (tm : ToolManager) (blocks : list ContentBlock) :
  forall results tr r tr',
    handle_tool_calls tm blocks results tr = (r, tr') ->
    (exists outs,
       length outs = length (tool_uses blocks) /\
       tr' = tr ++ ok_events blocks outs /\
       r = Ok (results ++ batch blocks outs))
    \/
    (exists pre b post outs e,
       blocks = pre ++ b :: post /\ is_tool_use b = true /\
       length outs = length (tool_uses pre) /\
       tr' = tr ++ ok_events pre outs
               ++ [EvTool (block_name b) (block_input b) (Raise e)] /\
       r = Raise e).
Proof.
  induction blocks as [| b rest IH]; intros results tr r tr' H; cbn in H.
  - py_unfold. inversion H; subst.
    left. exists []. cbn. rewrite !app_nil_r. auto.
  - destruct (is_tool_use b) eqn:Hb.
    2: { apply IH in H.
         destruct H as [(outs & Hl & Ht & Hr)
                       | (pre & b' & post & outs & e & Hs & Hb' & Hl & Ht & Hr)].
         - left. exists outs.
           rewrite tool_uses_cons, Hb, ok_events_skip, batch_skip by exact Hb. auto.
         - right. exists (b :: pre), b', post, outs, e.
           rewrite tool_uses_cons, Hb, ok_events_skip by exact Hb.
           subst rest. auto. }
    py_unfold.
    destruct (tm tr (block_name b) (block_input b)) as [out | e] eqn:Etm.
    + apply IH in H.
      destruct H as [(outs & Hl & Ht & Hr)
                    | (pre & b' & post & outs & e & Hs & Hb' & Hl & Ht & Hr)].
      * left. exists (out :: outs).
        rewrite tool_uses_cons, Hb, ok_events_cons, batch_cons by exact Hb.
        cbn [length]. rewrite Hl, Ht, Hr, <- !app_assoc. cbn. auto.
      * right. exists (b :: pre), b', post, (out :: outs), e.
        rewrite tool_uses_cons, Hb, ok_events_cons by exact Hb.
        cbn [length]. rewrite Hl, Ht, <- !app_assoc. subst rest. cbn. auto.
    + inversion H; subst. right. exists [], b, rest, [], e. cbn. auto.
Qed.

(** C10, as the code has it.  In the single-call path a tool execution
    that raises, whatever the exception, ends [generate_response] with that
    exception: the failing call is the last entry of the log, the one model
    call before it asked for tool use, and no follow-up call is made.  The
    sequential path, given the same arguments, catches an [Exception] its
    executor raises, and what it returns is no error string of the tool
    failure: the failing call is followed by exactly one more model call,
    made without tools, and the result is what that call decides, the text
    extracted from its response or the final-response placeholder when it
    raises an [Exception] too. *)
Theorem single_call_tool_failure_propagates :
  forall (self : AIGenerator) (query : string) (history : option string)
         (tools : option (list ToolDescriptor)) (tool_manager : option ToolManager)
         (tr : Trace) (r : PyResult string) (tr' delta : Trace)
         (name : string) (input : ToolInput) (e : PyExn),
    generate_response self query history tools tool_manager tr = (r, tr') ->
    tr' = tr ++ delta ->
    In (EvTool name input (Raise e)) delta ->
    (r = Raise e /\
     (exists params response before,
        stop_reason response = "tool_use" /\
        delta = EvCreate params (Ok response) :: before
                  ++ [EvTool name input (Raise e)]) /\
     model_calls delta = 1)
    /\
    (forall max_rounds r2 tr2 delta2,
       generate_response_with_sequential_tools self query history tools
         tool_manager max_rounds tr = (r2, tr2) ->
       tr2 = tr ++ delta2 ->
       In (EvTool name input (Raise e)) delta2 ->
       exn_is_Exception e = true ->
       r2 <> Raise e /\
       exists before2 params2 outcome,
         delta2 = before2 ++ [EvTool name input (Raise e);
                              EvCreate params2 outcome] /\
         p_tools params2 = None /\
         r2 = final_call_result outcome).
Proof.
  intros self query history tools tool_manager tr r tr' delta name input e
    Hrun Htr Hin.
  split.
  - unfold generate_response in Hrun. py_unfold.
    destruct (messages_create self tr _) as [resp | e0] eqn:Ec.
    2: { injection Hrun as <- <-. apply app_inv_head in Htr. subst delta.
         destruct Hin as [Hin | []]; discriminate. }
    assert (Hplain : forall t, (Ok t, tr ++ [EvCreate
                (api_params self [user_query query]
                   (build_system_content self history)
                   (if truthy_list tools then tools else None)) (Ok resp)])
              = (r, tr') -> False).
    { intros t Heq. injection Heq as <- <-. apply app_inv_head in Htr. subst delta.
      destruct Hin as [Hin | []]; discriminate. }
    destruct tool_manager as [tm |]; [| exfalso; eapply Hplain; exact Hrun].
    destruct (stop_reason resp =? "tool_use")%string eqn:Es;
      [| exfalso; eapply Hplain; exact Hrun].
    clear Hplain. apply String.eqb_eq in Es.
    unfold _handle_tool_execution in Hrun. py_unfold.
    destruct (handle_tool_calls tm (content resp) [] _) as [r1 tr1] eqn:Eh.
    apply handle_tool_calls_spec in Eh.
    destruct Eh as [(outs & Hl & Ht & ->)
                   | (pre & b & post & outs & e1 & Hc & Hb & Hl & Ht & ->)].
    + exfalso. subst tr1.
      match type of Hrun with
      | match ?call with _ => _ end = _ => destruct call as [fin | e2]
      end;
        injection Hrun as <- <-;
        rewrite <- !app_assoc in Htr; apply app_inv_head in Htr; subst delta;
        cbn in Hin; destruct Hin as [Hin | Hin]; try discriminate;
        apply in_app_or in Hin; destruct Hin as [Hin | [Hin | []]]; try discriminate;
        apply In_ok_events in Hin; destruct Hin as (? & ? & ? & Hin); discriminate.
    + injection Hrun as <- <-. subst tr1.
      rewrite <- !app_assoc in Htr. apply app_inv_head in Htr. subst delta.
      cbn in Hin. destruct Hin as [Hin | Hin]; [discriminate |].
      apply in_app_or in Hin. destruct Hin as [Hin | [Hin | []]].
      { apply In_ok_events in Hin. destruct Hin as (? & ? & ? & Hin). discriminate. }
      injection Hin as <- <- <-.
      split; [reflexivity |]. split.
      * eexists. exists resp, (ok_events pre outs). split; [exact Es | reflexivity].
      * cbn [app]. change (model_calls (?x :: ?l)) with (model_calls ([x] ++ l)).
        rewrite !model_calls_app, model_calls_ok_events. reflexivity.
  - intros max_rounds r2 tr2 delta2 Hrun2 Htr2 Hin2 He.
    rewrite sequential_run_trace in Hrun2. injection Hrun2 as Hr2 Ht2.
    rewrite Htr2 in Ht2.
    destruct (sequential_run_tool_failure self query history tools tool_manager
                max_rounds tr delta2 name input e Ht2 Hin2 He)
      as (before2 & outcome & Hd2 & Hres).
    rewrite Hr2 in Hres. split.
    + intros Heq. rewrite Heq in Hres. destruct outcome as [fin | e2]; cbn in Hres.
      * discriminate.
      * destruct (exn_is_Exception e2) eqn:E2; [discriminate |].
        injection Hres as ->. congruence.
    + exists before2. eexists. exists outcome.
      split; [exact Hd2 |]. split; [reflexivity | exact Hres].
Qed.

(** C10 as stated fails in its last part: on the collaborators on which
    the single-call path ends with the executor's exception, the sequential
    path catches it but returns no error string; it returns the answer of
    the final model call. *)
Lemma sequential_path_returns_the_final_answer :
  fst single_call_failure_run = Raise tool_failed /\
  In (EvTool "search_course_content" [("query", "test")] (Raise tool_failed))
     (snd partial_failure_run) /\
  fst partial_failure_run = Ok "Synthesized answer" /\
  String.prefix "Error" "Synthesized answer" = false /\
  ~ placeholder "Synthesized answer".
Proof.
  split; [vm_compute; reflexivity |].
  split; [vm_compute; do 2 right; left; reflexivity |].
  split; [vm_compute; reflexivity |].
  split; [reflexivity |].
  intros H. inversion H.
Qed.

(** The amended C10 at a first response whose second tool call fails, in
    both paths. *)
Lemma single_call_tool_failure_propagates_witness :
  (fst single_call_failure_run = Raise tool_failed /\
   (exists params response before,
      stop_reason response = "tool_use" /\
      snd single_call_failure_run
      = EvCreate params (Ok response) :: before
          ++ [EvTool "search_course_content" [("query", "test")]
                (Raise tool_failed)]) /\
   model_calls (snd single_call_failure_run) = 1)
  /\
  (fst partial_failure_run <> Raise tool_failed /\
   exists before2 params2 outcome,
     snd partial_failure_run
     = before2 ++ [EvTool "search_course_content" [("query", "test")]
                     (Raise tool_failed);
                   EvCreate params2 outcome] /\
     p_tools params2 = None /\
     fst partial_failure_run = final_call_result outcome).
Proof.
  destruct (single_call_tool_failure_propagates
              partial_failure_generator "Compare lessons" None search_tools
              (Some partial_failure_tools) []
              (fst single_call_failure_run) (snd single_call_failure_run)
              (snd single_call_failure_run)
              "search_course_content" [("query", "test")] tool_failed)
    as [Hsingle Hsequential].
  - vm_compute. reflexivity.
  - reflexivity.
  - vm_compute. right. right. left. reflexivity.
  - split; [exact Hsingle |].
    apply (Hsequential 2%Z (fst partial_failure_run) (snd partial_failure_run)
             (snd partial_failure_run)).
    + vm_compute. reflexivity.
    + reflexivity.
    + vm_compute. do 2 right. left. reflexivity.
    + reflexivity.
Defined.

(* ===================================================================== *)
(** ** A model call that fails *)
(* ===================================================================== *)

(** A round that returns made no failing model call; a round that raises
    made at most one, its only entry. *)
Lemma round_outcome_create_failure (self : AIGenerator) tools tool_manager s r s1 :
  round_outcome self tools tool_manager s r s1 ->
  exists delta,
    trace s1 = trace s ++ delta /\
    forall p e, In (EvCreate p (Raise e)) delta ->
                r = Raise e /\ delta = [EvCreate p (Raise e)].
Proof.
  intros H; destruct H.
  - eexists. split; [reflexivity |].
    intros p e' [Hin | []]. injection Hin as <- <-. split; reflexivity.
  - eexists. split; [reflexivity |]. intros p e' [Hin | []]. discriminate.
  - eexists. split; [eassumption |]. intros p e' Hin.
    rewrite <- (app_nil_r (ok_events _ _)) in Hin. apply In_round_events in Hin.
    destruct Hin as [Hin | [(? & ? & ? & Hin) | []]]; discriminate.
  - eexists. split; [eassumption |]. intros p e' Hin.
    apply In_round_events in Hin.
    destruct Hin as [Hin | [(? & ? & ? & Hin) | [Hin | []]]]; discriminate.
  - eexists. split; [eassumption |]. intros p e' Hin.
    apply In_round_events in Hin.
    destruct Hin as [Hin | [(? & ? & ? & Hin) | [Hin | []]]]; discriminate.
Qed.

(** In the loop a failing model call is the last entry of the log, and the
    loop ends with its exception. *)
Lemma rounds_loop_create_failure (self : AIGenerator) tools tool_manager last s :
  exists delta,
    trace (snd (rounds_loop self tools tool_manager last s)) = trace s ++ delta /\
    forall p e,
      In (EvCreate p (Raise e)) delta ->
      fst (rounds_loop self tools tool_manager last s) = Raise e /\
      exists before, delta = before ++ [EvCreate p (Raise e)].
Proof.
  apply rounds_loop_induction
    with (P := fun _ s out =>
                 exists delta,
                   trace (snd out) = trace s ++ delta /\
                   forall p e,
                     In (EvCreate p (Raise e)) delta ->
                     fst out = Raise e /\
                     exists before, delta = before ++ [EvCreate p (Raise e)]);
    clear last s.
  - intros last s _. exists []. cbn. rewrite app_nil_r.
    split; [reflexivity | intros ? ? []].
  - intros last s e s1 _ Hr.
    apply round_outcome_create_failure in Hr. destruct Hr as (d & Ht & Hf).
    exists d. split; [exact Ht |]. intros p e' Hin.
    destruct (Hf p e' Hin) as [Heq ->]. cbn [fst].
    split; [injection Heq as ->; reflexivity |].
    exists []. reflexivity.
  - intros last s response s1 _ Hr _.
    apply round_outcome_create_failure in Hr. destruct Hr as (d & Ht & Hf).
    exists d. split; [exact Ht |]. intros p e' Hin.
    destruct (Hf p e' Hin) as [Heq _]. discriminate.
  - intros last s response s1 out _ Hr _ _ (d2 & Ht2 & IH).
    apply round_outcome_create_failure in Hr. destruct Hr as (d1 & Ht1 & Hf).
    exists (d1 ++ d2). rewrite Ht2. cbn [advance trace]. rewrite Ht1, app_assoc.
    split; [reflexivity |]. intros p e' Hin.
    apply in_app_or in Hin. destruct Hin as [Hin | Hin].
    + destruct (Hf p e' Hin) as [Heq _]. discriminate.
    + destruct (IH p e' Hin) as (Heq & before & ->). split; [exact Heq |].
      exists (d1 ++ before). rewrite app_assoc. reflexivity.
Qed.

(** The state the loop leaves when a model call of a round failed: the
    [round_state] of that round, in which the round was allowed and from
    which the parameters of the call were built. *)
Lemma rounds_loop_failing_round (self : AIGenerator) tools tool_manager last s :
  forall delta p e,
    trace (snd (rounds_loop self tools tool_manager last s)) = trace s ++ delta ->
    In (EvCreate p (Raise e)) delta ->
    can_continue (round_state (snd (rounds_loop self tools tool_manager last s)))
    = true /\
    p = round_params self tools
          (round_state (snd (rounds_loop self tools tool_manager last s))).
Proof.
  apply rounds_loop_induction
    with (P := fun _ s out =>
                 forall delta p e,
                   trace (snd out) = trace s ++ delta ->
                   In (EvCreate p (Raise e)) delta ->
                   can_continue (round_state (snd out)) = true /\
                   p = round_params self tools (round_state (snd out)));
    clear last s.
  - intros last s _ delta p e Ht Hin. cbn [snd] in Ht.
    rewrite <- (app_nil_r (trace s)) in Ht at 1.
    apply app_inv_head in Ht. subst delta. destruct Hin.
  - intros last s e s1 Hc Hr delta p e' Ht Hin. cbn [snd] in *.
    inversion Hr; subst.
    + cbn [trace round_state] in *. apply app_inv_head in Ht. subst delta.
      destruct Hin as [Hin | []]. injection Hin as <- _.
      split; [exact Hc | reflexivity].
    + match goal with H : trace s1 = _ |- _ => rewrite H in Ht end.
      apply app_inv_head in Ht. subst delta. apply In_round_events in Hin.
      destruct Hin as [Hin | [(? & ? & ? & Hin) | [Hin | []]]]; discriminate.
  - intros last s response s1 _ Hr _ delta p e Ht Hin. cbn [snd] in *.
    apply round_outcome_create_failure in Hr. destruct Hr as (d & Hd & Hf).
    rewrite Hd in Ht. apply app_inv_head in Ht. subst delta.
    destruct (Hf p e Hin) as [Heq _]. discriminate.
  - intros last s response s1 out _ Hr _ Hout IH delta p e Ht Hin.
    apply round_outcome_create_failure in Hr. destruct Hr as (d1 & Hd1 & Hf).
    destruct (rounds_loop_create_failure self tools tool_manager (Some response)
                (advance s1)) as (d2 & Hd2 & _).
    rewrite Hout in Hd2. cbn [advance trace] in Hd2.
    assert (Hdelta : delta = d1 ++ d2).
    { apply (app_inv_head (trace s)). rewrite <- Ht, Hd2, Hd1, app_assoc.
      reflexivity. }
    subst delta. apply in_app_or in Hin. destruct Hin as [Hin | Hin].
    + destruct (Hf p e Hin) as [Heq _]. discriminate.
    + apply (IH d2 p e); [exact Hd2 | exact Hin].
Qed.

(** When the loop falls out, no further round is allowed in the state it
    leaves. *)
Lemma rounds_loop_fell_stopped (self : AIGenerator) tools tool_manager last s :
  forall l,
    fst (rounds_loop self tools tool_manager last s) = Ok (Fell l) ->
    can_continue (round_state (snd (rounds_loop self tools tool_manager last s)))
    = false.
Proof.
  apply rounds_loop_induction
    with (P := fun _ s out =>
                 forall l, fst out = Ok (Fell l) ->
                           can_continue (round_state (snd out)) = false);
    clear last s.
  - intros last s Hc l _. exact Hc.
  - intros last s e s1 _ _ l Heq. discriminate.
  - intros last s response s1 _ _ _ l Heq. discriminate.
  - intros last s response s1 out _ _ _ _ IH. exact IH.
Qed.

(** C1, as the code has it.  When a model call raises an [Exception]
    during [generate_response_with_sequential_tools], no call of any kind
    follows it (it is the last entry of the log, so it is not retried), and
    the exception is caught: the call returns a string.  Which string is
    decided by where the call was made.  Either it is the call of a round:
    the loop ends with the exception, in a state that still allowed the
    round, the call had the parameters [_execute_tool_round] builds from
    that state, the offered tools among them, and the result is the message
    behind ["Error during sequential tool execution: "].  Or it is the
    final call: the loop had fallen out, no round being allowed any more,
    with a last response that holds tool-use requests, the call was made
    after the loop with the parameters [_get_final_response] builds, which
    hold no tools, and the result is the message behind
    ["Error generating final response: "]. *)
Theorem transport_failure_is_caught :
  forall (self : AIGenerator) (query : string) (history : option string)
         (tools : option (list ToolDescriptor)) (tool_manager : option ToolManager)
         (max_rounds : Z) (tr : Trace) (r : PyResult string) (tr' delta : Trace)
         (p : ApiParams) (e : PyExn),
    generate_response_with_sequential_tools self query history tools tool_manager
      max_rounds tr = (r, tr') ->
    tr' = tr ++ delta ->
    In (EvCreate p (Raise e)) delta ->
    exn_is_Exception e = true ->
    exists before s1,
      delta = before ++ [EvCreate p (Raise e)] /\
      ((rounds_loop self tools tool_manager None
          (mkSeq (initial_round_state self query history max_rounds) tr)
        = (Raise e, s1) /\
        trace s1 = tr ++ delta /\
        can_continue (round_state s1) = true /\
        p = round_params self tools (round_state s1) /\
        p_tools p = offered tools /\
        r = Ok ("Error during sequential tool execution: " ++ exn_str e)%string)
       \/
       (exists last_response,
          rounds_loop self tools tool_manager None
            (mkSeq (initial_round_state self query history max_rounds) tr)
          = (Ok (Fell last_response), s1) /\
          _has_tool_calls last_response = true /\
          trace s1 = tr ++ before /\
          can_continue (round_state s1) = false /\
          p = final_params self (round_state s1) /\
          p_tools p = None /\
          r = Ok ("Error generating final response: " ++ exn_str e)%string)).
Proof.
  intros self query history tools tool_manager max_rounds tr r tr' delta p e
    Hrun Htr Hin He.
  rewrite sequential_run_trace in Hrun. injection Hrun as Hr Ht.
  rewrite Htr in Ht. clear Htr. revert Hr Ht.
  unfold sequential_run. rewrite sequential_rounds_spec.
  set (s0 := mkSeq (initial_round_state self query history max_rounds) tr).
  destruct (rounds_loop_create_failure self tools tool_manager None s0)
    as (d & Hd & Hf).
  pose proof (rounds_loop_failing_round self tools tool_manager None s0) as Hround.
  pose proof (rounds_loop_fell_stopped self tools tool_manager None s0) as Hstop.
  cbn [s0 trace] in Hd, Hround.
  destruct (rounds_loop self tools tool_manager None s0) as [[[text | last] | e0] s1];
    cbn [fst snd] in *.
  - intros _ Ht. rewrite Hd in Ht. apply app_inv_head in Ht. subst d.
    destruct (Hf p e Hin) as [Heq _]. discriminate.
  - destruct (_has_tool_calls last) eqn:Hlast; cbn [fst snd trace].
    + intros Hr Ht. rewrite Hd, <- app_assoc in Ht. apply app_inv_head in Ht.
      subst delta. apply in_app_or in Hin. destruct Hin as [Hin | [Hin | []]].
      * destruct (Hf p e Hin) as [Heq _]. discriminate.
      * injection Hin as Hp Hout. exists d, s1. split.
        { rewrite Hout, Hp. reflexivity. }
        right. exists last. split; [reflexivity |]. split; [exact Hlast |].
        split; [exact Hd |]. split; [apply (Hstop last); reflexivity |].
        split; [symmetry; exact Hp |]. split; [rewrite <- Hp; reflexivity |].
        rewrite <- Hr, Hd, Hout. cbn. rewrite He. reflexivity.
    + intros _ Ht. rewrite Hd in Ht. apply app_inv_head in Ht. subst d.
      destruct (Hf p e Hin) as [Heq _]. discriminate.
  - intros Hr Ht. rewrite Hd in Ht. apply app_inv_head in Ht. subst d.
    destruct (Hf p e Hin) as [Heq (before & Hlast)]. injection Heq as ->.
    destruct (Hround delta p e Hd Hin) as [Hcan Hp].
    exists before, s1. split; [exact Hlast |].
    left. split; [reflexivity |]. split; [exact Hd |].
    split; [exact Hcan |]. split; [exact Hp |]. split.
    { rewrite Hp. unfold can_continue in Hcan. apply andb_prop in Hcan.
      destruct Hcan as [Hcan _]. unfold round_params, offered.
      cbn [api_params p_tools]. rewrite Hcan, andb_true_r. reflexivity. }
    rewrite <- Hr, He. reflexivity.
Qed.

(** C1 as stated fails: with an endpoint that raises a connection error
    the call returns a string and raises nothing, in a round and at the
    final call alike. *)
Lemma transport_failure_returns_a_string :
  In (EvCreate (round_params (generator [Raise connection_error]) search_tools
                  (initial_round_state (generator [Raise connection_error])
                     "What is machine learning?" None 2))
        (Raise connection_error))
     (snd unreachable_endpoint_run) /\
  fst unreachable_endpoint_run
  = Ok "Error during sequential tool execution: Connection error." /\
  fst unreachable_endpoint_run <> Raise connection_error /\
  model_calls (snd final_call_failure_run) = 3 /\
  fst final_call_failure_run
  = Ok "Error generating final response: Connection error.".
Proof.
  split; [vm_compute; left; reflexivity |].
  split; [vm_compute; reflexivity |].
  split; [vm_compute; discriminate |].
  split; vm_compute; reflexivity.
Qed.

(** The amended C1 at the unreachable endpoint: the failing call is the
    call of the first round. *)
Lemma transport_failure_is_caught_witness :
  exists before s1,
    snd unreachable_endpoint_run
    = before ++ [EvCreate (round_params unreachable_generator search_tools
                             (round_state unreachable_start))
                   (Raise connection_error)] /\
    ((rounds_loop unreachable_generator search_tools (Some (scripted_tools []))
        None unreachable_start
      = (Raise connection_error, s1) /\
      trace s1 = snd unreachable_endpoint_run /\
      can_continue (round_state s1) = true /\
      round_params unreachable_generator search_tools (round_state unreachable_start)
      = round_params unreachable_generator search_tools (round_state s1) /\
      search_tools = offered search_tools /\
      fst unreachable_endpoint_run
      = Ok ("Error during sequential tool execution: "
              ++ exn_str connection_error)%string)
     \/
     (exists last_response,
        rounds_loop unreachable_generator search_tools (Some (scripted_tools []))
          None unreachable_start
        = (Ok (Fell last_response), s1) /\
        _has_tool_calls last_response = true /\
        trace s1 = before /\
        can_continue (round_state s1) = false /\
        round_params unreachable_generator search_tools (round_state unreachable_start)
        = final_params unreachable_generator (round_state s1) /\
        search_tools = None /\
        fst unreachable_endpoint_run
        = Ok ("Error generating final response: "
                ++ exn_str connection_error)%string)).
Proof.
  apply (transport_failure_is_caught
           unreachable_generator "What is machine learning?" None
           search_tools (Some (scripted_tools [])) 2 []
           (fst unreachable_endpoint_run) (snd unreachable_endpoint_run)
           (snd unreachable_endpoint_run)).
  - vm_compute. reflexivity.
  - reflexivity.
  - vm_compute. left. reflexivity.
  - reflexivity.
Defined.

(* ===================================================================== *)
(** ** The forced final call *)
(* ===================================================================== *)

(** C5.  When the loop falls out with the budget exhausted and a last
    response that still holds tool-use requests, the call makes exactly one
    more model call, with the transcript and system content accumulated in
    [round_state] and neither tools nor tool choice, and returns the text
    extracted from the response to it. *)
Theorem exhausted_budget_forces_tool_free_call :
  forall (self : AIGenerator) (query : string) (history : option string)
         (tools : option (list ToolDescriptor)) (tool_manager : option ToolManager)
         (max_rounds0 : Z) (tr : Trace) (last : Response) (s1 : SeqState),
    rounds_loop self tools tool_manager None
      (mkSeq (initial_round_state self query history max_rounds0) tr)
    = (Ok (Fell (Some last)), s1) ->
    _has_tool_calls (Some last) = true ->
    (max_rounds (round_state s1) < current_round (round_state s1))%Z ->
    let params := final_params self (round_state s1) in
    let outcome := messages_create self (trace s1) params in
    generate_response_with_sequential_tools self query history tools tool_manager
      max_rounds0 tr
    = (final_call_result outcome, trace s1 ++ [EvCreate params outcome])
    /\ p_messages params = messages (round_state s1)
    /\ p_system params = system_content (round_state s1)
    /\ p_tools params = None /\ p_tool_choice params = None
    /\ (forall final_response,
          outcome = Ok final_response ->
          final_call_result outcome
          = Ok (_extract_text_response (Some final_response))).
Proof.
  intros self query history tools tool_manager max_rounds0 tr last s1
    Hloop Hcalls _ params outcome.
  split.
  - rewrite sequential_run_trace. unfold sequential_run.
    rewrite sequential_rounds_spec, Hloop, Hcalls. reflexivity.
  - repeat split. intros final_response ->. reflexivity.
Qed.

(** C5 where the model asks for a search in both of two rounds. *)
Lemma exhausted_budget_forces_tool_free_call_witness :
  max_rounds_run
  = (Ok "Synthesized answer",
     trace (snd max_rounds_loop)
       ++ [EvCreate (final_params max_rounds_generator
                       (round_state (snd max_rounds_loop)))
             (Ok synthesized_response)])
  /\ model_calls (snd max_rounds_run) = 3
  /\ tool_calls (snd max_rounds_run) = 2.
Proof.
  split; [| split; vm_compute; reflexivity].
  exact (proj1 (exhausted_budget_forces_tool_free_call
                  max_rounds_generator "Search twice" None search_tools
                  (Some max_rounds_tools) 2 [] tool_response (snd max_rounds_loop)
                  ltac:(vm_compute; reflexivity) ltac:(reflexivity)
                  ltac:(vm_compute; reflexivity))).
Defined.

(* ===================================================================== *)
(** ** Where the returned string comes from *)
(* ===================================================================== *)

Lemma malformed_no_tool_calls (response : Response) :
  malformed response = true -> _has_tool_calls (Some response) = false.
Proof.
  unfold malformed, _has_tool_calls.
  destruct (first_text (content response)); [discriminate |].
  intros H. apply negb_true_iff in H. rewrite H.
  destruct (content response); reflexivity.
Qed.

Lemma malformed_extract (response : Response) :
  malformed response = true ->
  _extract_text_response (Some response) = no_valid_content.
Proof.
  unfold malformed, _extract_text_response.
  destruct (first_text (content response)); [discriminate | reflexivity].
Qed.

(** The one model call of a round heads the round's log; when it was
    answered, the round returns that response unless a tool call of it
    propagated an exception. *)
Lemma round_outcome_create (self : AIGenerator) tools tool_manager s r s1 :
  round_outcome self tools tool_manager s r s1 ->
  exists outcome tevs,
    trace s1 = trace s ++ EvCreate (round_params self tools (round_state s)) outcome
                            :: tevs /\
    (forall ev, In ev tevs -> is_create ev = false) /\
    (forall response,
        outcome = Ok response ->
        r = Ok (Some response) \/ _has_tool_calls (Some response) = true) /\
    (forall response, r = Ok (Some response) -> outcome = Ok response).
Proof.
  assert (Hok : forall blocks outs tail ev,
             (forall ev, In ev tail -> is_create ev = false) ->
             In ev (ok_events blocks outs ++ tail) -> is_create ev = false).
  { intros blocks outs tail ev Htail Hin. apply in_app_or in Hin.
    destruct Hin as [Hin | Hin]; [| apply Htail; exact Hin].
    apply In_ok_events in Hin. destruct Hin as (? & ? & ? & ->). reflexivity. }
  intros H; destruct H.
  - eexists. exists []. split; [reflexivity |].
    split; [intros ? [] |]. split; intros ? ?; discriminate.
  - eexists. exists []. split; [reflexivity |].
    split; [intros ? [] |].
    split; intros ? Heq; injection Heq as <-; [left |]; reflexivity.
  - eexists. eexists. split; [eassumption |]. split.
    + intros ev Hin. rewrite <- (app_nil_r (ok_events _ _)) in Hin.
      eapply Hok; [| exact Hin]. intros ? [].
    + split; intros ? Heq; injection Heq as <-; [left |]; reflexivity.
  - eexists. eexists. split; [eassumption |]. split.
    + intros ev Hin. eapply Hok; [| exact Hin].
      intros ? [<- | []]. reflexivity.
    + split; intros ? Heq; injection Heq as <-; [left |]; reflexivity.
  - eexists. eexists. split; [eassumption |]. split.
    + intros ev Hin. eapply Hok; [| exact Hin].
      intros ? [<- | []]. reflexivity.
    + split; intros ? Heq; [| discriminate]. injection Heq as <-. right.
      eapply has_tool_calls_of_block; eassumption.
Qed.

Lemma In_create_round (p p0 : ApiParams) (outcome outcome0 : PyResult Response)
    (tevs : Trace) :
  (forall ev, In ev tevs -> is_create ev = false) ->
  In (EvCreate p outcome) (EvCreate p0 outcome0 :: tevs) ->
  p = p0 /\ outcome = outcome0.
Proof.
  intros Htevs [Hin | Hin].
  - injection Hin as -> ->. split; reflexivity.
  - apply Htevs in Hin. discriminate.
Qed.

(** A malformed response ends the loop at once, with the placeholder. *)
Lemma rounds_loop_malformed (self : AIGenerator) tools tool_manager last s :
  exists delta,
    trace (snd (rounds_loop self tools tool_manager last s)) = trace s ++ delta /\
    forall p response,
      In (EvCreate p (Ok response)) delta -> malformed response = true ->
      fst (rounds_loop self tools tool_manager last s)
      = Ok (Returned no_valid_content).
Proof.
  apply rounds_loop_induction
    with (P := fun _ s out =>
                 exists delta,
                   trace (snd out) = trace s ++ delta /\
                   forall p response,
                     In (EvCreate p (Ok response)) delta ->
                     malformed response = true ->
                     fst out = Ok (Returned no_valid_content));
    clear last s.
  - intros last s _. exists []. cbn. rewrite app_nil_r.
    split; [reflexivity | intros ? ? []].
  - intros last s e s1 _ Hr.
    apply round_outcome_create in Hr. destruct Hr as (o & tevs & Ht & Htevs & Hres & _).
    eexists. split; [exact Ht |]. intros p response Hin Hbad.
    apply In_create_round in Hin; [| exact Htevs]. destruct Hin as [_ <-].
    destruct (Hres response eq_refl) as [Heq | Heq]; [discriminate |].
    rewrite (malformed_no_tool_calls _ Hbad) in Heq. discriminate.
  - intros last s response0 s1 _ Hr _.
    apply round_outcome_create in Hr. destruct Hr as (o & tevs & Ht & Htevs & Hres & _).
    eexists. split; [exact Ht |]. intros p response Hin Hbad.
    apply In_create_round in Hin; [| exact Htevs]. destruct Hin as [_ <-].
    destruct (Hres response eq_refl) as [Heq | Heq].
    + injection Heq as <-. cbn [fst]. rewrite (malformed_extract _ Hbad). reflexivity.
    + rewrite (malformed_no_tool_calls _ Hbad) in Heq. discriminate.
  - intros last s response0 s1 out _ Hr Hyes _ (d2 & Ht2 & IH).
    apply round_outcome_create in Hr. destruct Hr as (o & tevs & Ht & Htevs & Hres & _).
    eexists. split.
    { rewrite Ht2. cbn [advance trace]. rewrite Ht, <- app_assoc. reflexivity. }
    intros p response Hin Hbad. apply in_app_or in Hin. destruct Hin as [Hin | Hin].
    + exfalso. apply In_create_round in Hin; [| exact Htevs]. destruct Hin as [_ <-].
      destruct (Hres response eq_refl) as [Heq | Heq].
      * injection Heq as <-. rewrite (malformed_no_tool_calls _ Hbad) in Hyes.
        discriminate.
      * rewrite (malformed_no_tool_calls _ Hbad) in Heq. discriminate.
    + eapply IH; eassumption.
Qed.

(** What the loop hands on: a text it returns is extracted from a response
    in its log, and a response it falls out with is the one it started
    with or one in its log. *)
Lemma rounds_loop_provenance (self : AIGenerator) tools tool_manager last s :
  exists delta,
    trace (snd (rounds_loop self tools tool_manager last s)) = trace s ++ delta /\
    match fst (rounds_loop self tools tool_manager last s) with
    | Ok (Returned text) =>
        exists p response,
          In (EvCreate p (Ok response)) delta /\
          text = _extract_text_response (Some response)
    | Ok (Fell (Some response)) =>
        last = Some response \/ exists p, In (EvCreate p (Ok response)) delta
    | _ => True
    end.
Proof.
  apply rounds_loop_induction
    with (P := fun last s out =>
                 exists delta,
                   trace (snd out) = trace s ++ delta /\
                   match fst out with
                   | Ok (Returned text) =>
                       exists p response,
                         In (EvCreate p (Ok response)) delta /\
                         text = _extract_text_response (Some response)
                   | Ok (Fell (Some response)) =>
                       last = Some response \/
                       exists p, In (EvCreate p (Ok response)) delta
                   | _ => True
                   end);
    clear last s.
  - intros last s _. exists []. cbn. rewrite app_nil_r.
    split; [reflexivity |]. destruct last; auto.
  - intros last s e s1 _ Hr.
    apply round_outcome_create in Hr. destruct Hr as (o & tevs & Ht & _).
    eexists. split; [exact Ht | exact I].
  - intros last s response s1 _ Hr _.
    apply round_outcome_create in Hr. destruct Hr as (o & tevs & Ht & _ & _ & Ho).
    rewrite (Ho response eq_refl) in Ht.
    eexists. split; [exact Ht |]. cbn [fst].
    eexists. exists response. split; [left; reflexivity | reflexivity].
  - intros last s response s1 out _ Hr _ _ (d2 & Ht2 & IH).
    apply round_outcome_create in Hr. destruct Hr as (o & tevs & Ht & _ & _ & Ho).
    rewrite (Ho response eq_refl) in Ht.
    eexists. split.
    { rewrite Ht2. cbn [advance trace]. rewrite Ht, <- app_assoc. reflexivity. }
    destruct (fst out) as [[text | [response' |]] | e]; auto.
    + destruct IH as (p & response' & Hin & ->).
      exists p, response'. split; [| reflexivity]. apply in_or_app. right. exact Hin.
    + right. destruct IH as [Heq | (p & Hin)].
      * injection Heq as <-. eexists. left. reflexivity.
      * exists p. apply in_or_app. right. exact Hin.
Qed.

Lemma extract_text_cases (response : Response) :
  first_text (content response) = Some (_extract_text_response (Some response)) \/
  _extract_text_response (Some response) = no_valid_content.
Proof.
  unfold _extract_text_response.
  destruct (first_text (content response)); [left | right]; reflexivity.
Qed.

Lemma placeholder_prefix (text : string) :
  placeholder text -> String.prefix "Error" text = true.
Proof. intros H; destruct H; reflexivity. Qed.

(** A malformed response anywhere in a sequential call makes the call
    return the no-content placeholder. *)
Lemma sequential_run_malformed (self : AIGenerator) query history tools
    tool_manager max_rounds tr delta p response :
  let out := sequential_run self query history tools tool_manager max_rounds tr in
  trace (snd out) = tr ++ delta ->
  In (EvCreate p (Ok response)) delta ->
  malformed response = true ->
  fst out = Ok no_valid_content.
Proof.
  unfold sequential_run. rewrite sequential_rounds_spec.
  set (s0 := mkSeq (initial_round_state self query history max_rounds) tr).
  destruct (rounds_loop_malformed self tools tool_manager None s0) as (d & Hd & Hf).
  cbn [s0 trace] in Hd.
  destruct (rounds_loop self tools tool_manager None s0) as [[[text | last] | e0] s1];
    cbn [fst snd] in *.
  - intros Ht Hin Hbad. rewrite Hd in Ht. apply app_inv_head in Ht. subst d.
    specialize (Hf p response Hin Hbad). injection Hf as ->. reflexivity.
  - destruct (_has_tool_calls last); cbn [fst snd trace].
    + intros Ht Hin Hbad.
      set (outcome := messages_create self (trace s1)
                        (final_params self (round_state s1))) in *.
      assert (Hdelta : delta = d ++ [EvCreate (final_params self (round_state s1))
                                       outcome]).
      { apply (app_inv_head tr). rewrite <- Ht, Hd, app_assoc. reflexivity. }
      subst delta. apply in_app_or in Hin. destruct Hin as [Hin | [Hin | []]].
      * specialize (Hf p response Hin Hbad). discriminate.
      * injection Hin as _ Hout. rewrite Hout. unfold final_call_result.
        rewrite (malformed_extract _ Hbad). reflexivity.
    + intros Ht Hin Hbad. rewrite Hd in Ht. apply app_inv_head in Ht. subst d.
      specialize (Hf p response Hin Hbad). discriminate.
  - intros Ht Hin Hbad. rewrite Hd in Ht. apply app_inv_head in Ht. subst d.
    specialize (Hf p response Hin Hbad). discriminate.
Qed.

(** A string a sequential call returns is the first text of a response in
    its log, or one of the placeholders. *)
Lemma sequential_run_provenance (self : AIGenerator) query history tools
    tool_manager max_rounds tr delta text :
  let out := sequential_run self query history tools tool_manager max_rounds tr in
  trace (snd out) = tr ++ delta ->
  fst out = Ok text ->
  (exists p response,
      In (EvCreate p (Ok response)) delta /\
      first_text (content response) = Some text) \/
  placeholder text.
Proof.
  unfold sequential_run. rewrite sequential_rounds_spec.
  set (s0 := mkSeq (initial_round_state self query history max_rounds) tr).
  destruct (rounds_loop_provenance self tools tool_manager None s0) as (d & Hd & Hp).
  cbn [s0 trace] in Hd.
  assert (Hextract : forall p response (l : Trace),
             In (EvCreate p (Ok response)) l ->
             (exists p response0,
                 In (EvCreate p (Ok response0)) l /\
                 first_text (content response0)
                 = Some (_extract_text_response (Some response))) \/
             placeholder (_extract_text_response (Some response))).
  { intros p response l Hin. destruct (extract_text_cases response) as [H | H].
    - left. exists p, response. split; assumption.
    - right. rewrite H. constructor. }
  destruct (rounds_loop self tools tool_manager None s0) as [[[t | last] | e0] s1];
    cbn [fst snd] in *.
  - intros Ht Heq. rewrite Hd in Ht. apply app_inv_head in Ht. subst d.
    injection Heq as <-. destruct Hp as (p & response & Hin & ->).
    eapply Hextract; exact Hin.
  - destruct (_has_tool_calls last) eqn:Hlast; cbn [fst snd trace].
    + intros Ht Heq.
      set (outcome := messages_create self (trace s1)
                        (final_params self (round_state s1))) in *.
      assert (Hdelta : delta = d ++ [EvCreate (final_params self (round_state s1))
                                       outcome]).
      { apply (app_inv_head tr). rewrite <- Ht, Hd, app_assoc. reflexivity. }
      subst delta. destruct outcome as [fin | e]; cbn in Heq.
      * injection Heq as <-. eapply Hextract.
        apply in_or_app. right. left. reflexivity.
      * destruct (exn_is_Exception e); [| discriminate].
        injection Heq as <-. right. constructor.
    + intros Ht Heq. rewrite Hd in Ht. apply app_inv_head in Ht. subst d.
      injection Heq as <-. destruct last as [response |].
      * destruct Hp as [Heq | (p & Hin)]; [discriminate |].
        eapply Hextract; exact Hin.
      * right. constructor.
  - intros Ht Heq. destruct (exn_is_Exception e0); [| discriminate].
    injection Heq as <-. right. constructor.
Qed.

(* ===================================================================== *)
(** ** Malformed responses and placeholders *)
(* ===================================================================== *)

(** C7.  When a model response of a sequential call is malformed or empty
    (no block with a text, no tool-use request), the call returns the
    no-content placeholder and raises nothing; and every string the call
    returns is the first text of a model response or a placeholder, every
    placeholder beginning with ["Error"]. *)
Theorem malformed_response_yields_placeholder :
  forall (self : AIGenerator) (query : string) (history : option string)
         (tools : option (list ToolDescriptor)) (tool_manager : option ToolManager)
         (max_rounds : Z) (tr : Trace) (r : PyResult string) (tr' delta : Trace),
    generate_response_with_sequential_tools self query history tools tool_manager
      max_rounds tr = (r, tr') ->
    tr' = tr ++ delta ->
    (forall p response,
        In (EvCreate p (Ok response)) delta -> malformed response = true ->
        r = Ok no_valid_content /\ placeholder no_valid_content)
    /\
    (forall text,
        r = Ok text ->
        (exists p response,
            In (EvCreate p (Ok response)) delta /\
            first_text (content response) = Some text) \/
        placeholder text)
    /\
    (forall text, placeholder text -> String.prefix "Error" text = true).
Proof.
  intros self query history tools tool_manager max_rounds tr r tr' delta Hrun Htr.
  rewrite sequential_run_trace in Hrun. injection Hrun as Hr Ht.
  rewrite Htr in Ht. clear Htr.
  split; [| split].
  - intros p response Hin Hbad. split; [| constructor].
    rewrite <- Hr. eapply sequential_run_malformed; eassumption.
  - intros text Heq. rewrite <- Hr in Heq.
    eapply sequential_run_provenance; eassumption.
  - exact placeholder_prefix.
Qed.

(** C7 at an endpoint that answers with an empty content. *)
Lemma malformed_response_yields_placeholder_witness :
  fst empty_content_run = Ok no_valid_content /\ placeholder no_valid_content.
Proof.
  refine (proj1 (malformed_response_yields_placeholder
                   (generator [Ok empty_response]) "What is machine learning?" None
                   search_tools (Some (scripted_tools [])) 2 []
                   (fst empty_content_run) (snd empty_content_run)
                   (snd empty_content_run) _ _)
            (round_params (generator [Ok empty_response]) search_tools
               (initial_round_state (generator [Ok empty_response])
                  "What is machine learning?" None 2))
            empty_response _ _).
  - vm_compute. reflexivity.
  - reflexivity.
  - vm_compute. left. reflexivity.
  - reflexivity.
Defined.

(** A response with one image block and nothing else. *)
Example image_only_response_yields_placeholder :
  fst image_only_run = Ok no_valid_content.
Proof. vm_compute. reflexivity. Qed.

(* ===================================================================== *)
(** ** The transcript only grows *)
(* ===================================================================== *)

Lemma answers_app (a b : Trace) : answers (a ++ b) = answers a ++ answers b.
Proof.
  unfold answers, successes. rewrite flat_map_app, map_app. reflexivity.
Qed.

Lemma answers_ok_events (blocks : list ContentBlock) (outs : list string) :
  length outs = length (tool_uses blocks) ->
  answers (ok_events blocks outs) = outs.
Proof.
  unfold answers, successes, ok_events.
  generalize (tool_uses blocks) as uses. intros uses. revert outs.
  induction uses as [| b rest IH]; intros [| out outs] Hlen;
    try discriminate; [reflexivity |].
  cbn. f_equal. apply IH. injection Hlen as Hlen. exact Hlen.
Qed.

Lemma interrupted_ok_events (blocks : list ContentBlock) (outs : list string) :
  interrupted (ok_events blocks outs) = false.
Proof.
  unfold interrupted, ok_events.
  induction (combine (tool_uses blocks) outs) as [| bo l IH]; cbn; auto.
Qed.

(** A batch is built from the requests that were answered: the blocks
    after them take no part. *)
Lemma batch_prefix (pre : list ContentBlock) (b : ContentBlock)
    (post : list ContentBlock) (outs : list string) :
  length outs = length (tool_uses pre) ->
  batch (pre ++ b :: post) outs = batch pre outs.
Proof.
  unfold batch, tool_uses. rewrite filter_app.
  generalize (filter is_tool_use pre) as uses.
  generalize (filter is_tool_use (b :: post)) as more.
  intros more uses. revert outs.
  induction uses as [| u rest IH]; intros [| out outs] Hlen; try discriminate.
  - destruct more; reflexivity.
  - cbn. f_equal. apply IH. injection Hlen as Hlen. exact Hlen.
Qed.

(** One round: its log is one model call, made with the transcript as it
    stands, and tool calls; and the transcript gains the turns read off
    that log. *)
Lemma round_outcome_round_log (self : AIGenerator) tools tool_manager s r s1 :
  round_outcome self tools tool_manager s r s1 ->
  exists rl,
    trace s1 = trace s ++ round_events rl /\
    rl_params rl = round_params self tools (round_state s) /\
    (forall ev, In ev (rl_tools rl) -> is_create ev = false) /\
    messages (round_state s1)
    = messages (round_state s) ++ appended_turns tool_manager rl.
Proof.
  assert (Hok : forall blocks outs tail ev,
             (forall ev, In ev tail -> is_create ev = false) ->
             In ev (ok_events blocks outs ++ tail) -> is_create ev = false).
  { intros blocks outs tail ev Htail Hin. apply in_app_or in Hin.
    destruct Hin as [Hin | Hin]; [| apply Htail; exact Hin].
    apply In_ok_events in Hin. destruct Hin as (? & ? & ? & ->). reflexivity. }
  intros H; destruct H.
  - exists (mkRoundLog (round_params self tools (round_state s)) (Raise e) []).
    split; [reflexivity |]. split; [reflexivity |]. split; [intros ? [] |].
    cbn. rewrite app_nil_r. reflexivity.
  - exists (mkRoundLog (round_params self tools (round_state s)) (Ok response) []).
    split; [reflexivity |]. split; [reflexivity |]. split; [intros ? [] |].
    unfold appended_turns. cbn [rl_outcome rl_tools round_state].
    destruct tool_manager as [tm |]; [| rewrite app_nil_r; reflexivity].
    match goal with
    | Hno : _ \/ _ |- _ =>
        destruct Hno as [Hno | Hno]; [discriminate |];
        apply String.eqb_neq in Hno; rewrite Hno, app_nil_r; reflexivity
    end.
  - exists (mkRoundLog (round_params self tools (round_state s)) (Ok response)
              (ok_events (content response) outs)).
    split; [assumption |]. split; [reflexivity |]. split.
    { cbn [rl_tools]. intros ev Hin.
      rewrite <- (app_nil_r (ok_events _ _)) in Hin.
      eapply Hok; [| exact Hin]. intros ? []. }
    unfold appended_turns. cbn [rl_outcome rl_tools].
    destruct tool_manager as [tm |]; [| congruence].
    match goal with H : stop_reason response = _ |- _ => rewrite H end.
    cbn [String.eqb Ascii.eqb Bool.eqb].
    rewrite interrupted_ok_events, answers_ok_events by assumption.
    assumption.
  - exists (mkRoundLog (round_params self tools (round_state s)) (Ok response)
              (ok_events pre outs
                 ++ [EvTool (block_name b) (block_input b) (Raise e)])).
    split; [assumption |]. split; [reflexivity |]. split.
    { cbn [rl_tools]. intros ev Hin. eapply Hok; [| exact Hin].
      intros ? [<- | []]. reflexivity. }
    unfold appended_turns. cbn [rl_outcome rl_tools].
    destruct tool_manager as [tm |]; [| congruence].
    match goal with H : stop_reason response = _ |- _ => rewrite H end.
    cbn [String.eqb Ascii.eqb Bool.eqb].
    unfold interrupted. rewrite existsb_app. fold (interrupted (ok_events pre outs)).
    rewrite interrupted_ok_events. cbn [existsb orb].
    match goal with H : exn_is_Exception e = true |- _ => rewrite H end.
    cbn [negb orb].
    rewrite answers_app, answers_ok_events by assumption.
    cbn. rewrite app_nil_r.
    match goal with H : content response = _ |- _ => rewrite H end.
    rewrite batch_prefix by assumption. assumption.
  - exists (mkRoundLog (round_params self tools (round_state s)) (Ok response)
              (ok_events pre outs
                 ++ [EvTool (block_name b) (block_input b) (Raise e)])).
    split; [assumption |]. split; [reflexivity |]. split.
    { cbn [rl_tools]. intros ev Hin. eapply Hok; [| exact Hin].
      intros ? [<- | []]. reflexivity. }
    unfold appended_turns. cbn [rl_outcome rl_tools].
    destruct tool_manager as [tm |]; [| congruence].
    match goal with H : stop_reason response = _ |- _ => rewrite H end.
    cbn [String.eqb Ascii.eqb Bool.eqb].
    unfold interrupted. rewrite existsb_app. fold (interrupted (ok_events pre outs)).
    rewrite interrupted_ok_events. cbn [existsb orb].
    match goal with H : exn_is_Exception e = false |- _ => rewrite H end.
    cbn [negb orb]. assumption.
Qed.

(** The loop: its log is the logs of its rounds one after the other, the
    transcript at its end is the transcript at its start followed by what
    each round appended, and the model call of each round was given the
    transcript at the start followed by what the rounds before it
    appended. *)
Lemma rounds_loop_transcript (self : AIGenerator) tools tool_manager last s :
  exists rounds,
    trace (snd (rounds_loop self tools tool_manager last s))
    = trace s ++ flat_map round_events rounds /\
    Forall (fun rl => forall ev, In ev (rl_tools rl) -> is_create ev = false)
      rounds /\
    messages (round_state (snd (rounds_loop self tools tool_manager last s)))
    = messages (round_state s) ++ flat_map (appended_turns tool_manager) rounds /\
    forall earlier rl later,
      rounds = earlier ++ rl :: later ->
      p_messages (rl_params rl)
      = messages (round_state s) ++ flat_map (appended_turns tool_manager) earlier.
Proof.
  apply rounds_loop_induction
    with (P := fun _ s out =>
                 exists rounds,
                   trace (snd out) = trace s ++ flat_map round_events rounds /\
                   Forall (fun rl => forall ev, In ev (rl_tools rl) ->
                                                is_create ev = false) rounds /\
                   messages (round_state (snd out))
                   = messages (round_state s)
                       ++ flat_map (appended_turns tool_manager) rounds /\
                   forall earlier rl later,
                     rounds = earlier ++ rl :: later ->
                     p_messages (rl_params rl)
                     = messages (round_state s)
                         ++ flat_map (appended_turns tool_manager) earlier);
    clear last s.
  - intros last s _. exists []. cbn. rewrite !app_nil_r.
    repeat split; auto.
    intros earlier rl later Heq. apply app_cons_not_nil in Heq. destruct Heq.
  - intros last s e s1 _ Hr.
    apply round_outcome_round_log in Hr. destruct Hr as (rl & Ht & Hp & Htools & Hm).
    exists [rl]. cbn [snd flat_map]. rewrite !app_nil_r.
    split; [exact Ht |]. split; [constructor; [exact Htools | constructor] |].
    split; [exact Hm |].
    intros [| rl0 earlier] rl' later Heq.
    + injection Heq as <- _. rewrite Hp. cbn. rewrite app_nil_r. reflexivity.
    + injection Heq as _ Heq. apply app_cons_not_nil in Heq. destruct Heq.
  - intros last s response s1 _ Hr _.
    apply round_outcome_round_log in Hr. destruct Hr as (rl & Ht & Hp & Htools & Hm).
    exists [rl]. cbn [snd flat_map]. rewrite !app_nil_r.
    split; [exact Ht |]. split; [constructor; [exact Htools | constructor] |].
    split; [exact Hm |].
    intros [| rl0 earlier] rl' later Heq.
    + injection Heq as <- _. rewrite Hp. cbn. rewrite app_nil_r. reflexivity.
    + injection Heq as _ Heq. apply app_cons_not_nil in Heq. destruct Heq.
  - intros last s response s1 out _ Hr _ _ (rounds & Ht2 & Hall & Hm2 & Hgiven).
    apply round_outcome_round_log in Hr. destruct Hr as (rl & Ht & Hp & Htools & Hm).
    cbn [advance round_state trace advance_round messages] in *.
    exists (rl :: rounds). cbn [flat_map]. split; [| split; [| split]].
    + rewrite Ht2, Ht, <- app_assoc. reflexivity.
    + constructor; assumption.
    + rewrite Hm2, Hm, <- app_assoc. reflexivity.
    + intros [| rl0 earlier] rl' later Heq.
      * injection Heq as <- _. rewrite Hp. cbn. rewrite app_nil_r. reflexivity.
      * injection Heq as <- Heq. cbn [flat_map].
        rewrite (Hgiven earlier rl' later Heq), Hm, <- app_assoc. reflexivity.
Qed.

(** C9.  Over one sequential call the transcript in [round_state] starts
    as the user query and only gains turns at its end, each read off the
    log of the round that appended it.  The log of the call is the logs of
    its rounds, one model call and the tool calls after it each, followed
    by the final call when one is made.  A round in which a tool manager
    was given and the model's response has stop reason ["tool_use"] appends
    that response as one assistant turn and then the batch pairing its
    tool-use requests with the executor's answers as one user turn (no user
    turn for an empty batch, nor when the round is interrupted); any other
    round appends nothing.  The transcript at the end is the query followed
    by these turns in order, the model call of each round was given the
    query followed by the turns of the rounds before it, and the final call
    the whole transcript: no earlier entry is changed or dropped. *)
Theorem transcript_only_grows :
  forall (self : AIGenerator) (query : string) (history : option string)
         (tools : option (list ToolDescriptor)) (tool_manager : option ToolManager)
         (max_rounds : Z) (tr : Trace) (r : PyResult string) (s' : SeqState)
         (delta : Trace),
    sequential_run self query history tools tool_manager max_rounds tr = (r, s') ->
    trace s' = tr ++ delta ->
    generate_response_with_sequential_tools self query history tools tool_manager
      max_rounds tr = (r, trace s')
    /\ exists (rounds : list RoundLog) (final : Trace),
         delta = flat_map round_events rounds ++ final /\
         Forall (fun rl => forall ev, In ev (rl_tools rl) -> is_create ev = false)
           rounds /\
         (final = [] \/
          exists outcome,
            final = [EvCreate (final_params self (round_state s')) outcome]) /\
         messages (round_state s')
         = user_query query :: flat_map (appended_turns tool_manager) rounds /\
         forall earlier rl later,
           rounds = earlier ++ rl :: later ->
           p_messages (rl_params rl)
           = user_query query :: flat_map (appended_turns tool_manager) earlier.
Proof.
  intros self query history tools tool_manager max_rounds tr r s' delta Hrun Htr.
  split.
  { rewrite sequential_run_trace, Hrun. reflexivity. }
  revert Hrun. unfold sequential_run. rewrite sequential_rounds_spec.
  set (s0 := mkSeq (initial_round_state self query history max_rounds) tr).
  destruct (rounds_loop_transcript self tools tool_manager None s0)
    as (rounds & Hd & Hall & Hm & Hgiven).
  cbn [s0 trace round_state initial_round_state messages app] in Hd, Hm, Hgiven.
  destruct (rounds_loop self tools tool_manager None s0) as [[[text | last] | e0] s1];
    cbn [fst snd] in *.
  - intros Heq. injection Heq as _ <-.
    rewrite Hd in Htr. apply app_inv_head in Htr.
    exists rounds, []. rewrite app_nil_r. auto.
  - destruct (_has_tool_calls last).
    + intros Heq. injection Heq as _ <-. cbn [round_state trace] in *.
      rewrite Hd, <- app_assoc in Htr. apply app_inv_head in Htr.
      exists rounds. eexists. split; [symmetry; exact Htr |].
      split; [exact Hall |]. split; [right; eexists; reflexivity |].
      split; assumption.
    + intros Heq. injection Heq as _ <-.
      rewrite Hd in Htr. apply app_inv_head in Htr.
      exists rounds, []. rewrite app_nil_r. auto.
  - intros Heq. injection Heq as _ <-.
    rewrite Hd in Htr. apply app_inv_head in Htr.
    exists rounds, []. rewrite app_nil_r. auto.
Qed.

(** C9 where the model asks for a search in both rounds. *)
Lemma transcript_only_grows_witness :
  max_rounds_run = (fst max_rounds_state, trace (snd max_rounds_state))
  /\ exists (rounds : list RoundLog) (final : Trace),
       trace (snd max_rounds_state) = flat_map round_events rounds ++ final /\
       Forall (fun rl => forall ev, In ev (rl_tools rl) -> is_create ev = false)
         rounds /\
       (final = [] \/
        exists outcome,
          final = [EvCreate (final_params max_rounds_generator
                               (round_state (snd max_rounds_state))) outcome]) /\
       messages (round_state (snd max_rounds_state))
       = user_query "Search twice"
           :: flat_map (appended_turns (Some max_rounds_tools)) rounds /\
       forall earlier rl later,
         rounds = earlier ++ rl :: later ->
         p_messages (rl_params rl)
         = user_query "Search twice"
             :: flat_map (appended_turns (Some max_rounds_tools)) earlier.
Proof.
  apply (transcript_only_grows
           max_rounds_generator "Search twice" None search_tools
           (Some max_rounds_tools) 2 []
           (fst max_rounds_state) (snd max_rounds_state)
           (trace (snd max_rounds_state))).
  - vm_compute. reflexivity.
  - reflexivity.
Defined.

(** The transcript of that run, entry by entry: the query, and for each
    of the two rounds the model's response and the executor's answer under
    the identifier of the request. *)
Example max_rounds_transcript :
  messages (round_state (snd max_rounds_state))
  = [user_query "Search twice";
     assistant_turn tool_response;
     tool_result_turn [mkToolResult "tool_result" "tool1" "first"];
     assistant_turn tool_response;
     tool_result_turn [mkToolResult "tool_result" "tool1" "second"]].
Proof. vm_compute. reflexivity. Qed.

(* ===================================================================== *)
(** ** [ToolRoundState]: how its methods compose *)
(* ===================================================================== *)

Lemma advance_round_iter (st : ToolRoundState) (n : nat) :
  current_round (Nat.iter n advance_round st) = (current_round st + Z.of_nat n)%Z /\
  max_rounds (Nat.iter n advance_round st) = max_rounds st /\
  has_errors (Nat.iter n advance_round st) = has_errors st /\
  messages (Nat.iter n advance_round st) = messages st /\
  tool_execution_history (Nat.iter n advance_round st) = tool_execution_history st.
Proof.
  induction n as [| n (Hc & Hm & He & Hmsg & Hh)].
  - cbn. repeat split. lia.
  - change (Nat.iter (S n) advance_round st)
      with (advance_round (Nat.iter n advance_round st)).
    remember (Nat.iter n advance_round st) as st' eqn:Hst.
    unfold advance_round. cbn.
    rewrite Hc, Hm, He, Hmsg, Hh. repeat split. lia.
Qed.

(** X1.  After [n] calls of [advance_round], [can_continue] holds exactly
    when [current_round + n] is still within [max_rounds] and no error was
    recorded; recording a tool execution never changes it. *)
Theorem can_continue_after_advances :
  forall (st : ToolRoundState) (n : nat),
    (can_continue (Nat.iter n advance_round st) = true <->
       (current_round st + Z.of_nat n <= max_rounds st)%Z /\ has_errors st = false)
    /\ (forall name input result,
          can_continue (add_tool_execution name input result st) = can_continue st).
Proof.
  intros st n. split.
  - destruct (advance_round_iter st n) as (Hc & Hm & He & _).
    unfold can_continue. rewrite Hc, Hm, He.
    rewrite andb_true_iff, negb_true_iff, Z.leb_le. reflexivity.
  - intros name input result. reflexivity.
Qed.

(* ===================================================================== *)
(** ** The response helpers *)
(* ===================================================================== *)

Lemma first_text_split (blocks : list ContentBlock) :
  match first_text blocks with
  | Some text =>
      exists pre b post,
        blocks = pre ++ b :: post /\
        Forall (fun x => block_text x = None) pre /\ block_text b = Some text
  | None => Forall (fun x => block_text x = None) blocks
  end.
Proof.
  induction blocks as [| b rest IH]; cbn.
  - constructor.
  - destruct (block_text b) as [t |] eqn:Hb.
    + exists [], b, rest. repeat split; auto.
    + destruct (first_text rest) as [t |].
      * destruct IH as (pre & b' & post & -> & Hpre & Hb').
        exists (b :: pre), b', post. repeat split; auto.
      * constructor; assumption.
Qed.

(** X2.  [_extract_text_response] returns the text of the first block
    that carries one, skipping the blocks before it, and the no-content
    placeholder when no block does or there is no response;
    [_has_tool_calls] holds exactly when some block of the response has
    type ["tool_use"]. *)
Theorem response_helpers_spec :
  forall response : Response,
    ((exists pre b post text,
         content response = pre ++ b :: post /\
         Forall (fun x => block_text x = None) pre /\
         block_text b = Some text /\
         _extract_text_response (Some response) = text)
     \/
     (Forall (fun x => block_text x = None) (content response) /\
      _extract_text_response (Some response) = no_valid_content))
    /\ (_has_tool_calls (Some response) = true <->
          exists b, In b (content response) /\ block_type b = "tool_use")
    /\ _extract_text_response None = no_valid_content
    /\ _has_tool_calls None = false.
Proof.
  intros response. split; [| split; [| split; reflexivity]].
  - pose proof (first_text_split (content response)) as H.
    unfold _extract_text_response.
    destruct (first_text (content response)) as [text |].
    + left. destruct H as (pre & b & post & Hc & Hpre & Hb).
      exists pre, b, post, text. auto.
    + right. auto.
  - unfold _has_tool_calls. split.
    + destruct (content response) as [| b0 rest] eqn:Hc; [discriminate |].
      intros H. apply existsb_exists in H. destruct H as (b & Hin & Hb).
      exists b. split; [exact Hin |]. apply String.eqb_eq. exact Hb.
    + intros (b & Hin & Hb).
      destruct (content response) as [| b0 rest] eqn:Hc; [destruct Hin |].
      apply existsb_exists. exists b. split; [exact Hin |].
      apply String.eqb_eq. exact Hb.
Qed.

(* ===================================================================== *)
(** ** What can leave the sequential path as an exception *)
(* ===================================================================== *)

Lemma round_outcome_raise (self : AIGenerator) tools tool_manager s e s1 :
  round_outcome self tools tool_manager s (Raise e) s1 ->
  exists before ev, trace s1 = trace s ++ before ++ [ev] /\ raised_by e ev.
Proof.
  intros H. inversion H; subst.
  - exists []. eexists. split; [reflexivity |]. left. eexists. reflexivity.
  - eexists (_ :: _). eexists. split; [eassumption |].
    right. eexists. eexists. split; [reflexivity | assumption].
Qed.

Lemma round_outcome_extends (self : AIGenerator) tools tool_manager s r s1 :
  round_outcome self tools tool_manager s r s1 ->
  exists delta, trace s1 = trace s ++ delta.
Proof.
  intros H. apply round_outcome_create in H.
  destruct H as (o & tevs & Ht & _). eexists. exact Ht.
Qed.

(** When the loop raises, the exception is the outcome of the last entry
    of its log. *)
Lemma rounds_loop_raise (self : AIGenerator) tools tool_manager last s :
  exists delta,
    trace (snd (rounds_loop self tools tool_manager last s)) = trace s ++ delta /\
    forall e,
      fst (rounds_loop self tools tool_manager last s) = Raise e ->
      exists before ev, delta = before ++ [ev] /\ raised_by e ev.
Proof.
  apply rounds_loop_induction
    with (P := fun _ s out =>
                 exists delta,
                   trace (snd out) = trace s ++ delta /\
                   forall e,
                     fst out = Raise e ->
                     exists before ev, delta = before ++ [ev] /\ raised_by e ev);
    clear last s.
  - intros last s _. exists []. cbn. rewrite app_nil_r.
    split; [reflexivity | intros ? ?; discriminate].
  - intros last s e s1 _ Hr.
    apply round_outcome_raise in Hr. destruct Hr as (before & ev & Ht & Hev).
    eexists. split; [exact Ht |]. cbn [fst]. intros e' Heq. injection Heq as <-.
    exists before, ev. split; [reflexivity | exact Hev].
  - intros last s response s1 _ Hr _.
    apply round_outcome_extends in Hr. destruct Hr as (d & Ht).
    exists d. split; [exact Ht | intros ? ?; discriminate].
  - intros last s response s1 out _ Hr _ _ (d2 & Ht2 & IH).
    apply round_outcome_extends in Hr. destruct Hr as (d1 & Ht1).
    exists (d1 ++ d2). rewrite Ht2. cbn [advance trace]. rewrite Ht1, app_assoc.
    split; [reflexivity |]. intros e Heq.
    destruct (IH e Heq) as (before & ev & -> & Hev).
    exists (d1 ++ before), ev. rewrite app_assoc. split; [reflexivity | exact Hev].
Qed.

(** X3.  No exception derived from [Exception] leaves
    [generate_response_with_sequential_tools]: when the call raises, what
    it raises does not derive from [Exception] and is the outcome of the
    last call in the log, a model call or a tool execution. *)
Theorem sequential_call_raises_no_Exception :
  forall (self : AIGenerator) (query : string) (history : option string)
         (tools : option (list ToolDescriptor)) (tool_manager : option ToolManager)
         (max_rounds : Z) (tr : Trace) (e : PyExn) (tr' : Trace),
    generate_response_with_sequential_tools self query history tools tool_manager
      max_rounds tr = (Raise e, tr') ->
    exn_is_Exception e = false /\
    exists before ev,
      tr' = tr ++ before ++ [ev] /\
      ((exists p, ev = EvCreate p (Raise e)) \/
       (exists name input, ev = EvTool name input (Raise e))).
Proof.
  intros self query history tools tool_manager max_rounds tr e tr' Hrun.
  rewrite sequential_run_trace in Hrun. injection Hrun as Hr Ht. revert Hr Ht.
  unfold sequential_run. rewrite sequential_rounds_spec.
  set (s0 := mkSeq (initial_round_state self query history max_rounds) tr).
  destruct (rounds_loop_raise self tools tool_manager None s0) as (d & Hd & Hf).
  cbn [s0 trace] in Hd.
  destruct (rounds_loop self tools tool_manager None s0) as [[[text | last] | e0] s1];
    cbn [fst snd] in *.
  - intros Hr _. discriminate.
  - destruct (_has_tool_calls last); cbn [fst snd trace]; [| intros Hr _; discriminate].
    intros Hr Ht.
    destruct (messages_create self (trace s1) _) as [fin | e1] eqn:Ec;
      cbn in Hr; [discriminate |].
    destruct (exn_is_Exception e1) eqn:E1; [discriminate |].
    injection Hr as ->. split; [exact E1 |].
    exists d. eexists. rewrite <- Ht, Hd, <- app_assoc.
    split; [reflexivity |]. left. eexists. reflexivity.
  - intros Hr Ht. destruct (exn_is_Exception e0) eqn:E0; [discriminate |].
    injection Hr as ->. split; [exact E0 |].
    destruct (Hf e eq_refl) as (before & ev & -> & Hev).
    exists before, ev. rewrite <- Ht, Hd. split; [reflexivity |].
    destruct Hev as [Hev | (n & i & Hev & _)]; [left; exact Hev |].
    right. exists n, i. exact Hev.
Qed.

(** X3 at an endpoint that raises [KeyboardInterrupt]. *)
Lemma sequential_call_raises_no_Exception_witness :
  exn_is_Exception keyboard_interrupt = false /\
  exists before ev,
    snd interrupted_run = [] ++ before ++ [ev] /\
    ((exists p, ev = EvCreate p (Raise keyboard_interrupt)) \/
     (exists name input, ev = EvTool name input (Raise keyboard_interrupt))).
Proof.
  apply (sequential_call_raises_no_Exception
           (generator [Raise keyboard_interrupt]) "What is machine learning?" None
           search_tools (Some (scripted_tools [])) 2 []).
  vm_compute. reflexivity.
Defined.

(* ===================================================================== *)
(** ** The first round *)
(* ===================================================================== *)

Lemma no_tool_calls_no_tool_uses (response : Response) :
  _has_tool_calls (Some response) = false -> tool_uses (content response) = [].
Proof.
  unfold _has_tool_calls, tool_uses.
  destruct (content response) as [| b rest] eqn:Hc; [reflexivity |].
  generalize (b :: rest). intros l H.
  induction l as [| x l IH]; [reflexivity |].
  cbn in *. apply orb_false_iff in H. destruct H as [Hx Hl].
  rewrite Hx. apply IH. exact Hl.
Qed.

(** With no tool-use request among [blocks] the dispatch loop does
    nothing. *)
Lemma execute_tool_calls_nothing (tm : ToolManager) (blocks : list ContentBlock) :
  tool_uses blocks = [] ->
  forall results s, execute_tool_calls tm blocks results s = (Ok results, s).
Proof.
  induction blocks as [| b rest IH]; intros Hnone results s; [reflexivity |].
  rewrite tool_uses_cons in Hnone. cbn.
  destruct (is_tool_use b); [discriminate |]. apply IH. exact Hnone.
Qed.

(** A round whose response holds no tool-use request logs the model call
    and nothing else, and returns the response. *)
Lemma round_without_tool_calls (self : AIGenerator) tools tool_manager s
    (response : Response) :
  messages_create self (trace s) (round_params self tools (round_state s))
    = Ok response ->
  _has_tool_calls (Some response) = false ->
  exists s1,
    _execute_tool_round self tools tool_manager s = (Ok (Some response), s1) /\
    trace s1 = trace s ++ [EvCreate (round_params self tools (round_state s))
                             (Ok response)].
Proof.
  intros Hc Hno. unfold _execute_tool_round. py_unfold. rewrite Hc.
  destruct tool_manager as [tm |]; [| eexists; split; reflexivity].
  destruct (stop_reason response =? "tool_use")%string;
    [| eexists; split; reflexivity].
  rewrite execute_tool_calls_nothing
    by (apply no_tool_calls_no_tool_uses; exact Hno).
  eexists. split; reflexivity.
Qed.

(** A first response without tool-use requests: one model call, its
    text returned. *)
Lemma sequential_direct_answer :
  forall (self : AIGenerator) (query : string) (history : option string)
         (tools : option (list ToolDescriptor)) (tool_manager : option ToolManager)
         (max_rounds0 : Z) (tr : Trace) (response : Response),
    (1 <= max_rounds0)%Z ->
    messages_create self tr
      (api_params self [user_query query] (build_system_content self history)
         (offered tools)) = Ok response ->
    _has_tool_calls (Some response) = false ->
    generate_response_with_sequential_tools self query history tools tool_manager
      max_rounds0 tr
    = (Ok (_extract_text_response (Some response)),
       tr ++ [EvCreate
                (api_params self [user_query query]
                   (build_system_content self history) (offered tools))
                (Ok response)]).
Proof.
  intros self query history tools tool_manager max_rounds0 tr response
    Hmax Hc Hno.
  rewrite sequential_run_trace. unfold sequential_run.
  rewrite sequential_rounds_spec.
  set (s0 := mkSeq (initial_round_state self query history max_rounds0) tr).
  assert (Hp : round_params self tools (round_state s0)
               = api_params self [user_query query]
                   (build_system_content self history) (offered tools)).
  { unfold round_params, offered. cbn.
    assert (H1 : (1 <=? max_rounds0)%Z = true) by (apply Z.leb_le; exact Hmax).
    rewrite H1, andb_true_r. reflexivity. }
  destruct (round_without_tool_calls self tools tool_manager s0 response)
    as (s1 & Hround & Ht); [rewrite Hp; exact Hc | exact Hno |].
  rewrite rounds_loop_step.
  assert (Hcan : can_continue (round_state s0) = true).
  { unfold can_continue. cbn.
    assert (H1 : (1 <=? max_rounds0)%Z = true) by (apply Z.leb_le; exact Hmax).
    rewrite H1. reflexivity. }
  rewrite Hcan, Hround, Hno. cbn [fst snd]. rewrite Ht, Hp. reflexivity.
Qed.

(** X4.  When a round is allowed and the first response of the endpoint
    holds no tool-use request, the sequential call makes that one model
    call, never calls the executor, and returns the text extracted from
    the response. *)
Theorem direct_answer_is_returned_after_one_call :
  forall (self : AIGenerator) (query : string) (history : option string)
         (tools : option (list ToolDescriptor)) (tool_manager : option ToolManager)
         (max_rounds0 : Z) (tr : Trace) (response : Response),
    (1 <= max_rounds0)%Z ->
    messages_create self tr
      (api_params self [user_query query] (build_system_content self history)
         (offered tools)) = Ok response ->
    _has_tool_calls (Some response) = false ->
    generate_response_with_sequential_tools self query history tools tool_manager
      max_rounds0 tr
    = (Ok (_extract_text_response (Some response)),
       tr ++ [EvCreate
                (api_params self [user_query query]
                   (build_system_content self history) (offered tools))
                (Ok response)]).
Proof. exact sequential_direct_answer. Qed.

(** X4 at an endpoint that answers at once. *)
Lemma direct_answer_is_returned_after_one_call_witness :
  direct_answer_run
  = (Ok (_extract_text_response (Some (mkResponse "end_turn" [text_block "4"]))),
     [] ++ [EvCreate
              (api_params (generator [Ok (mkResponse "end_turn" [text_block "4"])])
                 [user_query "What is 2+2?"]
                 (build_system_content
                    (generator [Ok (mkResponse "end_turn" [text_block "4"])]) None)
                 (offered search_tools))
              (Ok (mkResponse "end_turn" [text_block "4"]))]).
Proof.
  apply (direct_answer_is_returned_after_one_call
           (generator [Ok (mkResponse "end_turn" [text_block "4"])])
           "What is 2+2?" None search_tools (Some (scripted_tools [])) 2 []).
  - lia.
  - reflexivity.
  - reflexivity.
Defined.

Lemma rounds_loop_extends (self : AIGenerator) tools tool_manager last s :
  exists delta,
    trace (snd (rounds_loop self tools tool_manager last s)) = trace s ++ delta.
Proof.
  destruct (rounds_loop_model_calls self tools tool_manager last s) as (d & H & _).
  exists d. exact H.
Qed.

Lemma sequential_rounds_extends_loop (self : AIGenerator) tools tool_manager s :
  exists tail,
    trace (snd (sequential_rounds self tools tool_manager s))
    = trace (snd (rounds_loop self tools tool_manager None s)) ++ tail.
Proof.
  rewrite sequential_rounds_spec.
  destruct (rounds_loop self tools tool_manager None s) as [[[text | last] | e] s1];
    cbn [snd].
  - exists []. rewrite app_nil_r. reflexivity.
  - destruct (_has_tool_calls last); cbn [snd trace].
    + eexists. reflexivity.
    + exists []. rewrite app_nil_r. reflexivity.
  - exists []. rewrite app_nil_r. reflexivity.
Qed.

(** X5.  The sequential call contacts the model exactly when a round is
    allowed: with [max_rounds < 1] it makes no call at all and returns the
    no-response placeholder; with [max_rounds >= 1] the log starts with a
    model call on the user query, the system content and the offered
    tools. *)
Theorem model_is_called_iff_a_round_is_allowed :
  forall (self : AIGenerator) (query : string) (history : option string)
         (tools : option (list ToolDescriptor)) (tool_manager : option ToolManager)
         (max_rounds0 : Z) (tr : Trace) (r : PyResult string) (tr' delta : Trace),
    generate_response_with_sequential_tools self query history tools tool_manager
      max_rounds0 tr = (r, tr') ->
    tr' = tr ++ delta ->
    ((max_rounds0 < 1)%Z -> delta = [] /\ r = Ok no_response_received) /\
    ((1 <= max_rounds0)%Z ->
       exists outcome rest,
         delta = EvCreate
                   (api_params self [user_query query]
                      (build_system_content self history) (offered tools))
                   outcome :: rest).
Proof.
  intros self query history tools tool_manager max_rounds0 tr r tr' delta
    Hrun Htr.
  rewrite sequential_run_trace in Hrun. injection Hrun as Hr Ht.
  rewrite Htr in Ht. clear Htr. revert Hr Ht. unfold sequential_run.
  set (s0 := mkSeq (initial_round_state self query history max_rounds0) tr).
  split.
  - intros Hmax. revert Hr Ht. rewrite sequential_rounds_spec, rounds_loop_step.
    assert (Hcan : can_continue (round_state s0) = false).
    { unfold can_continue. cbn.
      assert (H1 : (1 <=? max_rounds0)%Z = false) by (apply Z.leb_gt; exact Hmax).
      rewrite H1. reflexivity. }
    rewrite Hcan. cbn. intros Hr Ht. split; [| symmetry; exact Hr].
    apply (app_inv_head tr). rewrite <- Ht, app_nil_r. reflexivity.
  - intros Hmax.
    destruct (sequential_rounds_extends_loop self tools tool_manager s0)
      as (tail & Htail).
    rewrite Htail in Ht. clear Hr Htail. revert Ht. rewrite rounds_loop_step.
    assert (Hcan : can_continue (round_state s0) = true).
    { unfold can_continue. cbn.
      assert (H1 : (1 <=? max_rounds0)%Z = true) by (apply Z.leb_le; exact Hmax).
      rewrite H1. reflexivity. }
    assert (Hp : round_params self tools (round_state s0)
                 = api_params self [user_query query]
                     (build_system_content self history) (offered tools)).
    { unfold round_params, offered. cbn.
      assert (H1 : (1 <=? max_rounds0)%Z = true) by (apply Z.leb_le; exact Hmax).
      rewrite H1, andb_true_r. reflexivity. }
    rewrite Hcan.
    destruct (_execute_tool_round self tools tool_manager s0) as [r1 s1] eqn:Hround.
    apply _execute_tool_round_spec in Hround.
    apply round_outcome_create in Hround.
    destruct Hround as (o & tevs & Ht1 & _). rewrite Hp in Ht1. cbn [s0 trace] in Ht1.
    destruct r1 as [[response |] | e]; cbn [snd].
    + destruct (_has_tool_calls (Some response)); cbn [snd].
      * destruct (rounds_loop_extends self tools tool_manager (Some response)
                    (advance s1)) as (d2 & Hd2).
        rewrite Hd2. cbn [advance trace]. rewrite Ht1. intros Ht.
        rewrite <- !app_assoc in Ht. apply app_inv_head in Ht. subst delta.
        eexists. eexists. reflexivity.
      * rewrite Ht1. intros Ht.
        rewrite <- !app_assoc in Ht. apply app_inv_head in Ht. subst delta.
        eexists. eexists. reflexivity.
    + cbn [mark_errors trace]. rewrite Ht1. intros Ht.
      rewrite <- !app_assoc in Ht. apply app_inv_head in Ht. subst delta.
      eexists. eexists. reflexivity.
    + rewrite Ht1. intros Ht.
      rewrite <- !app_assoc in Ht. apply app_inv_head in Ht. subst delta.
      eexists. eexists. reflexivity.
Qed.

(** X5 with no round allowed. *)
Lemma model_is_called_iff_a_round_is_allowed_witness :
  snd zero_rounds_run = [] /\ fst zero_rounds_run = Ok no_response_received.
Proof.
  refine (proj1 (model_is_called_iff_a_round_is_allowed
                   max_rounds_generator "Search twice" None search_tools
                   (Some max_rounds_tools) 0 []
                   (fst zero_rounds_run) (snd zero_rounds_run) (snd zero_rounds_run)
                   _ _) _).
  - vm_compute. reflexivity.
  - reflexivity.
  - lia.
Defined.

(* ===================================================================== *)
(** ** The parameters of every model call *)
(* ===================================================================== *)

Lemma round_outcome_system (self : AIGenerator) tools tool_manager s r s1 :
  round_outcome self tools tool_manager s r s1 ->
  system_content (round_state s1) = system_content (round_state s) /\
  same_budget (round_state s) (round_state s1).
Proof.
  intros H; destruct H; cbn [round_state]; split;
    solve [reflexivity | assumption | split; reflexivity].
Qed.

Lemma round_params_within_budget (self : AIGenerator) tools (rs : ToolRoundState) :
  can_continue rs = true ->
  round_params self tools rs
  = api_params self (messages rs) (system_content rs) (offered tools).
Proof.
  unfold can_continue, round_params, offered. intros H.
  apply andb_prop in H. destruct H as [H _]. rewrite H, andb_true_r. reflexivity.
Qed.

(** Inside the loop the budget test of line 208 never withholds the
    tools: every model call of the loop carries the base parameters, the
    system content of the state and the offered tools. *)
Lemma rounds_loop_params (self : AIGenerator) tools tool_manager last s :
  exists delta,
    trace (snd (rounds_loop self tools tool_manager last s)) = trace s ++ delta /\
    system_content (round_state (snd (rounds_loop self tools tool_manager last s)))
    = system_content (round_state s) /\
    forall p o,
      In (EvCreate p o) delta ->
      p = api_params self (p_messages p) (system_content (round_state s))
            (offered tools).
Proof.
  apply rounds_loop_induction
    with (P := fun _ s out =>
                 exists delta,
                   trace (snd out) = trace s ++ delta /\
                   system_content (round_state (snd out))
                   = system_content (round_state s) /\
                   forall p o,
                     In (EvCreate p o) delta ->
                     p = api_params self (p_messages p)
                           (system_content (round_state s)) (offered tools));
    clear last s.
  - intros last s _. exists []. cbn. rewrite app_nil_r.
    split; [reflexivity |]. split; [reflexivity | intros ? ? []].
  - intros last s e s1 Hc Hr.
    destruct (round_outcome_system _ _ _ _ _ _ Hr) as [Hsys _].
    apply round_outcome_create in Hr. destruct Hr as (o & tevs & Ht & Htevs & _).
    eexists. split; [exact Ht |]. split; [exact Hsys |].
    intros p o' Hin. apply In_create_round in Hin; [| exact Htevs].
    destruct Hin as [-> _]. rewrite (round_params_within_budget _ _ _ Hc).
    reflexivity.
  - intros last s response s1 Hc Hr _.
    destruct (round_outcome_system _ _ _ _ _ _ Hr) as [Hsys _].
    apply round_outcome_create in Hr. destruct Hr as (o & tevs & Ht & Htevs & _).
    eexists. split; [exact Ht |]. split; [exact Hsys |].
    intros p o' Hin. apply In_create_round in Hin; [| exact Htevs].
    destruct Hin as [-> _]. rewrite (round_params_within_budget _ _ _ Hc).
    reflexivity.
  - intros last s response s1 out Hc Hr _ _ (d2 & Ht2 & Hsys2 & IH).
    destruct (round_outcome_system _ _ _ _ _ _ Hr) as [Hsys _].
    apply round_outcome_create in Hr. destruct Hr as (o & tevs & Ht & Htevs & _).
    cbn [advance round_state advance_round system_content trace] in *.
    eexists. split.
    { rewrite Ht2, Ht, <- app_assoc. reflexivity. }
    split; [rewrite Hsys2; exact Hsys |].
    intros p o' Hin. apply in_app_or in Hin. destruct Hin as [Hin | Hin].
    + apply In_create_round in Hin; [| exact Htevs].
      destruct Hin as [-> _]. rewrite (round_params_within_budget _ _ _ Hc).
      reflexivity.
    + rewrite <- Hsys. eapply IH. exact Hin.
Qed.

(** X6.  Every model call of a sequential call carries the same base
    parameters (model, temperature 0, 800 tokens) and the same system
    content, built from the prompt and the history; it offers the supplied
    tools with automatic tool choice, except for at most one call that
    offers none, and that call is the last entry of the log. *)
Theorem every_call_offers_tools_but_the_last :
  forall (self : AIGenerator) (query : string) (history : option string)
         (tools : option (list ToolDescriptor)) (tool_manager : option ToolManager)
         (max_rounds : Z) (tr : Trace) (r : PyResult string) (tr' delta : Trace)
         (p : ApiParams) (o : PyResult Response),
    generate_response_with_sequential_tools self query history tools tool_manager
      max_rounds tr = (r, tr') ->
    tr' = tr ++ delta ->
    In (EvCreate p o) delta ->
    p = api_params self (p_messages p) (build_system_content self history)
          (offered tools)
    \/ (p = api_params self (p_messages p) (build_system_content self history) None
        /\ exists before, delta = before ++ [EvCreate p o]).
Proof.
  intros self query history tools tool_manager max_rounds tr r tr' delta p o
    Hrun Htr Hin.
  rewrite sequential_run_trace in Hrun. injection Hrun as _ Ht.
  rewrite Htr in Ht. clear Htr. revert Ht.
  unfold sequential_run. rewrite sequential_rounds_spec.
  set (s0 := mkSeq (initial_round_state self query history max_rounds) tr).
  destruct (rounds_loop_params self tools tool_manager None s0)
    as (d & Hd & Hsys & Hf).
  cbn [s0 trace round_state initial_round_state system_content] in Hd, Hsys, Hf.
  destruct (rounds_loop self tools tool_manager None s0) as [[[text | last] | e0] s1];
    cbn [fst snd] in *.
  - intros Ht. rewrite Hd in Ht. apply app_inv_head in Ht. subst d.
    left. eapply Hf. exact Hin.
  - destruct (_has_tool_calls last); cbn [snd trace].
    + intros Ht. rewrite Hd, <- app_assoc in Ht. apply app_inv_head in Ht.
      subst delta. apply in_app_or in Hin. destruct Hin as [Hin | [Hin | []]].
      * left. eapply Hf. exact Hin.
      * right. injection Hin as <- <-. split.
        { unfold final_params. rewrite Hsys. reflexivity. }
        exists d. reflexivity.
    + intros Ht. rewrite Hd in Ht. apply app_inv_head in Ht. subst d.
      left. eapply Hf. exact Hin.
  - intros Ht. rewrite Hd in Ht. apply app_inv_head in Ht. subst d.
    left. eapply Hf. exact Hin.
Qed.

(** X6 at the final call of the run that asks for a search in both
    rounds. *)
Lemma every_call_offers_tools_but_the_last_witness :
  final_params max_rounds_generator (round_state (snd max_rounds_loop))
  = api_params max_rounds_generator
      (p_messages (final_params max_rounds_generator
                     (round_state (snd max_rounds_loop))))
      (build_system_content max_rounds_generator None) (offered search_tools)
  \/ (final_params max_rounds_generator (round_state (snd max_rounds_loop))
      = api_params max_rounds_generator
          (p_messages (final_params max_rounds_generator
                         (round_state (snd max_rounds_loop))))
          (build_system_content max_rounds_generator None) None
      /\ exists before,
           snd max_rounds_run
           = before ++ [EvCreate (final_params max_rounds_generator
                                    (round_state (snd max_rounds_loop)))
                          (Ok synthesized_response)]).
Proof.
  apply (every_call_offers_tools_but_the_last
           max_rounds_generator "Search twice" None search_tools
           (Some max_rounds_tools) 2 []
           (fst max_rounds_run) (snd max_rounds_run) (snd max_rounds_run)).
  - vm_compute. reflexivity.
  - reflexivity.
  - vm_compute. do 4 right. left. reflexivity.
Defined.

(* ===================================================================== *)
(** ** The execution history and the error flag *)
(* ===================================================================== *)

Section LoopRunInduction.
Variable self : AIGenerator.
Variable tools : option (list ToolDescriptor).
Variable tool_manager : option ToolManager.
Variable P : SeqState -> PyResult LoopExit * SeqState -> Prop.

Hypothesis P_exit : forall last s,
  can_continue (round_state s) = false -> P s (Ok (Fell last), s).
Hypothesis P_raise : forall s e s1,
  can_continue (round_state s) = true ->
  _execute_tool_round self tools tool_manager s = (Raise e, s1) ->
  P s (Raise e, s1).
Hypothesis P_return : forall s response s1,
  can_continue (round_state s) = true ->
  _execute_tool_round self tools tool_manager s = (Ok (Some response), s1) ->
  _has_tool_calls (Some response) = false ->
  P s (Ok (Returned (_extract_text_response (Some response))), s1).
Hypothesis P_next : forall s response s1 out,
  can_continue (round_state s) = true ->
  _execute_tool_round self tools tool_manager s = (Ok (Some response), s1) ->
  _has_tool_calls (Some response) = true ->
  P (advance s1) out ->
  P s out.

(** The same induction with each round given by its run rather than by
    its outcome. *)
Lemma rounds_loop_run_induction : forall last s,
  P s (rounds_loop self tools tool_manager last s).
Proof.
  intros last s.
  remember (rounds_left (round_state s)) as n eqn:Hn.
  revert last s Hn.
  induction n as [n IH] using lt_wf_ind. intros last s Hn.
  rewrite rounds_loop_step.
  destruct (can_continue (round_state s)) eqn:Hc; [| apply P_exit; exact Hc].
  destruct (_execute_tool_round self tools tool_manager s) as [r s1] eqn:Hr.
  pose proof (_execute_tool_round_budget _ _ _ _ _ _ Hr) as [Hb1 Hb2].
  destruct r as [[response |] | e].
  - destruct (_has_tool_calls (Some response)) eqn:Ht.
    + eapply P_next; eauto.
      eapply IH; [| reflexivity]. subst n.
      rewrite (can_continue_rounds_left _ Hc).
      unfold rounds_left. cbn. rewrite Hb1, Hb2. lia.
    + apply P_return; assumption.
  - apply _execute_tool_round_spec in Hr. inversion Hr.
  - apply P_raise; assumption.
Qed.
End LoopRunInduction.

Lemma successes_app (a b : Trace) : successes (a ++ b) = successes a ++ successes b.
Proof. unfold successes. apply flat_map_app. Qed.

(** The dispatch loop records every answered call, and only those, under
    the current round. *)
Lemma execute_tool_calls_history (tm : ToolManager) (blocks : list ContentBlock) :
  forall results s r s',
    execute_tool_calls tm blocks results s = (r, s') ->
    exists tevs,
      trace s' = trace s ++ tevs /\
      tool_execution_history (round_state s')
      = tool_execution_history (round_state s)
          ++ map (history_entry (current_round (round_state s))) (successes tevs).
Proof.
  induction blocks as [| b rest IH]; intros results s r s' H; cbn in H.
  - py_unfold. injection H as _ <-. exists []. cbn. rewrite !app_nil_r. auto.
  - destruct (is_tool_use b); [| eapply IH; exact H].
    py_unfold.
    destruct (tm (trace s) (block_name b) (block_input b)) as [out | e].
    + apply IH in H. cbn in H. destruct H as (tevs & Ht & Hh).
      eexists. split.
      { rewrite Ht, <- app_assoc. reflexivity. }
      rewrite Hh, successes_app, map_app, <- app_assoc. reflexivity.
    + eexists. split.
      { destruct (exn_is_Exception e); injection H as _ <-; reflexivity. }
      cbn. rewrite app_nil_r.
      destruct (exn_is_Exception e); injection H as _ <-; reflexivity.
Qed.

Lemma _execute_tool_round_history (self : AIGenerator) tools tool_manager s r s1 :
  _execute_tool_round self tools tool_manager s = (r, s1) ->
  exists delta,
    trace s1 = trace s ++ delta /\
    tool_execution_history (round_state s1)
    = tool_execution_history (round_state s)
        ++ map (history_entry (current_round (round_state s))) (successes delta).
Proof.
  intros H. unfold _execute_tool_round in H. py_unfold.
  assert (Hplain : forall (x : PyResult (option Response)) o,
             (x, mkSeq (round_state s)
                   (trace s ++ [EvCreate (round_params self tools (round_state s)) o]))
             = (r, s1) ->
             exists delta,
               trace s1 = trace s ++ delta /\
               tool_execution_history (round_state s1)
               = tool_execution_history (round_state s)
                   ++ map (history_entry (current_round (round_state s)))
                        (successes delta)).
  { intros x o Heq. injection Heq as _ <-. eexists. split; [reflexivity |].
    cbn. rewrite app_nil_r. reflexivity. }
  destruct (messages_create self (trace s) _) as [resp | e];
    [| eapply Hplain; exact H].
  destruct tool_manager as [tm |]; [| eapply Hplain; exact H].
  destruct (stop_reason resp =? "tool_use")%string; [| eapply Hplain; exact H].
  clear Hplain.
  destruct (execute_tool_calls tm (content resp) [] _) as [r1 s2] eqn:E.
  apply execute_tool_calls_history in E. cbn in E. destruct E as (tevs & Ht & Hh).
  assert (Hs1 : trace s1 = trace s2 /\
                tool_execution_history (round_state s1)
                = tool_execution_history (round_state s2)).
  { destruct r1 as [[| x l] | e]; injection H as _ <-; split; reflexivity. }
  destruct Hs1 as [-> ->].
  eexists. split.
  { rewrite Ht, <- app_assoc. reflexivity. }
  rewrite Hh. reflexivity.
Qed.

(** Over the loop: the entries added to the history say what the answered
    tool calls of the log were, in order, each under a round between the
    round the loop started in and [max_rounds]. *)
Lemma rounds_loop_history (self : AIGenerator) tools tool_manager last s :
  exists delta entries,
    trace (snd (rounds_loop self tools tool_manager last s)) = trace s ++ delta /\
    tool_execution_history
      (round_state (snd (rounds_loop self tools tool_manager last s)))
    = tool_execution_history (round_state s) ++ entries /\
    map recorded entries = successes delta /\
    Forall (fun te => (current_round (round_state s) <= te_round te
                       <= max_rounds (round_state s))%Z) entries.
Proof.
  apply rounds_loop_run_induction
    with (P := fun s out =>
                 exists delta entries,
                   trace (snd out) = trace s ++ delta /\
                   tool_execution_history (round_state (snd out))
                   = tool_execution_history (round_state s) ++ entries /\
                   map recorded entries = successes delta /\
                   Forall (fun te => (current_round (round_state s) <= te_round te
                                      <= max_rounds (round_state s))%Z) entries);
    clear last s.
  - intros last s _. exists [], []. cbn. rewrite !app_nil_r. auto.
  - intros s e s1 Hc Hr. apply _execute_tool_round_history in Hr.
    destruct Hr as (d & Ht & Hh). eexists. eexists. cbn [snd].
    split; [exact Ht |]. split; [exact Hh |]. split.
    + rewrite map_map. unfold recorded, history_entry. cbn.
      rewrite <- (map_id (successes d)) at 2. apply map_ext.
      intros [[? ?] ?]. reflexivity.
    + apply Forall_forall. intros te Hin. apply in_map_iff in Hin.
      destruct Hin as (c & <- & _). cbn.
      unfold can_continue in Hc. apply andb_prop in Hc. destruct Hc as [Hc _].
      apply Z.leb_le in Hc. lia.
  - intros s response s1 Hc Hr _. apply _execute_tool_round_history in Hr.
    destruct Hr as (d & Ht & Hh). eexists. eexists. cbn [snd].
    split; [exact Ht |]. split; [exact Hh |]. split.
    + rewrite map_map. unfold recorded, history_entry. cbn.
      rewrite <- (map_id (successes d)) at 2. apply map_ext.
      intros [[? ?] ?]. reflexivity.
    + apply Forall_forall. intros te Hin. apply in_map_iff in Hin.
      destruct Hin as (c & <- & _). cbn.
      unfold can_continue in Hc. apply andb_prop in Hc. destruct Hc as [Hc _].
      apply Z.leb_le in Hc. lia.
  - intros s response s1 out Hc Hr _ (d2 & entries & Ht2 & Hh2 & Hrec & Hrounds).
    pose proof (_execute_tool_round_budget _ _ _ _ _ _ Hr) as [Hb1 Hb2].
    apply _execute_tool_round_history in Hr. destruct Hr as (d1 & Ht1 & Hh1).
    cbn [advance round_state advance_round trace tool_execution_history
         current_round max_rounds] in *.
    eexists (d1 ++ d2).
    eexists (map (history_entry (current_round (round_state s))) (successes d1)
               ++ entries).
    split; [rewrite Ht2, Ht1, <- app_assoc; reflexivity |].
    split; [rewrite Hh2, Hh1, <- app_assoc; reflexivity |].
    split.
    + rewrite map_app, successes_app, Hrec. f_equal.
      rewrite map_map. unfold recorded, history_entry. cbn.
      rewrite <- (map_id (successes d1)) at 2. apply map_ext.
      intros [[? ?] ?]. reflexivity.
    + unfold can_continue in Hc. apply andb_prop in Hc. destruct Hc as [Hc _].
      apply Z.leb_le in Hc.
      apply Forall_app. split.
      * apply Forall_forall. intros te Hin. apply in_map_iff in Hin.
        destruct Hin as (c & <- & _). cbn. lia.
      * eapply Forall_impl; [| exact Hrounds]. cbn. intros te Hte.
        rewrite Hb1, Hb2 in Hte. lia.
Qed.

(** X7.  At the end of a sequential call, [tool_execution_history] holds
    one entry per answered tool call of the log, in the order of the
    calls, with the name, the input and the result of each, and with a
    round number between 1 and [max_rounds]; a failed call leaves no
    entry. *)
Theorem history_records_the_answered_tool_calls :
  forall (self : AIGenerator) (query : string) (history : option string)
         (tools : option (list ToolDescriptor)) (tool_manager : option ToolManager)
         (max_rounds0 : Z) (tr : Trace) (r : PyResult string) (s' : SeqState)
         (delta : Trace),
    sequential_run self query history tools tool_manager max_rounds0 tr = (r, s') ->
    trace s' = tr ++ delta ->
    map recorded (tool_execution_history (round_state s')) = successes delta /\
    Forall (fun te => (1 <= te_round te <= max_rounds0)%Z)
      (tool_execution_history (round_state s')).
Proof.
  intros self query history tools tool_manager max_rounds0 tr r s' delta Hrun Htr.
  revert Hrun. unfold sequential_run. rewrite sequential_rounds_spec.
  set (s0 := mkSeq (initial_round_state self query history max_rounds0) tr).
  destruct (rounds_loop_history self tools tool_manager None s0)
    as (d & entries & Hd & Hh & Hrec & Hrounds).
  cbn [s0 trace round_state initial_round_state tool_execution_history
       current_round max_rounds app] in Hd, Hh, Hrounds.
  destruct (rounds_loop self tools tool_manager None s0) as [[[text | last] | e0] s1];
    cbn [fst snd] in *.
  - intros Heq. injection Heq as _ <-.
    rewrite Hd in Htr. apply app_inv_head in Htr. subst d.
    rewrite Hh. split; assumption.
  - destruct (_has_tool_calls last).
    + intros Heq. injection Heq as _ <-. cbn [round_state trace] in *.
      rewrite Hd, <- app_assoc in Htr. apply app_inv_head in Htr. subst delta.
      rewrite Hh, successes_app. cbn. rewrite app_nil_r. split; assumption.
    + intros Heq. injection Heq as _ <-.
      rewrite Hd in Htr. apply app_inv_head in Htr. subst d.
      rewrite Hh. split; assumption.
  - intros Heq. injection Heq as _ <-.
    rewrite Hd in Htr. apply app_inv_head in Htr. subst d.
    rewrite Hh. split; assumption.
Qed.

(** X7 where the model asks for a search in both rounds. *)
Lemma history_records_the_answered_tool_calls_witness :
  map recorded (tool_execution_history (round_state (snd max_rounds_state)))
  = successes (trace (snd max_rounds_state)) /\
  Forall (fun te => (1 <= te_round te <= 2)%Z)
    (tool_execution_history (round_state (snd max_rounds_state))).
Proof.
  apply (history_records_the_answered_tool_calls
           max_rounds_generator "Search twice" None search_tools
           (Some max_rounds_tools) 2 []
           (fst max_rounds_state) (snd max_rounds_state)
           (trace (snd max_rounds_state))).
  - vm_compute. reflexivity.
  - reflexivity.
Defined.

Lemma tool_failure_ok_events blocks outs :
  existsb tool_failure (ok_events blocks outs) = false.
Proof.
  unfold ok_events.
  induction (combine (tool_uses blocks) outs) as [| bo l IH]; cbn; auto.
Qed.

(** A round sets the flag exactly when one of its tool calls raised an
    [Exception]. *)
Lemma round_outcome_has_errors (self : AIGenerator) tools tool_manager s r s1 :
  round_outcome self tools tool_manager s r s1 ->
  has_errors (round_state s) = false ->
  exists delta,
    trace s1 = trace s ++ delta /\
    has_errors (round_state s1) = existsb tool_failure delta.
Proof.
  intros H Hs; destruct H.
  - eexists. split; [reflexivity |]. cbn. exact Hs.
  - eexists. split; [reflexivity |]. cbn. exact Hs.
  - eexists. split; [eassumption |]. cbn. rewrite tool_failure_ok_events. congruence.
  - eexists. split; [eassumption |]. cbn.
    rewrite existsb_app, tool_failure_ok_events. cbn.
    match goal with H : exn_is_Exception _ = true |- _ => rewrite H end.
    cbn. assumption.
  - eexists. split; [eassumption |]. cbn.
    rewrite existsb_app, tool_failure_ok_events. cbn.
    match goal with H : exn_is_Exception _ = false |- _ => rewrite H end.
    cbn. congruence.
Qed.

Lemma rounds_loop_has_errors (self : AIGenerator) tools tool_manager last s :
  has_errors (round_state s) = false ->
  exists delta,
    trace (snd (rounds_loop self tools tool_manager last s)) = trace s ++ delta /\
    has_errors (round_state (snd (rounds_loop self tools tool_manager last s)))
    = existsb tool_failure delta.
Proof.
  apply rounds_loop_induction
    with (P := fun _ s out =>
                 has_errors (round_state s) = false ->
                 exists delta,
                   trace (snd out) = trace s ++ delta /\
                   has_errors (round_state (snd out)) = existsb tool_failure delta);
    clear last s.
  - intros last s _ Hs. exists []. cbn. rewrite app_nil_r. auto.
  - intros last s e s1 _ Hr Hs. eapply round_outcome_has_errors; eassumption.
  - intros last s response s1 _ Hr _ Hs. eapply round_outcome_has_errors; eassumption.
  - intros last s response s1 out _ Hr _ Hout IH Hs.
    destruct (round_outcome_has_errors _ _ _ _ _ _ Hr Hs) as (d1 & Ht1 & He1).
    destruct (existsb tool_failure d1) eqn:Hd1.
    + assert (Hstop : can_continue (round_state (advance s1)) = false).
      { unfold can_continue. cbn. rewrite He1. apply andb_false_r. }
      rewrite rounds_loop_step, Hstop in Hout. subst out. cbn [snd advance trace].
      exists d1. split; [exact Ht1 |]. cbn. rewrite He1, Hd1. reflexivity.
    + destruct IH as (d2 & Ht2 & He2); [exact He1 |].
      exists (d1 ++ d2). rewrite Ht2. cbn [advance trace].
      rewrite Ht1, app_assoc. split; [reflexivity |].
      rewrite He2, existsb_app, Hd1. reflexivity.
Qed.

(** X8.  At the end of a sequential call [has_errors] is set exactly when
    some tool execution of the call raised an [Exception]: a malformed
    response, a failed model call or an exhausted budget never sets it
    (the [break] of lines 182-184 is never reached). *)
Theorem has_errors_iff_a_tool_failed :
  forall (self : AIGenerator) (query : string) (history : option string)
         (tools : option (list ToolDescriptor)) (tool_manager : option ToolManager)
         (max_rounds : Z) (tr : Trace) (r : PyResult string) (s' : SeqState)
         (delta : Trace),
    sequential_run self query history tools tool_manager max_rounds tr = (r, s') ->
    trace s' = tr ++ delta ->
    has_errors (round_state s') = existsb tool_failure delta.
Proof.
  intros self query history tools tool_manager max_rounds tr r s' delta Hrun Htr.
  revert Hrun. unfold sequential_run. rewrite sequential_rounds_spec.
  set (s0 := mkSeq (initial_round_state self query history max_rounds) tr).
  destruct (rounds_loop_has_errors self tools tool_manager None s0 eq_refl)
    as (d & Hd & He).
  cbn [s0 trace] in Hd.
  destruct (rounds_loop self tools tool_manager None s0) as [[[text | last] | e0] s1];
    cbn [fst snd] in *.
  - intros Heq. injection Heq as _ <-.
    rewrite Hd in Htr. apply app_inv_head in Htr. subst d. exact He.
  - destruct (_has_tool_calls last).
    + intros Heq. injection Heq as _ <-. cbn [round_state trace] in *.
      rewrite Hd, <- app_assoc in Htr. apply app_inv_head in Htr. subst delta.
      rewrite existsb_app, He. cbn. rewrite orb_false_r. reflexivity.
    + intros Heq. injection Heq as _ <-.
      rewrite Hd in Htr. apply app_inv_head in Htr. subst d. exact He.
  - intros Heq. injection Heq as _ <-.
    rewrite Hd in Htr. apply app_inv_head in Htr. subst d. exact He.
Qed.

(** X8 where the only tool call fails. *)
Lemma has_errors_iff_a_tool_failed_witness :
  has_errors (round_state (snd failing_tool_state))
  = existsb tool_failure (trace (snd failing_tool_state))
  /\ has_errors (round_state (snd failing_tool_state)) = true.
Proof.
  split; [| vm_compute; reflexivity].
  apply (has_errors_iff_a_tool_failed
           (generator [Ok talkative_tool_response; Ok synthesized_response])
           "Query that causes tool failure" None search_tools
           (Some (scripted_tools [Raise tool_failed])) 2 []
           (fst failing_tool_state) (snd failing_tool_state)
           (trace (snd failing_tool_state))).
  - vm_compute. reflexivity.
  - reflexivity.
Defined.

(* ===================================================================== *)
(** ** A round whose tool calls are all answered *)
(* ===================================================================== *)

Lemma combine_fst_snd {A B : Type} (l : list A) (l' : list B) :
  length l' = length l ->
  map fst (combine l l') = l /\ map snd (combine l l') = l'.
Proof.
  revert l'. induction l as [| a l IH]; intros [| b l'] H; cbn in *;
    try discriminate; auto.
  injection H as H. destruct (IH l' H) as [H1 H2]. rewrite H1, H2. auto.
Qed.

Lemma batch_ids_and_contents (blocks : list ContentBlock) (outs : list string) :
  length outs = length (tool_uses blocks) ->
  map tr_tool_use_id (batch blocks outs) = map block_id (tool_uses blocks) /\
  map tr_content (batch blocks outs) = outs.
Proof.
  intros H. unfold batch. rewrite !map_map. cbn.
  destruct (combine_fst_snd (tool_uses blocks) outs H) as [H1 H2].
  split.
  - rewrite <- H1 at 2. rewrite map_map. reflexivity.
  - exact H2.
Qed.

(** X9.  When a round's response has stop reason ["tool_use"], a tool
    manager is given and no tool execution raises, the executor is called
    once for every tool-use request of the response, in order and for no
    other block; the round returns the response, leaves [has_errors]
    alone, and appends the assistant turn and then, unless there was no
    request, one user turn whose results carry the ids of the requests,
    in order, with what the executor returned. *)
Theorem answered_round_feeds_every_result_back :
  forall (self : AIGenerator) (tools : option (list ToolDescriptor))
         (tm : ToolManager) (s s' : SeqState)
         (r : PyResult (option Response)) (delta : Trace)
         (p : ApiParams) (response : Response),
    _execute_tool_round self tools (Some tm) s = (r, s') ->
    trace s' = trace s ++ delta ->
    In (EvCreate p (Ok response)) delta ->
    stop_reason response = "tool_use" ->
    (forall name input e, ~ In (EvTool name input (Raise e)) delta) ->
    exists outs,
      length outs = length (tool_uses (content response)) /\
      delta = EvCreate p (Ok response) :: ok_events (content response) outs /\
      r = Ok (Some response) /\
      has_errors (round_state s') = has_errors (round_state s) /\
      messages (round_state s')
      = messages (round_state s) ++ assistant_turn response ::
          match batch (content response) outs with
          | [] => []
          | _ :: _ => [tool_result_turn (batch (content response) outs)]
          end /\
      map tr_tool_use_id (batch (content response) outs)
      = map block_id (tool_uses (content response)) /\
      map tr_content (batch (content response) outs) = outs.
Proof.
  intros self tools tm s s' r delta p response Hrun Ht Hin Hstop Hnone.
  apply _execute_tool_round_spec in Hrun.
  destruct Hrun as [e He | resp He Hd | resp outs s' Hs Hm Hl Ht' Hmsg Herr
                   | resp pre b post outs e s' Hs Hm Hc Hb He Hl Ht'
                   | resp pre b post outs e s' Hs Hm Hc Hb He Hl Ht'].
  - cbn [trace] in Ht. apply app_inv_head in Ht. subst delta.
    destruct Hin as [Hin | []]. discriminate.
  - cbn [trace] in Ht. apply app_inv_head in Ht. subst delta.
    destruct Hin as [Hin | []]. injection Hin as _ <-.
    destruct Hd as [Hd | Hd]; [discriminate | contradiction].
  - rewrite Ht' in Ht. apply app_inv_head in Ht. subst delta.
    rewrite <- (app_nil_r (ok_events _ _)) in Hin. apply In_round_events in Hin.
    destruct Hin as [Hin | [(? & ? & ? & Hin) | []]]; [| discriminate].
    injection Hin as <- <-.
    exists outs. destruct (batch_ids_and_contents _ _ Hl) as [Hids Hcont].
    repeat split; auto.
  - exfalso. rewrite Ht' in Ht. apply app_inv_head in Ht. subst delta.
    eapply Hnone. right. apply in_or_app. right. left. reflexivity.
  - exfalso. rewrite Ht' in Ht. apply app_inv_head in Ht. subst delta.
    eapply Hnone. right. apply in_or_app. right. left. reflexivity.
Qed.

(** X9 at a round with two tool-use requests around a text block. *)
Lemma answered_round_feeds_every_result_back_witness :
  exists outs,
    length outs = length (tool_uses (content two_tool_response)) /\
    trace (snd two_tool_round)
    = EvCreate (round_params two_tool_generator search_tools
                  (round_state two_tool_start)) (Ok two_tool_response)
        :: ok_events (content two_tool_response) outs /\
    fst two_tool_round = Ok (Some two_tool_response) /\
    has_errors (round_state (snd two_tool_round))
    = has_errors (round_state two_tool_start) /\
    messages (round_state (snd two_tool_round))
    = messages (round_state two_tool_start) ++ assistant_turn two_tool_response ::
        match batch (content two_tool_response) outs with
        | [] => []
        | _ :: _ => [tool_result_turn (batch (content two_tool_response) outs)]
        end /\
    map tr_tool_use_id (batch (content two_tool_response) outs)
    = map block_id (tool_uses (content two_tool_response)) /\
    map tr_content (batch (content two_tool_response) outs) = outs.
Proof.
  apply (answered_round_feeds_every_result_back
           two_tool_generator search_tools two_tool_tools
           two_tool_start (snd two_tool_round) (fst two_tool_round)
           (trace (snd two_tool_round))).
  - vm_compute. reflexivity.
  - reflexivity.
  - vm_compute. left. reflexivity.
  - reflexivity.
  - intros name input e Hin. vm_compute in Hin.
    destruct Hin as [Hin | [Hin | [Hin | []]]]; discriminate.
Defined.

(* ===================================================================== *)
(** ** A call without a tool manager *)
(* ===================================================================== *)

Lemma tool_calls_app (a b : Trace) : tool_calls (a ++ b) = tool_calls a + tool_calls b.
Proof. unfold tool_calls. rewrite filter_app, length_app. reflexivity. Qed.

Lemma round_outcome_no_manager (self : AIGenerator) tools s r s1 :
  round_outcome self tools None s r s1 ->
  exists o,
    s1 = mkSeq (round_state s)
           (trace s ++ [EvCreate (round_params self tools (round_state s)) o]).
Proof.
  intros H. inversion H; subst; try contradiction; eexists; reflexivity.
Qed.

Lemma rounds_loop_no_manager (self : AIGenerator) tools last s :
  exists delta,
    trace (snd (rounds_loop self tools None last s)) = trace s ++ delta /\
    messages (round_state (snd (rounds_loop self tools None last s)))
    = messages (round_state s) /\
    tool_calls delta = 0 /\
    forall p o, In (EvCreate p o) delta -> p_messages p = messages (round_state s).
Proof.
  apply rounds_loop_induction
    with (P := fun _ s out =>
                 exists delta,
                   trace (snd out) = trace s ++ delta /\
                   messages (round_state (snd out)) = messages (round_state s) /\
                   tool_calls delta = 0 /\
                   forall p o, In (EvCreate p o) delta ->
                               p_messages p = messages (round_state s));
    clear last s.
  - intros last s _. exists []. cbn. rewrite app_nil_r.
    repeat split; auto. intros ? ? [].
  - intros last s e s1 _ Hr. apply round_outcome_no_manager in Hr.
    destruct Hr as (o & ->). eexists. cbn. repeat split.
    intros p o' [Hin | []]. injection Hin as <- _. reflexivity.
  - intros last s response s1 _ Hr _. apply round_outcome_no_manager in Hr.
    destruct Hr as (o & ->). eexists. cbn. repeat split.
    intros p o' [Hin | []]. injection Hin as <- _. reflexivity.
  - intros last s response s1 out _ Hr _ _ (d2 & Ht2 & Hm2 & Hc2 & IH).
    apply round_outcome_no_manager in Hr. destruct Hr as (o & ->).
    cbn [advance round_state advance_round trace messages] in *.
    eexists. split; [rewrite Ht2, <- app_assoc; reflexivity |].
    split; [exact Hm2 |]. split.
    + rewrite tool_calls_app, Hc2. reflexivity.
    + intros p o' Hin. cbn in Hin. destruct Hin as [Hin | Hin].
      * injection Hin as <- _. reflexivity.
      * eapply IH. exact Hin.
Qed.

(** X10.  Without a tool manager the sequential call never dispatches a
    tool and never touches the transcript: every model call, the final one
    included, is given the user query alone, even after a response that
    holds tool-use requests. *)
Theorem without_tool_manager_transcript_stays_the_query :
  forall (self : AIGenerator) (query : string) (history : option string)
         (tools : option (list ToolDescriptor))
         (max_rounds : Z) (tr : Trace) (r : PyResult string) (s' : SeqState)
         (delta : Trace),
    sequential_run self query history tools None max_rounds tr = (r, s') ->
    trace s' = tr ++ delta ->
    tool_calls delta = 0 /\
    messages (round_state s') = [user_query query] /\
    forall p o, In (EvCreate p o) delta -> p_messages p = [user_query query].
Proof.
  intros self query history tools max_rounds tr r s' delta Hrun Htr.
  revert Hrun. unfold sequential_run. rewrite sequential_rounds_spec.
  set (s0 := mkSeq (initial_round_state self query history max_rounds) tr).
  destruct (rounds_loop_no_manager self tools None s0) as (d & Hd & Hm & Hc & Hf).
  cbn [s0 trace round_state initial_round_state messages] in Hd, Hm, Hf.
  destruct (rounds_loop self tools None None s0) as [[[text | last] | e0] s1];
    cbn [fst snd] in *.
  - intros Heq. injection Heq as _ <-.
    rewrite Hd in Htr. apply app_inv_head in Htr. subst d. auto.
  - destruct (_has_tool_calls last).
    + intros Heq. injection Heq as _ <-. cbn [round_state trace] in *.
      rewrite Hd, <- app_assoc in Htr. apply app_inv_head in Htr. subst delta.
      split; [rewrite tool_calls_app, Hc; reflexivity |].
      split; [exact Hm |].
      intros p o Hin. apply in_app_or in Hin. destruct Hin as [Hin | [Hin | []]].
      * eapply Hf. exact Hin.
      * injection Hin as <- _. exact Hm.
    + intros Heq. injection Heq as _ <-.
      rewrite Hd in Htr. apply app_inv_head in Htr. subst d. auto.
  - intros Heq. injection Heq as _ <-.
    rewrite Hd in Htr. apply app_inv_head in Htr. subst d. auto.
Qed.

(** X10 where the model asks for a search in both rounds. *)
Lemma without_tool_manager_transcript_stays_the_query_witness :
  (tool_calls (trace (snd no_manager_state)) = 0 /\
   messages (round_state (snd no_manager_state)) = [user_query "Search twice"] /\
   forall p o, In (EvCreate p o) (trace (snd no_manager_state)) ->
               p_messages p = [user_query "Search twice"])
  /\ model_calls (trace (snd no_manager_state)) = 3.
Proof.
  split; [| vm_compute; reflexivity].
  apply (without_tool_manager_transcript_stays_the_query
           max_rounds_generator "Search twice" None search_tools 2 []
           (fst no_manager_state) (snd no_manager_state)
           (trace (snd no_manager_state))).
  - vm_compute. reflexivity.
  - reflexivity.
Defined.

(* ===================================================================== *)
(** ** The result is read off the last model call *)
(* ===================================================================== *)

Lemma ok_events_no_tool_uses (blocks : list ContentBlock) outs :
  tool_uses blocks = [] -> ok_events blocks outs = [].
Proof. unfold ok_events. intros ->. reflexivity. Qed.

(** How the loop ends without raising: it returns the text of the
    response to the last entry of its log, or it falls out, either at once
    or with a response that still holds tool-use requests. *)
Lemma rounds_loop_ending (self : AIGenerator) tools tool_manager last s :
  exists delta,
    trace (snd (rounds_loop self tools tool_manager last s)) = trace s ++ delta /\
    (forall text,
        fst (rounds_loop self tools tool_manager last s) = Ok (Returned text) ->
        exists before p response,
          delta = before ++ [EvCreate p (Ok response)] /\
          text = _extract_text_response (Some response)) /\
    (forall l,
        fst (rounds_loop self tools tool_manager last s) = Ok (Fell l) ->
        (can_continue (round_state s) = false /\ l = last /\ delta = []) \/
        (exists response, l = Some response /\
                          _has_tool_calls (Some response) = true)).
Proof.
  apply rounds_loop_induction
    with (P := fun last s out =>
                 exists delta,
                   trace (snd out) = trace s ++ delta /\
                   (forall text,
                       fst out = Ok (Returned text) ->
                       exists before p response,
                         delta = before ++ [EvCreate p (Ok response)] /\
                         text = _extract_text_response (Some response)) /\
                   (forall l,
                       fst out = Ok (Fell l) ->
                       (can_continue (round_state s) = false /\ l = last /\
                        delta = []) \/
                       (exists response, l = Some response /\
                                         _has_tool_calls (Some response) = true)));
    clear last s.
  - intros last s Hc. exists []. cbn. rewrite app_nil_r.
    split; [reflexivity |]. split; [intros ? ?; discriminate |].
    intros l Heq. injection Heq as <-. left. auto.
  - intros last s e s1 _ Hr. apply round_outcome_extends in Hr.
    destruct Hr as (d & Ht). exists d. split; [exact Ht |].
    split; intros ? ?; discriminate.
  - intros last s response s1 _ Hr Hno.
    assert (Ht : trace s1 = trace s
                   ++ [EvCreate (round_params self tools (round_state s))
                         (Ok response)]).
    { inversion Hr; subst.
      - reflexivity.
      - match goal with H : trace s1 = _ |- _ => rewrite H end.
        rewrite ok_events_no_tool_uses
          by (apply no_tool_calls_no_tool_uses; exact Hno).
        reflexivity.
      - erewrite has_tool_calls_of_block in Hno by eassumption. discriminate. }
    eexists. split; [exact Ht |]. cbn [fst].
    split; [| intros ? ?; discriminate].
    intros text Heq. injection Heq as <-.
    exists []. eexists. exists response. split; reflexivity.
  - intros last s response s1 out _ Hr Hyes _ (d2 & Ht2 & Hret & Hfell).
    apply round_outcome_extends in Hr. destruct Hr as (d1 & Ht1).
    exists (d1 ++ d2). rewrite Ht2. cbn [advance trace]. rewrite Ht1, app_assoc.
    split; [reflexivity |]. split.
    + intros text Heq. destruct (Hret text Heq) as (before & p & resp & -> & ->).
      exists (d1 ++ before), p, resp. rewrite app_assoc. split; reflexivity.
    + intros l Heq. right.
      destruct (Hfell l Heq) as [(_ & -> & _) | Hsome]; [| exact Hsome].
      exists response. split; [reflexivity | exact Hyes].
Qed.

(** X11.  With [max_rounds >= 1], a string returned by the sequential
    call is read off the last entry of the log, which is a model call: the
    text extracted from its response, or, when that call raised, the
    message of the exception behind the placeholder of the handler. *)
Theorem result_is_read_off_the_last_model_call :
  forall (self : AIGenerator) (query : string) (history : option string)
         (tools : option (list ToolDescriptor)) (tool_manager : option ToolManager)
         (max_rounds0 : Z) (tr : Trace) (text : string) (tr' delta : Trace),
    (1 <= max_rounds0)%Z ->
    generate_response_with_sequential_tools self query history tools tool_manager
      max_rounds0 tr = (Ok text, tr') ->
    tr' = tr ++ delta ->
    exists before p outcome,
      delta = before ++ [EvCreate p outcome] /\
      match outcome with
      | Ok response => text = _extract_text_response (Some response)
      | Raise e =>
          text = ("Error during sequential tool execution: " ++ exn_str e)%string \/
          text = ("Error generating final response: " ++ exn_str e)%string
      end.
Proof.
  intros self query history tools tool_manager max_rounds0 tr text tr' delta
    Hmax Hrun Htr.
  rewrite sequential_run_trace in Hrun. injection Hrun as Hr Ht.
  rewrite Htr in Ht. clear Htr. revert Hr Ht.
  unfold sequential_run. rewrite sequential_rounds_spec.
  set (s0 := mkSeq (initial_round_state self query history max_rounds0) tr).
  assert (Hcan : can_continue (round_state s0) = true).
  { unfold can_continue. cbn.
    assert (H1 : (1 <=? max_rounds0)%Z = true) by (apply Z.leb_le; exact Hmax).
    rewrite H1. reflexivity. }
  destruct (rounds_loop_ending self tools tool_manager None s0)
    as (d & Hd & Hret & Hfell).
  destruct (rounds_loop_raise self tools tool_manager None s0) as (d' & Hd' & Hraise).
  rewrite Hd in Hd'. apply app_inv_head in Hd'. subst d'.
  cbn [s0 trace] in Hd.
  destruct (rounds_loop self tools tool_manager None s0) as [[[t | last] | e0] s1];
    cbn [fst snd] in *.
  - intros Hr Ht. injection Hr as <-.
    rewrite Hd in Ht. apply app_inv_head in Ht. subst d.
    destruct (Hret t eq_refl) as (before & p & response & -> & ->).
    exists before, p, (Ok response). split; reflexivity.
  - destruct (Hfell last eq_refl) as [(Hstop & _) | (response & -> & Hyes)];
      [congruence |].
    rewrite Hyes. cbn [fst snd trace]. intros Hr Ht.
    rewrite Hd, <- app_assoc in Ht. apply app_inv_head in Ht. subst delta.
    exists d. eexists. eexists. split; [reflexivity |].
    rewrite <- Hd.
    destruct (messages_create self (trace s1) _) as [fin | e]; cbn in Hr.
    + injection Hr as <-. reflexivity.
    + destruct (exn_is_Exception e); [| discriminate].
      injection Hr as <-. right. reflexivity.
  - intros Hr Ht. rewrite Hd in Ht. apply app_inv_head in Ht. subst d.
    destruct (exn_is_Exception e0) eqn:E0; [| discriminate].
    injection Hr as <-.
    destruct (Hraise e0 eq_refl) as (before & ev & -> & Hev).
    destruct Hev as [(p & ->) | (n & i & _ & Hnot)]; [| congruence].
    exists before, p, (Raise e0). split; [reflexivity |]. left. reflexivity.
Qed.

(** X11 where the only tool call fails and the model is asked once more. *)
Lemma result_is_read_off_the_last_model_call_witness :
  exists before p outcome,
    snd failing_tool_run = before ++ [EvCreate p outcome] /\
    match outcome with
    | Ok response => "Synthesized answer" = _extract_text_response (Some response)
    | Raise e =>
        "Synthesized answer"
        = ("Error during sequential tool execution: " ++ exn_str e)%string \/
        "Synthesized answer"
        = ("Error generating final response: " ++ exn_str e)%string
    end.
Proof.
  apply (result_is_read_off_the_last_model_call
           (generator [Ok talkative_tool_response; Ok synthesized_response])
           "Query that causes tool failure" None search_tools
           (Some (scripted_tools [Raise tool_failed])) 2 []
           "Synthesized answer" (snd failing_tool_run) (snd failing_tool_run)).
  - lia.
  - vm_compute. reflexivity.
  - reflexivity.
Defined.

(* ===================================================================== *)
(** ** Whether the returned string is empty *)
(* ===================================================================== *)

(** [_extract_text_response] gives the empty string exactly for a response
    whose first text is empty. *)
Lemma extract_text_empty (response : Response) :
  _extract_text_response (Some response) = "" <->
  first_text (content response) = Some "".
Proof.
  unfold _extract_text_response.
  destruct (first_text (content response)) as [t |]; split; intros H.
  - rewrite H. reflexivity.
  - injection H as ->. reflexivity.
  - discriminate.
  - discriminate.
Qed.

Lemma last_create_answer (before before' : Trace) (p p' : ApiParams)
    (outcome : PyResult Response) (response : Response) :
  before ++ [EvCreate p outcome] = before' ++ [EvCreate p' (Ok response)] ->
  outcome = Ok response.
Proof.
  intros H. apply app_inj_tail in H. destruct H as [_ H].
  injection H as _ ->. reflexivity.
Qed.

(** C8, as the code has it.  The string a sequential call returns is empty
    exactly when the last entry of the call's log is a model call answered
    with a response whose first text is the empty string, which the call
    returns as it is.  In every other case the string is not empty: an
    empty text in a response that is not the last one does no harm, and the
    placeholders are not empty. *)
Theorem returned_string_empty_iff_last_model_text_empty :
  forall (self : AIGenerator) (query : string) (history : option string)
         (tools : option (list ToolDescriptor)) (tool_manager : option ToolManager)
         (max_rounds : Z) (tr : Trace) (text : string) (tr' delta : Trace),
    generate_response_with_sequential_tools self query history tools tool_manager
      max_rounds tr = (Ok text, tr') ->
    tr' = tr ++ delta ->
    (text = "" <->
     exists before p response,
       delta = before ++ [EvCreate p (Ok response)] /\
       first_text (content response) = Some "").
Proof.
  intros self query history tools tool_manager max_rounds tr text tr' delta
    Hrun Htr.
  rewrite sequential_run_trace in Hrun. injection Hrun as Hr Ht.
  rewrite Htr in Ht. clear Htr. revert Hr Ht.
  unfold sequential_run. rewrite sequential_rounds_spec.
  set (s0 := mkSeq (initial_round_state self query history max_rounds) tr).
  destruct (rounds_loop_ending self tools tool_manager None s0)
    as (d & Hd & Hret & Hfell).
  destruct (rounds_loop_raise self tools tool_manager None s0) as (d' & Hd' & Hraise).
  rewrite Hd in Hd'. apply app_inv_head in Hd'. subst d'.
  cbn [s0 trace] in Hd.
  destruct (rounds_loop self tools tool_manager None s0) as [[[t | last] | e0] s1];
    cbn [fst snd] in *.
  - (* the loop returned the text of a response *)
    intros Hr Ht. injection Hr as <-.
    rewrite Hd in Ht. apply app_inv_head in Ht. subst d.
    destruct (Hret t eq_refl) as (before & p & response & -> & ->).
    split.
    + intros Hempty. exists before, p, response.
      split; [reflexivity | apply extract_text_empty; exact Hempty].
    + intros (before' & p' & response' & Heq & Hfirst).
      apply last_create_answer in Heq. injection Heq as ->.
      apply extract_text_empty. exact Hfirst.
  - destruct (Hfell last eq_refl) as [(_ & -> & ->) | (response & -> & Hyes)].
    + (* no round was allowed *)
      cbn. intros Hr Ht. injection Hr as <-.
      rewrite app_nil_r in Hd. rewrite Hd in Ht.
      rewrite <- (app_nil_r tr) in Ht at 1. apply app_inv_head in Ht. subst delta.
      split; [discriminate |].
      intros (before & p & response & Heq & _).
      apply app_cons_not_nil in Heq. destruct Heq.
    + (* the final call *)
      rewrite Hyes. cbn [fst snd trace]. intros Hr Ht.
      rewrite Hd, <- app_assoc in Ht. apply app_inv_head in Ht. subst delta.
      rewrite <- Hd.
      destruct (messages_create self (trace s1) _) as [fin | e]; cbn in Hr.
      * injection Hr as <-. split.
        { intros Hempty. exists d. eexists. exists fin.
          split; [reflexivity | apply extract_text_empty; exact Hempty]. }
        { intros (before' & p' & response' & Heq & Hfirst).
          apply last_create_answer in Heq. injection Heq as ->.
          apply extract_text_empty. exact Hfirst. }
      * destruct (exn_is_Exception e); [| discriminate].
        injection Hr as <-. split; [discriminate |].
        intros (before' & p' & response' & Heq & _).
        apply last_create_answer in Heq. discriminate.
  - (* a round raised and the handler answered *)
    intros Hr Ht. rewrite Hd in Ht. apply app_inv_head in Ht. subst d.
    destruct (exn_is_Exception e0); [| discriminate].
    injection Hr as <-. split; [discriminate |].
    intros (before' & p' & response' & Heq & _).
    destruct (Hraise e0 eq_refl) as (before & ev & Hlast & Hev).
    rewrite Hlast in Heq. apply app_inj_tail in Heq. destruct Heq as [_ ->].
    destruct Hev as [(p & Hev) | (n & i & Hev & _)]; discriminate.
Qed.

(** C8 as stated fails: the endpoint answers with one text block whose
    text is empty, and the call returns the empty string. *)
Lemma empty_model_text_is_returned :
  fst empty_text_run = Ok "".
Proof. vm_compute. reflexivity. Qed.

(** The amended C8 where the first response, which asks for a search,
    opens with an empty text and the second one answers: the last entry of
    the log decides. *)
Lemma returned_string_empty_iff_last_model_text_empty_witness :
  "Synthesized answer" = "" <->
  exists before p response,
    snd empty_aside_run = before ++ [EvCreate p (Ok response)] /\
    first_text (content response) = Some "".
Proof.
  apply (returned_string_empty_iff_last_model_text_empty
           empty_aside_generator "What is machine learning?" None search_tools
           (Some (scripted_tools [Ok "Lesson text"])) 2 []
           "Synthesized answer" (snd empty_aside_run) (snd empty_aside_run)).
  - vm_compute. reflexivity.
  - reflexivity.
Defined.

(** In that run the endpoint did answer with an empty first text, in the
    first round, and the result is not empty. *)
Example empty_aside_is_not_returned :
  first_text (content empty_aside_response) = Some "" /\
  In (EvCreate (round_params empty_aside_generator search_tools
                  (initial_round_state empty_aside_generator
                     "What is machine learning?" None 2))
        (Ok empty_aside_response))
     (snd empty_aside_run) /\
  fst empty_aside_run = Ok "Synthesized answer".
Proof.
  split; [reflexivity |].
  split; [vm_compute; left; reflexivity | vm_compute; reflexivity].
Qed.

(* ===================================================================== *)
(** ** The single-call path, case by case *)
(* ===================================================================== *)

Lemma generate_response_spec (self : AIGenerator) query history tools tool_manager
    tr r tr' :
  generate_response self query history tools tool_manager tr = (r, tr') ->
  exists delta,
    tr' = tr ++ delta /\
    single_call_outcome self query history tools tool_manager r delta.
Proof.
  intros H. unfold generate_response in H. py_unfold.
  fold (offered tools) in H. fold (first_params self query history tools) in H.
  destruct (messages_create self tr _) as [first | e].
  2: { injection H as <- <-. eexists. split; [reflexivity | constructor]. }
  assert (Hdirect : tool_manager = None \/ stop_reason first <> "tool_use" ->
            (Ok (first_block_text first no_valid_content),
             tr ++ [EvCreate (first_params self query history tools) (Ok first)])
            = (r, tr') ->
            exists delta,
              tr' = tr ++ delta /\
              single_call_outcome self query history tools tool_manager r delta).
  { intros Hd Heq. injection Heq as <- <-. eexists. split; [reflexivity |].
    constructor. exact Hd. }
  destruct tool_manager as [tm |]; [| apply Hdirect; auto].
  destruct (stop_reason first =? "tool_use")%string eqn:Es.
  2: { apply Hdirect; [| exact H]. right. apply String.eqb_neq. exact Es. }
  clear Hdirect. apply String.eqb_eq in Es.
  unfold _handle_tool_execution in H. py_unfold.
  destruct (handle_tool_calls tm (content first) [] _) as [r1 tr1] eqn:Eh.
  apply handle_tool_calls_spec in Eh.
  destruct Eh as [(outs & Hl & Ht & ->)
                 | (pre & b & post & outs & e & Hc & Hb & Hl & Ht & ->)].
  - cbn [app] in H.
    assert (Hp : api_params self
                   match batch (content first) outs with
                   | [] => p_messages (first_params self query history tools)
                           ++ [assistant_turn first]
                   | _ :: _ => (p_messages (first_params self query history tools)
                                ++ [assistant_turn first])
                               ++ [tool_result_turn (batch (content first) outs)]
                   end
                   (p_system (first_params self query history tools)) None
                 = follow_up_params self query history first
                     (batch (content first) outs)).
    { unfold follow_up_params, round_turns.
      destruct (batch (content first) outs); reflexivity. }
    rewrite Hp in H. subst tr1.
    match type of H with
    | context [messages_create self ?t ?q] =>
        remember (messages_create self t q) as outcome eqn:Ho
    end.
    clear Ho Hp.
    exists (EvCreate (first_params self query history tools) (Ok first)
              :: ok_events (content first) outs
              ++ [EvCreate (follow_up_params self query history first
                              (batch (content first) outs)) outcome]).
    assert (Hsome : Some tm <> None) by discriminate.
    pose proof (SingleFollowUp self query history tools (Some tm) first outs
                  outcome Es Hsome Hl) as Hcase.
    destruct outcome as [fin | e]; injection H as <- <-;
      (split; [rewrite <- !app_assoc; reflexivity | exact Hcase]).
  - injection H as <- <-. subst tr1. eexists. split.
    2: { eapply SingleToolRaised; eauto. discriminate. }
    rewrite <- !app_assoc. reflexivity.
Qed.

Lemma In_create_ok_events (p : ApiParams) (o : PyResult Response) blocks outs :
  ~ In (EvCreate p o) (ok_events blocks outs).
Proof.
  intros Hin. apply In_ok_events in Hin. destruct Hin as (? & ? & ? & Hin).
  discriminate.
Qed.

(** X12.  [generate_response] makes at most two model calls.  The first
    is on the user query with the offered tools.  A second one is made only
    after a first response with stop reason ["tool_use"] whose tool-use
    requests were all answered; it is the last entry of the log, offers no
    tools, carries the query, the assistant turn and the batch of results
    under the same system content, and decides the result: the text of the
    first block of its response, the after-tools placeholder when that
    block has none, or the exception it raised. *)
Theorem single_call_makes_one_follow_up :
  forall (self : AIGenerator) (query : string) (history : option string)
         (tools : option (list ToolDescriptor)) (tool_manager : option ToolManager)
         (tr : Trace) (r : PyResult string) (tr' delta : Trace),
    generate_response self query history tools tool_manager tr = (r, tr') ->
    tr' = tr ++ delta ->
    model_calls delta <= 2 /\
    exists outcome rest,
      delta = EvCreate (api_params self [user_query query]
                          (build_system_content self history) (offered tools))
                outcome :: rest /\
      forall p o,
        In (EvCreate p o) rest ->
        exists first outs,
          outcome = Ok first /\ stop_reason first = "tool_use" /\
          length outs = length (tool_uses (content first)) /\
          rest = ok_events (content first) outs ++ [EvCreate p o] /\
          p = api_params self
                (user_query query
                   :: round_turns first (batch (content first) outs))
                (build_system_content self history) None /\
          r = match o with
              | Ok final_response =>
                  Ok (first_block_text final_response no_valid_content_after_tools)
              | Raise e => Raise e
              end.
Proof.
  intros self query history tools tool_manager tr r tr' delta Hrun Htr.
  apply generate_response_spec in Hrun. destruct Hrun as (d & Hd & Hcase).
  rewrite Hd in Htr. apply app_inv_head in Htr. subst d. clear Hd.
  destruct Hcase as [e | first Hd | first pre b post outs e Hs Hm Hc Hb Hl
                    | first outs outcome Hs Hm Hl].
  - split; [cbn; lia |]. eexists. exists []. split; [reflexivity | intros ? ? []].
  - split; [cbn; lia |]. eexists. exists []. split; [reflexivity | intros ? ? []].
  - split.
    { change (model_calls (?x :: ?l)) with (model_calls ([x] ++ l)).
      rewrite !model_calls_app, model_calls_ok_events. cbn. lia. }
    eexists. eexists. split; [reflexivity |].
    intros p o Hin. exfalso. apply in_app_or in Hin.
    destruct Hin as [Hin | [Hin | []]]; [| discriminate].
    eapply In_create_ok_events. exact Hin.
  - split.
    { change (model_calls (?x :: ?l)) with (model_calls ([x] ++ l)).
      rewrite !model_calls_app, model_calls_ok_events. cbn. lia. }
    eexists. eexists. split; [reflexivity |].
    intros p o Hin. apply in_app_or in Hin. destruct Hin as [Hin | [Hin | []]].
    { exfalso. eapply In_create_ok_events. exact Hin. }
    injection Hin as <- <-. exists first, outs. repeat split; auto.
Qed.

(** X12 on two answered tool calls. *)
Lemma single_call_makes_one_follow_up_witness :
  (model_calls (snd single_call_run) <= 2 /\
   exists outcome rest,
     snd single_call_run
     = EvCreate (api_params two_tool_generator [user_query "Compare lessons"]
                   (build_system_content two_tool_generator None)
                   (offered search_tools))
         outcome :: rest /\
     forall p o,
       In (EvCreate p o) rest ->
       exists first outs,
         outcome = Ok first /\ stop_reason first = "tool_use" /\
         length outs = length (tool_uses (content first)) /\
         rest = ok_events (content first) outs ++ [EvCreate p o] /\
         p = api_params two_tool_generator
               (user_query "Compare lessons"
                  :: round_turns first (batch (content first) outs))
               (build_system_content two_tool_generator None) None /\
         fst single_call_run
         = match o with
           | Ok final_response =>
               Ok (first_block_text final_response no_valid_content_after_tools)
           | Raise e => Raise e
           end)
  /\ fst single_call_run = Ok "Synthesized answer"
  /\ model_calls (snd single_call_run) = 2.
Proof.
  split; [| split; vm_compute; reflexivity].
  apply (single_call_makes_one_follow_up
           two_tool_generator "Compare lessons" None search_tools
           (Some two_tool_tools) []
           (fst single_call_run) (snd single_call_run) (snd single_call_run)).
  - vm_compute. reflexivity.
  - reflexivity.
Defined.

(** X13.  In the single-call path a model call that raises, the first or
    the follow-up, whatever the exception, ends [generate_response] with
    that exception: nothing is caught, and the failing call is the last
    entry of the log. *)
Theorem single_call_transport_failure_propagates :
  forall (self : AIGenerator) (query : string) (history : option string)
         (tools : option (list ToolDescriptor)) (tool_manager : option ToolManager)
         (tr : Trace) (r : PyResult string) (tr' delta : Trace)
         (p : ApiParams) (e : PyExn),
    generate_response self query history tools tool_manager tr = (r, tr') ->
    tr' = tr ++ delta ->
    In (EvCreate p (Raise e)) delta ->
    r = Raise e /\ exists before, delta = before ++ [EvCreate p (Raise e)].
Proof.
  intros self query history tools tool_manager tr r tr' delta p e Hrun Htr Hin.
  apply generate_response_spec in Hrun. destruct Hrun as (d & Hd & Hcase).
  rewrite Hd in Htr. apply app_inv_head in Htr. subst d. clear Hd.
  destruct Hcase as [e0 | first Hd | first pre b post outs e0 Hs Hm Hc Hb Hl
                    | first outs outcome Hs Hm Hl].
  - destruct Hin as [Hin | []]. injection Hin as <- <-.
    split; [reflexivity |]. exists []. reflexivity.
  - destruct Hin as [Hin | []]. discriminate.
  - exfalso. destruct Hin as [Hin | Hin]; [discriminate |].
    apply in_app_or in Hin. destruct Hin as [Hin | [Hin | []]]; [| discriminate].
    eapply In_create_ok_events. exact Hin.
  - destruct Hin as [Hin | Hin]; [discriminate |].
    apply in_app_or in Hin. destruct Hin as [Hin | [Hin | []]].
    { exfalso. eapply In_create_ok_events. exact Hin. }
    injection Hin as <- ->. split; [reflexivity |].
    eexists (_ :: _). reflexivity.
Qed.

(** X13 on an unreachable endpoint. *)
Lemma single_call_transport_failure_propagates_witness :
  fst single_call_unreachable_run = Raise connection_error /\
  exists before,
    snd single_call_unreachable_run
    = before ++ [EvCreate (first_params (generator [Raise connection_error])
                             "What is machine learning?" None search_tools)
                   (Raise connection_error)].
Proof.
  apply (single_call_transport_failure_propagates
           (generator [Raise connection_error]) "What is machine learning?" None
           search_tools (Some (scripted_tools [])) []
           (fst single_call_unreachable_run) (snd single_call_unreachable_run)
           (snd single_call_unreachable_run)).
  - vm_compute. reflexivity.
  - reflexivity.
  - vm_compute. left. reflexivity.
Defined.

(* ===================================================================== *)
(** ** The single-call path as one sequential round *)
(* ===================================================================== *)

Lemma first_block_text_extract (response : Response) (fallback : string) :
  first_block_text response fallback <> fallback ->
  _extract_text_response (Some response) = first_block_text response fallback.
Proof.
  unfold first_block_text, _extract_text_response.
  destruct (content response) as [| b rest]; [congruence |]. cbn.
  destruct (block_text b); [reflexivity | congruence].
Qed.

(** When the unguarded loop of the single-call path answers every
    request, the guarded loop of the sequential path does the same calls
    and collects the same results, writing only the history. *)
Lemma handle_then_execute (tm : ToolManager) (blocks : list ContentBlock) :
  forall results tr results' tr',
    handle_tool_calls tm blocks results tr = (Ok results', tr') ->
    forall rs, exists rs',
      execute_tool_calls tm blocks results (mkSeq rs tr)
      = (Ok results', mkSeq rs' tr') /\
      same_frame rs rs' /\ has_errors rs' = has_errors rs.
Proof.
  induction blocks as [| b rest IH]; intros results tr results' tr' H rs; cbn in H |- *.
  - py_unfold. injection H as <- <-. exists rs.
    split; [reflexivity |]. split; [apply same_frame_refl | reflexivity].
  - destruct (is_tool_use b); [| apply IH; exact H].
    py_unfold.
    destruct (tm tr (block_name b) (block_input b)) as [out | e]; [| discriminate].
    destruct (IH _ _ _ _ H
                (add_tool_execution (block_name b) (block_input b) out rs))
      as (rs' & Hexec & Hframe & Herr).
    exists rs'. split; [exact Hexec |]. split; [exact Hframe | exact Herr].
Qed.

(** X14.  The single-call path is the sequential path with one round,
    whenever the first response holds tool-use requests exactly when the
    single-call path dispatches (stop reason ["tool_use"] and a tool
    manager given) and the text returned is not a placeholder: the
    sequential call with [max_rounds = 1] then makes the same calls in the
    same order and returns the same text. *)
Theorem single_call_is_one_sequential_round :
  forall (self : AIGenerator) (query : string) (history : option string)
         (tools : option (list ToolDescriptor)) (tool_manager : option ToolManager)
         (tr : Trace) (text : string) (tr' : Trace) (first : Response),
    generate_response self query history tools tool_manager tr = (Ok text, tr') ->
    messages_create self tr
      (api_params self [user_query query] (build_system_content self history)
         (offered tools)) = Ok first ->
    _has_tool_calls (Some first)
    = ((stop_reason first =? "tool_use")%string
       && match tool_manager with Some _ => true | None => false end) ->
    text <> no_valid_content ->
    text <> no_valid_content_after_tools ->
    generate_response_with_sequential_tools self query history tools tool_manager
      1 tr = (Ok text, tr').
Proof.
  intros self query history tools tool_manager tr text tr' first
    Hrun Hfirst Hcoh Hnot1 Hnot2.
  assert (Hdirect :
            _has_tool_calls (Some first) = false ->
            (Ok (first_block_text first no_valid_content),
             tr ++ [EvCreate
                      (api_params self [user_query query]
                         (build_system_content self history) (offered tools))
                      (Ok first)]) = (Ok text, tr') ->
            generate_response_with_sequential_tools self query history tools
              tool_manager 1 tr = (Ok text, tr')).
  { intros Hno Heq. injection Heq as Htext <-.
    rewrite (sequential_direct_answer self query history tools tool_manager 1 tr
               first ltac:(lia) Hfirst Hno).
    rewrite (first_block_text_extract first no_valid_content) by congruence.
    rewrite Htext. reflexivity. }
  unfold generate_response in Hrun. py_unfold. fold (offered tools) in Hrun.
  rewrite Hfirst in Hrun.
  destruct tool_manager as [tm |].
  2: { apply Hdirect; [| exact Hrun]. rewrite Hcoh. apply andb_false_r. }
  destruct (stop_reason first =? "tool_use")%string eqn:Es.
  2: { apply Hdirect; [| exact Hrun]. exact Hcoh. }
  clear Hdirect. cbn [andb] in Hcoh.
  unfold _handle_tool_execution in Hrun. py_unfold.
  destruct (handle_tool_calls tm (content first) [] _) as [[results | e] tr2] eqn:Eh;
    [| discriminate].
  set (rs0 := initial_round_state self query history 1).
  destruct (handle_then_execute tm (content first) [] _ results tr2 Eh
              (messages_append (assistant_turn first) rs0))
    as (rs' & Hexec & (Hcr & Hmr & Hmsg & Hsys) & Herr).
  set (s1 := mkSeq match results with
                   | [] => rs'
                   | _ :: _ => messages_append (tool_result_turn results) rs'
                   end tr2).
  assert (Hround : _execute_tool_round self tools (Some tm) (mkSeq rs0 tr)
                   = (Ok (Some first), s1)).
  { unfold _execute_tool_round. py_unfold.
    assert (Hp : round_params self tools rs0
                 = api_params self [user_query query]
                     (build_system_content self history) (offered tools)).
    { unfold round_params, offered. cbn. rewrite andb_true_r. reflexivity. }
    rewrite Hp, Hfirst, Es. cbn [round_state trace].
    rewrite Hexec. unfold s1. destruct results; reflexivity. }
  assert (Hfinal : final_params self (round_state (advance s1))
                   = api_params self
                       match results with
                       | [] => p_messages
                                 (api_params self [user_query query]
                                    (build_system_content self history)
                                    (offered tools))
                               ++ [assistant_turn first]
                       | _ :: _ =>
                           (p_messages
                              (api_params self [user_query query]
                                 (build_system_content self history)
                                 (offered tools))
                            ++ [assistant_turn first])
                           ++ [tool_result_turn results]
                       end
                       (p_system
                          (api_params self [user_query query]
                             (build_system_content self history) (offered tools)))
                       None).
  { unfold final_params, s1. destruct results; cbn; rewrite Hmsg, Hsys; reflexivity. }
  assert (Hstop : can_continue (round_state (advance s1)) = false).
  { unfold can_continue, s1. destruct results; cbn; rewrite Hcr, Hmr; reflexivity. }
  rewrite sequential_run_trace. unfold sequential_run.
  rewrite sequential_rounds_spec.
  fold rs0. rewrite rounds_loop_step.
  change (can_continue (round_state (mkSeq rs0 tr))) with true.
  rewrite Hround, Hcoh, rounds_loop_step, Hstop, Hcoh.
  cbn [fst snd]. rewrite Hfinal.
  assert (Htrace : trace (advance s1) = tr2) by reflexivity.
  rewrite Htrace.
  cbn [app] in Hrun.
  destruct (messages_create self tr2 _) as [fin | e]; [| discriminate].
  injection Hrun as Htext <-. cbn.
  fold (_extract_text_response (Some fin)).
  rewrite (first_block_text_extract fin no_valid_content_after_tools) by congruence.
  rewrite Htext. reflexivity.
Qed.

(** X14 on two answered tool calls. *)
Lemma single_call_is_one_sequential_round_witness :
  generate_response_with_sequential_tools two_tool_generator "Compare lessons"
    None search_tools (Some two_tool_tools) 1 []
  = (Ok "Synthesized answer", snd single_call_run).
Proof.
  apply (single_call_is_one_sequential_round
           two_tool_generator "Compare lessons" None search_tools
           (Some two_tool_tools) [] "Synthesized answer" (snd single_call_run)
           two_tool_response).
  - vm_compute. reflexivity.
  - reflexivity.
  - reflexivity.
  - discriminate.
  - discriminate.
Defined.

(* ===================================================================== *)
(** ** The executor is only called for what the model asked *)
(* ===================================================================== *)

Lemma requested_app_l (d1 d2 : Trace) name input :
  requested d1 name input -> requested (d1 ++ d2) name input.
Proof.
  intros (p & response & b & Hin & H). exists p, response, b.
  split; [apply in_or_app; left; exact Hin | exact H].
Qed.

Lemma requested_app_r (d1 d2 : Trace) name input :
  requested d2 name input -> requested (d1 ++ d2) name input.
Proof.
  intros (p & response & b & Hin & H). exists p, response, b.
  split; [apply in_or_app; right; exact Hin | exact H].
Qed.

Lemma In_ok_events_block (name : string) (input : ToolInput)
    (o : PyResult string) blocks outs :
  In (EvTool name input o) (ok_events blocks outs) ->
  exists b, In b blocks /\ is_tool_use b = true /\
            block_name b = name /\ block_input b = input.
Proof.
  unfold ok_events. intros H. apply in_map_iff in H.
  destruct H as ([b out] & Heq & Hin). cbn in Heq. injection Heq as <- <- _.
  apply in_combine_l in Hin. unfold tool_uses in Hin. apply filter_In in Hin.
  destruct Hin as [Hin Hb]. exists b. auto.
Qed.

Lemma round_outcome_requested (self : AIGenerator) tools tool_manager s r s1 :
  round_outcome self tools tool_manager s r s1 ->
  exists delta,
    trace s1 = trace s ++ delta /\
    forall name input o,
      In (EvTool name input o) delta ->
      tool_manager <> None /\ requested delta name input.
Proof.
  intros H; destruct H.
  - eexists. split; [reflexivity |]. intros ? ? ? [Hin | []]. discriminate.
  - eexists. split; [reflexivity |]. intros ? ? ? [Hin | []]. discriminate.
  - eexists. split; [eassumption |]. intros name input o [Hin | Hin];
      [discriminate |].
    split; [assumption |]. apply In_ok_events_block in Hin.
    destruct Hin as (b & Hin & Hb & Hn & Hi).
    eexists. exists response, b. split; [left; reflexivity | auto].
  - eexists. split; [eassumption |]. intros name input o [Hin | Hin];
      [discriminate |].
    split; [assumption |]. apply in_app_or in Hin. destruct Hin as [Hin | [Hin | []]].
    + apply In_ok_events_block in Hin. destruct Hin as (b' & Hin & Hb & Hn & Hi).
      eexists. exists response, b'. split; [left; reflexivity |].
      split; [assumption |]. split; [| auto].
      match goal with H : content response = _ |- _ => rewrite H end.
      apply in_or_app. left. exact Hin.
    + injection Hin as <- <- _. eexists. exists response, b.
      split; [left; reflexivity |]. split; [assumption |]. split; [| auto].
      match goal with H : content response = _ |- _ => rewrite H end.
      apply in_or_app. right. left. reflexivity.
  - eexists. split; [eassumption |]. intros name input o [Hin | Hin];
      [discriminate |].
    split; [assumption |]. apply in_app_or in Hin. destruct Hin as [Hin | [Hin | []]].
    + apply In_ok_events_block in Hin. destruct Hin as (b' & Hin & Hb & Hn & Hi).
      eexists. exists response, b'. split; [left; reflexivity |].
      split; [assumption |]. split; [| auto].
      match goal with H : content response = _ |- _ => rewrite H end.
      apply in_or_app. left. exact Hin.
    + injection Hin as <- <- _. eexists. exists response, b.
      split; [left; reflexivity |]. split; [assumption |]. split; [| auto].
      match goal with H : content response = _ |- _ => rewrite H end.
      apply in_or_app. right. left. reflexivity.
Qed.

Lemma rounds_loop_requested (self : AIGenerator) tools tool_manager last s :
  exists delta,
    trace (snd (rounds_loop self tools tool_manager last s)) = trace s ++ delta /\
    forall name input o,
      In (EvTool name input o) delta ->
      tool_manager <> None /\ requested delta name input.
Proof.
  apply rounds_loop_induction
    with (P := fun _ s out =>
                 exists delta,
                   trace (snd out) = trace s ++ delta /\
                   forall name input o,
                     In (EvTool name input o) delta ->
                     tool_manager <> None /\ requested delta name input);
    clear last s.
  - intros last s _. exists []. cbn. rewrite app_nil_r.
    split; [reflexivity | intros ? ? ? []].
  - intros last s e s1 _ Hr. eapply round_outcome_requested. exact Hr.
  - intros last s response s1 _ Hr _. eapply round_outcome_requested. exact Hr.
  - intros last s response s1 out _ Hr _ _ (d2 & Ht2 & IH).
    apply round_outcome_requested in Hr. destruct Hr as (d1 & Ht1 & H1).
    exists (d1 ++ d2). rewrite Ht2. cbn [advance trace]. rewrite Ht1, app_assoc.
    split; [reflexivity |]. intros name input o Hin.
    apply in_app_or in Hin. destruct Hin as [Hin | Hin].
    + destruct (H1 _ _ _ Hin) as [Hm Hreq]. split; [exact Hm |].
      apply requested_app_l. exact Hreq.
    + destruct (IH _ _ _ Hin) as [Hm Hreq]. split; [exact Hm |].
      apply requested_app_r. exact Hreq.
Qed.

(** X15.  In both paths the executor is called only for what the model
    asked: every tool execution of the log, answered or not, has the name
    and the input of a tool-use block of a response with stop reason
    ["tool_use"] that the same call received, and a tool manager was
    given. *)
Theorem executor_is_called_only_on_request :
  forall (self : AIGenerator) (query : string) (history : option string)
         (tools : option (list ToolDescriptor)) (tool_manager : option ToolManager)
         (max_rounds : Z) (tr : Trace) (r : PyResult string) (tr' delta : Trace)
         (name : string) (input : ToolInput) (o : PyResult string),
    (generate_response_with_sequential_tools self query history tools
       tool_manager max_rounds tr = (r, tr')
     \/ generate_response self query history tools tool_manager tr = (r, tr')) ->
    tr' = tr ++ delta ->
    In (EvTool name input o) delta ->
    tool_manager <> None /\
    exists p response b,
      In (EvCreate p (Ok response)) delta /\
      stop_reason response = "tool_use" /\
      In b (content response) /\ is_tool_use b = true /\
      block_name b = name /\ block_input b = input.
Proof.
  intros self query history tools tool_manager max_rounds tr r tr' delta
    name input o [Hrun | Hrun] Htr Hin.
  - rewrite sequential_run_trace in Hrun. injection Hrun as _ Ht.
    rewrite Htr in Ht. clear Htr. revert Ht.
    unfold sequential_run.
    set (s0 := mkSeq (initial_round_state self query history max_rounds) tr).
    destruct (sequential_rounds_extends_loop self tools tool_manager s0)
      as (tail & Htail).
    assert (Hcreate : forall ev, In ev tail -> is_create ev = true).
    { revert Htail. rewrite sequential_rounds_spec.
      destruct (rounds_loop self tools tool_manager None s0)
        as [[[text | last] | e0] s1]; cbn [snd].
      - intros Ht ev Hev. rewrite <- (app_nil_r (trace s1)) in Ht at 1.
        apply app_inv_head in Ht. subst tail. destruct Hev.
      - destruct (_has_tool_calls last); cbn [snd trace].
        + intros Ht ev Hev. apply app_inv_head in Ht. subst tail.
          destruct Hev as [<- | []]. reflexivity.
        + intros Ht ev Hev. rewrite <- (app_nil_r (trace s1)) in Ht at 1.
          apply app_inv_head in Ht. subst tail. destruct Hev.
      - intros Ht ev Hev. rewrite <- (app_nil_r (trace s1)) in Ht at 1.
        apply app_inv_head in Ht. subst tail. destruct Hev. }
    destruct (rounds_loop_requested self tools tool_manager None s0)
      as (d & Hd & Hf).
    rewrite Htail, Hd. cbn [s0 trace]. rewrite <- app_assoc. intros Ht.
    apply app_inv_head in Ht. subst delta.
    apply in_app_or in Hin. destruct Hin as [Hin | Hin].
    + destruct (Hf _ _ _ Hin) as [Hm Hreq]. split; [exact Hm |].
      apply (requested_app_l d tail). exact Hreq.
    + apply Hcreate in Hin. discriminate.
  - apply generate_response_spec in Hrun. destruct Hrun as (d & Hd & Hcase).
    rewrite Hd in Htr. apply app_inv_head in Htr. subst d. clear Hd.
    destruct Hcase as [e0 | first Hd | first pre b post outs e0 Hs Hm Hc Hb Hl
                      | first outs outcome Hs Hm Hl].
    + destruct Hin as [Hin | []]. discriminate.
    + destruct Hin as [Hin | []]. discriminate.
    + split; [exact Hm |]. destruct Hin as [Hin | Hin]; [discriminate |].
      apply in_app_or in Hin. destruct Hin as [Hin | [Hin | []]].
      * apply In_ok_events_block in Hin. destruct Hin as (b' & Hin & Hb' & Hn & Hi).
        eexists. exists first, b'. split; [left; reflexivity |].
        split; [exact Hs |]. split; [| auto].
        rewrite Hc. apply in_or_app. left. exact Hin.
      * injection Hin as <- <- _. eexists. exists first, b.
        split; [left; reflexivity |]. split; [exact Hs |]. split; [| auto].
        rewrite Hc. apply in_or_app. right. left. reflexivity.
    + split; [exact Hm |]. destruct Hin as [Hin | Hin]; [discriminate |].
      apply in_app_or in Hin. destruct Hin as [Hin | [Hin | []]]; [| discriminate].
      apply In_ok_events_block in Hin. destruct Hin as (b' & Hin & Hb' & Hn & Hi).
      eexists. exists first, b'. split; [left; reflexivity | auto].
Qed.

(** X15 at the first tool execution of the run that asks for a search in
    both rounds. *)
Lemma executor_is_called_only_on_request_witness :
  Some max_rounds_tools <> None /\
  exists p response b,
    In (EvCreate p (Ok response)) (snd max_rounds_run) /\
    stop_reason response = "tool_use" /\
    In b (content response) /\ is_tool_use b = true /\
    block_name b = "search_course_content" /\ block_input b = [("query", "test")].
Proof.
  apply (executor_is_called_only_on_request
           max_rounds_generator "Search twice" None search_tools
           (Some max_rounds_tools) 2 []
           (fst max_rounds_run) (snd max_rounds_run) (snd max_rounds_run)
           "search_course_content" [("query", "test")] (Ok "first")).
  - left. vm_compute. reflexivity.
  - reflexivity.
  - vm_compute. right. left. reflexivity.
Defined.

(* ===================================================================== *)
(** ** Where the two paths read the text *)
(* ===================================================================== *)

(** X16.  The two paths read a direct answer differently: when the first
    block of the response carries no text and a later block does, both
    make the same single model call, but [generate_response], which looks
    at [content[0]] only, returns the no-content placeholder, while the
    sequential path returns the text of the later block. *)
Theorem paths_differ_on_a_late_text_block :
  forall (self : AIGenerator) (query : string) (history : option string)
         (tools : option (list ToolDescriptor)) (tool_manager : option ToolManager)
         (max_rounds0 : Z) (tr : Trace) (first : Response)
         (b : ContentBlock) (rest : list ContentBlock) (text : string),
    (1 <= max_rounds0)%Z ->
    messages_create self tr
      (api_params self [user_query query] (build_system_content self history)
         (offered tools)) = Ok first ->
    stop_reason first <> "tool_use" ->
    _has_tool_calls (Some first) = false ->
    content first = b :: rest ->
    block_text b = None ->
    first_text rest = Some text ->
    generate_response self query history tools tool_manager tr
    = (Ok no_valid_content,
       tr ++ [EvCreate
                (api_params self [user_query query]
                   (build_system_content self history) (offered tools))
                (Ok first)])
    /\
    generate_response_with_sequential_tools self query history tools tool_manager
      max_rounds0 tr
    = (Ok text,
       tr ++ [EvCreate
                (api_params self [user_query query]
                   (build_system_content self history) (offered tools))
                (Ok first)]).
Proof.
  intros self query history tools tool_manager max_rounds0 tr first b rest text
    Hmax Hfirst Hstop Hno Hc Hb Hrest.
  split.
  - unfold generate_response. py_unfold. fold (offered tools). rewrite Hfirst.
    apply String.eqb_neq in Hstop. rewrite Hstop.
    unfold first_block_text. rewrite Hc, Hb.
    destruct tool_manager; reflexivity.
  - rewrite (sequential_direct_answer self query history tools tool_manager
               max_rounds0 tr first Hmax Hfirst Hno).
    unfold _extract_text_response. rewrite Hc. cbn [first_text].
    rewrite Hb, Hrest. reflexivity.
Qed.

(** X16 at a response that opens with an image block. *)
Lemma paths_differ_on_a_late_text_block_witness :
  generate_response late_text_generator "Describe the picture" None search_tools
    (Some (scripted_tools [])) []
  = (Ok no_valid_content,
     [] ++ [EvCreate
              (api_params late_text_generator [user_query "Describe the picture"]
                 (build_system_content late_text_generator None)
                 (offered search_tools))
              (Ok late_text_response)])
  /\
  generate_response_with_sequential_tools late_text_generator
    "Describe the picture" None search_tools (Some (scripted_tools [])) 2 []
  = (Ok "Late text",
     [] ++ [EvCreate
              (api_params late_text_generator [user_query "Describe the picture"]
                 (build_system_content late_text_generator None)
                 (offered search_tools))
              (Ok late_text_response)]).
Proof.
  apply (paths_differ_on_a_late_text_block
           late_text_generator "Describe the picture" None search_tools
           (Some (scripted_tools [])) 2 [] late_text_response
           image_block [text_block "Late text"] "Late text").
  - lia.
  - reflexivity.
  - discriminate.
  - reflexivity.
  - reflexivity.
  - reflexivity.
  - reflexivity.
Defined.
